(** * Transaction indexer: the EVM crawler, its RPC pool, parsers and persistence

    A shallow embedding of
    - [utils/call-rpc.ts]                       ([callRpc] and its error classes),
    - [parsers/base-event-parser.ts],
      [parsers/events/deposit-event-parser.ts],
      [parsers/events/withdraw-event-parser.ts],
      [parsers/event-parser-factory.ts],
      [services/event-parsing.service.ts],
    - [transactions/entities/transaction.entity.ts],
    - [services/evm-crawler.service.ts]          ([EvmCrawlerService]),
    - [services/evm-fallback-crawler.service.ts] ([EvmFallbackCrawlerService]).

    JavaScript numbers that hold block heights and confirmation counts are
    modelled as [Z] (they stay far below 2^53), [undefined] as [None], a
    thrown value as the [Throw] branch of a result type.  The relational
    table carries a unique index on [transaction_hash], so it is a finite
    map from transaction hash to row; a row holds what a read of it
    returns.  The two [numeric] columns are modelled with their precision
    and scale; the strings and integers of the other columns are taken to
    fit their column types. *)

From Stdlib Require Import ZArith String Ascii List Bool Lia DecimalString DecimalZ.
From stdpp Require Import base option gmap strings list.

Local Open Scope string_scope.
Local Open Scope Z_scope.

(** ** JavaScript strings *)

Module Js.

(** [hay.includes(needle)] *)
Fixpoint includes (hay needle : string) : bool :=
  String.prefix needle hay
  || match hay with
     | EmptyString => false
     | String _ rest => includes rest needle
     end.

Definition lowerAscii (c : ascii) : ascii :=
  let n := nat_of_ascii c in
  if (Nat.leb 65 n && Nat.leb n 90)%bool then ascii_of_nat (n + 32) else c.

(** [s.toLowerCase()] on the ASCII range (addresses, error messages). *)
Fixpoint toLowerCase (s : string) : string :=
  match s with
  | EmptyString => EmptyString
  | String c rest => String (lowerAscii c) (toLowerCase rest)
  end.

(** Truthiness of a string: only the empty string is falsy. *)
Definition truthyString (s : string) : bool :=
  match s with EmptyString => false | _ => true end.

(** Truthiness of a bigint: only [0n] is falsy. *)
Definition truthyBigInt (n : Z) : bool := negb (n =? 0).

(** [String(n)] for a bigint. *)
Definition stringOfBigInt (n : Z) : string :=
  NilZero.string_of_int (Z.to_int n).

(** A value caught by [catch (err: unknown)]: an [Error] with its message,
    or something that is not an [Error] instance. *)
Inductive Thrown : Type :=
| ErrorObject (message : string)
| NotAnError (description : string).

Inductive Outcome (T : Type) : Type :=
| Return (value : T)
| Throw (err : Thrown).
Arguments Return {T} value.
Arguments Throw {T} err.

(** A reference implementation of [ethers.formatUnits] on strings of
    decimal digits, used to run the crawler on concrete logs: the digits
    are split [decimals] places from the right and the fraction loses its
    trailing zeros but keeps one digit. *)
Fixpoint zeros (n : nat) : string :=
  match n with
  | O => EmptyString
  | S n' => String "0" (zeros n')
  end.

Fixpoint stripTrailingZeros (s : string) : string :=
  match s with
  | EmptyString => EmptyString
  | String c rest =>
      match stripTrailingZeros rest with
      | EmptyString => if Ascii.eqb c "0" then EmptyString else String c EmptyString
      | kept => String c kept
      end
  end.

Definition formatUnitsDigits (value : string) (decimals : Z) : string :=
  let d := Z.to_nat decimals in
  let padded := String.append (zeros (S d - String.length value)) value in
  let whole := String.substring 0 (String.length padded - d) padded in
  let fraction :=
    stripTrailingZeros (String.substring (String.length padded - d) d padded) in
  String.append whole
    (String.append "."
       match fraction with EmptyString => "0" | _ => fraction end).

End Js.

(** ** The RPC client pool: [utils/call-rpc.ts] *)

Module CallRpc.
Import Js.

Definition isRateLimitError (err : Thrown) : bool :=
  match err with
  | ErrorObject message => includes message "429"
  | NotAnError _ => false
  end.

Definition isPrunedError (err : Thrown) : bool :=
  match err with
  | ErrorObject message => includes message "has been pruned"
  | NotAnError _ => false
  end.

Definition isDisconnectError (err : Thrown) : bool :=
  match err with
  | ErrorObject message => includes message "disconnect"
  | NotAnError _ => false
  end.

Definition isDetectNetworkError (err : Thrown) : bool :=
  match err with
  | ErrorObject message => includes message "failed to detect network"
  | NotAnError _ => false
  end.

Definition isJsonRpcProviderError (err : Thrown) : bool :=
  match err with
  | ErrorObject message => includes (toLowerCase message) "internal"
  | NotAnError _ => false
  end.

(** The condition of the [catch] block in [callRpc]. *)
Definition isRecoverable (err : Thrown) : bool :=
  isRateLimitError err
  || isPrunedError err
  || isDisconnectError err
  || isDetectNetworkError err
  || isJsonRpcProviderError err.

Section Pool.
Context {T : Type}.

(** The operation, as a function of the endpoint: [getProvider] memoises
    one provider per endpoint string, so the provider handed to [f] is
    determined by [rpcUrl].  Each endpoint is tried at most once per
    call. *)
Variable f : string -> Outcome T.

(** The [for (const rpcUrl of rpcUrls)] loop with its [lastError]
    variable.  The second component lists the endpoints on which [f]
    was invoked, in order. *)
Fixpoint callRpcFrom (lastError : option Thrown) (rpcUrls : list string)
  : Outcome T * list string :=
  match rpcUrls with
  | [] =>
      (match lastError with
       | Some (ErrorObject message) => Throw (ErrorObject message)
       | _ => Throw (ErrorObject "All RPC calls failed")
       end, [])
  | rpcUrl :: rest =>
      match f rpcUrl with
      | Return value => (Return value, [rpcUrl])
      | Throw err =>
          if isRecoverable err
          then let '(res, tried) := callRpcFrom (Some err) rest in
               (res, rpcUrl :: tried)
          else (Throw err, [rpcUrl])
      end
  end.

Definition callRpc (rpcUrls : list string) : Outcome T * list string :=
  callRpcFrom None rpcUrls.

(** Endpoint [rpcUrl] fails with a recoverable error. *)
Definition failsRecoverably (rpcUrl : string) : Prop :=
  exists err, f rpcUrl = Throw err /\ isRecoverable err = true.

End Pool.

End CallRpc.


(** ** The transactions table: [transaction.entity.ts] *)

Module Entity.

Inductive TRANSACTION_OPERATION : Type := DEPOSIT | WITHDRAW.

Inductive TRANSACTION_STATUS : Type := PENDING | CONFIRMED | FAILED.

(** A stored row.  [tokenAddress] and [contractAddress] are the nullable
    columns.  The columns [id], [createdAt] and [updatedAt] of the base
    entity are generated by the database and are not part of the model. *)
Record TransactionEntity : Type := mkTransactionEntity {
  address : string;
  amount : string;
  rawAmount : string;
  operation : TRANSACTION_OPERATION;
  transactionHash : string;
  chainId : string;
  blockNumber : Z;
  blockTime : Z;
  blockHash : string;
  tokenAddress : option string;
  tokenDecimals : Z;
  contractAddress : option string;
  confirmations : Z;
  requireConfirmations : Z;
  status : TRANSACTION_STATUS
}.

End Entity.

(** The object handed to [manager.save], [manager.upsert] or
    [repository.save] for a row that is not in the table yet: every
    property may be [undefined], in which case the column is left out of
    the statement. *)
Module Partial.

Record PartialTransaction : Type := mkPartialTransaction {
  address : option string;
  amount : option string;
  rawAmount : option string;
  operation : Entity.TRANSACTION_OPERATION;
  transactionHash : string;
  chainId : string;
  blockNumber : Z;
  blockTime : Z;
  blockHash : string;
  tokenAddress : option string;
  tokenDecimals : option Z;
  contractAddress : option string;
  confirmations : Z;
  requireConfirmations : Z;
  status : Entity.TRANSACTION_STATUS
}.

End Partial.

Module Store.
Import Js.

(** [QueryFailedError] with the PostgreSQL error code. *)
Record QueryFailedError : Type := mkQueryFailedError {
  code : string;
  errorMessage : string
}.

Definition uniqueViolation : QueryFailedError :=
  mkQueryFailedError "23505"
    "duplicate key value violates unique constraint".

Definition notNullViolation : QueryFailedError :=
  mkQueryFailedError "23502" "null value violates not-null constraint".

Definition numericOverflow : QueryFailedError :=
  mkQueryFailedError "22003" "numeric field overflow".

Definition invalidNumeric : QueryFailedError :=
  mkQueryFailedError "22P02" "invalid input syntax for type numeric".

(** What a call of the entity manager throws: an error of the driver, or
    TypeORM's own [EntityPropertyNotFoundError], which has no [code]. *)
Inductive DbError : Type :=
| QueryFailed (error : QueryFailedError)
| EntityPropertyNotFound (propertyPath : string).

Definition quote : string := String (ascii_of_nat 34) EmptyString.

(** [error.message] *)
Definition messageOf (error : DbError) : string :=
  match error with
  | QueryFailed e => errorMessage e
  | EntityPropertyNotFound propertyPath =>
      String.append "Property "
        (String.append quote
           (String.append propertyPath
              (String.append quote
                 (String.append " was not found in "
                    (String.append quote
                       (String.append "TransactionEntity"
                          (String.append quote
                             ". Make sure your query is correct.")))))))
  end.

(** [shared/utils]: [isPsqlConflictError] *)
Definition isPsqlConflictError (error : DbError) : bool :=
  match error with
  | QueryFailed e => String.eqb (code e) "23505"
  | EntityPropertyNotFound _ => false
  end.

Inductive DbResult (A : Type) : Type :=
| DbOk (value : A)
| DbFail (error : DbError).
Arguments DbOk {A} value.
Arguments DbFail {A} error.

Definition bind {A B : Type} (m : DbResult A) (k : A -> DbResult B)
  : DbResult B :=
  match m with
  | DbOk value => k value
  | DbFail error => DbFail error
  end.

(** *** The [numeric(precision, scale)] columns

    PostgreSQL reads the decimal notation [[-]digits[.digits]] that
    [String(bigint)] and [ethers.formatUnits] write, rounds it to [scale]
    fraction digits (half away from zero), refuses it with 22003 when the
    rounded value needs more than [precision] digits, and returns it on
    a read with exactly [scale] fraction digits.  A value is kept as its
    magnitude in units of 10^-scale. *)

Definition digitOf (c : ascii) : option Z :=
  let n := Z.of_nat (nat_of_ascii c) in
  if (48 <=? n) && (n <=? 57) then Some (n - 48) else None.

Fixpoint allDigits (s : string) : bool :=
  match s with
  | EmptyString => true
  | String c rest =>
      match digitOf c with
      | Some _ => allDigits rest
      | None => false
      end
  end.

(** The digits before the point: their value after [acc], whether there
    was one, and what follows them. *)
Fixpoint wholePart (s : string) (acc : Z) (seen : bool)
  : Z * bool * string :=
  match s with
  | EmptyString => (acc, seen, s)
  | String c rest =>
      match digitOf c with
      | Some d => wholePart rest (10 * acc + d) true
      | None => (acc, seen, s)
      end
  end.

(** The digits after the point: [scale] of them are kept (zeros fill
    what is missing), the next one decides the rounding. *)
Fixpoint fractionPart (scale : nat) (s : string) (acc : Z) (seen : bool)
  : option (Z * bool * bool) :=
  match scale, s with
  | O, EmptyString => Some (acc, false, seen)
  | O, String c rest =>
      match digitOf c with
      | Some d => if allDigits rest then Some (acc, 5 <=? d, true) else None
      | None => None
      end
  | S scale', EmptyString => fractionPart scale' EmptyString (10 * acc) seen
  | S scale', String c rest =>
      match digitOf c with
      | Some d => fractionPart scale' rest (10 * acc + d) true
      | None => None
      end
  end.

(** What a read returns for the magnitude [m] in units of 10^-scale. *)
Definition renderNumeric (scale : nat) (negative : bool) (m : Z) : string :=
  let unit := 10 ^ Z.of_nat scale in
  let digits := stringOfBigInt (m mod unit) in
  String.append (if negative && negb (m =? 0) then "-" else "")
    (String.append (stringOfBigInt (m / unit))
       match scale with
       | O => ""
       | S _ =>
           String.append "."
             (String.append (zeros (scale - String.length digits)) digits)
       end).

Definition numeric (precision scale : nat) (s : string) : DbResult string :=
  let '(negative, body) :=
    match s with
    | String "-" rest => (true, rest)
    | String "+" rest => (false, rest)
    | _ => (false, s)
    end in
  let '(whole, seen, rest) := wholePart body 0 false in
  let scaled : option Z :=
    match rest with
    | EmptyString =>
        if seen then Some (whole * 10 ^ Z.of_nat scale) else None
    | String "." fraction =>
        match fractionPart scale fraction whole seen with
        | Some (m, roundUp, true) => Some (if roundUp then m + 1 else m)
        | _ => None
        end
    | _ => None
    end in
  match scaled with
  | None => DbFail (QueryFailed invalidNumeric)
  | Some m =>
      if 10 ^ Z.of_nat precision <=? m
      then DbFail (QueryFailed numericOverflow)
      else DbOk (renderNumeric scale negative m)
  end.

(** The table, keyed by the column of its unique index. *)
Abbreviation Table := (gmap string Entity.TransactionEntity).

(** The row an INSERT of [p] creates: the column defaults of the entity
    ([amount] '0', [raw_amount] '0', [token_decimals] 18) fill the
    properties left undefined; [amount] is numeric(65,18) and
    [raw_amount] numeric(78,0); [address] is NOT NULL and has no
    default, which the constraint check finds once the values are
    converted. *)
Definition materialize (p : Partial.PartialTransaction)
  : DbResult Entity.TransactionEntity :=
  bind (numeric 65 18 (default "0" (Partial.amount p))) (fun amount =>
  bind (numeric 78 0 (default "0" (Partial.rawAmount p))) (fun rawAmount =>
    match Partial.address p with
    | None => DbFail (QueryFailed notNullViolation)
    | Some addr =>
        DbOk {| Entity.address := addr;
                Entity.amount := amount;
                Entity.rawAmount := rawAmount;
                Entity.operation := Partial.operation p;
                Entity.transactionHash := Partial.transactionHash p;
                Entity.chainId := Partial.chainId p;
                Entity.blockNumber := Partial.blockNumber p;
                Entity.blockTime := Partial.blockTime p;
                Entity.blockHash := Partial.blockHash p;
                Entity.tokenAddress := Partial.tokenAddress p;
                Entity.tokenDecimals := default 18 (Partial.tokenDecimals p);
                Entity.contractAddress := Partial.contractAddress p;
                Entity.confirmations := Partial.confirmations p;
                Entity.requireConfirmations := Partial.requireConfirmations p;
                Entity.status := Partial.status p |}
    end)).

(** INSERT of one new row; the unique index rejects a hash already
    present. *)
Definition insertOne (table : Table) (p : Partial.PartialTransaction)
  : DbResult Table :=
  bind (materialize p) (fun row =>
    match table !! Partial.transactionHash p with
    | Some _ => DbFail (QueryFailed uniqueViolation)
    | None => DbOk (<[Partial.transactionHash p := row]> table)
    end).

(** [manager.save(TransactionEntity, transactions)] for objects without
    an id: one INSERT per object; the first failure aborts the call and
    nothing of it is kept. *)
Fixpoint saveNew (table : Table) (ps : list Partial.PartialTransaction)
  : DbResult Table :=
  match ps with
  | [] => DbOk table
  | p :: rest => bind (insertOne table p) (fun table' => saveNew table' rest)
  end.

(** The property names [TransactionEntity] declares. *)
Definition propertyPaths : list string :=
  ["address"; "amount"; "rawAmount"; "operation"; "transactionHash";
   "chainId"; "blockNumber"; "blockTime"; "blockHash"; "tokenAddress";
   "tokenDecimals"; "contractAddress"; "confirmations";
   "requireConfirmations"; "status"].

(** ON CONFLICT ... DO UPDATE: the columns whose property is defined in
    [p] are overwritten, the others keep the stored value. *)
Definition overwrite (row : Entity.TransactionEntity)
  (p : Partial.PartialTransaction) (fresh : Entity.TransactionEntity)
  : Entity.TransactionEntity :=
  {| Entity.address := Entity.address fresh;
     Entity.amount :=
       match Partial.amount p with
       | Some _ => Entity.amount fresh
       | None => Entity.amount row
       end;
     Entity.rawAmount :=
       match Partial.rawAmount p with
       | Some _ => Entity.rawAmount fresh
       | None => Entity.rawAmount row
       end;
     Entity.operation := Partial.operation p;
     Entity.transactionHash := Entity.transactionHash row;
     Entity.chainId := Partial.chainId p;
     Entity.blockNumber := Partial.blockNumber p;
     Entity.blockTime := Partial.blockTime p;
     Entity.blockHash := Partial.blockHash p;
     Entity.tokenAddress :=
       match Partial.tokenAddress p with
       | Some t => Some t
       | None => Entity.tokenAddress row
       end;
     Entity.tokenDecimals :=
       default (Entity.tokenDecimals row) (Partial.tokenDecimals p);
     Entity.contractAddress :=
       match Partial.contractAddress p with
       | Some c => Some c
       | None => Entity.contractAddress row
       end;
     Entity.confirmations := Partial.confirmations p;
     Entity.requireConfirmations := Partial.requireConfirmations p;
     Entity.status := Partial.status p |}.

(** [manager.upsert(TransactionEntity, p, { conflictPaths, ... })].
    TypeORM looks every conflict path up among the properties of the
    entity before it writes the statement, and throws
    [EntityPropertyNotFoundError] for a path that is no property name;
    a column name such as [transaction_hash] is none.  With the path
    [transactionHash] the statement is an INSERT ... ON CONFLICT
    (transaction_hash) DO UPDATE. *)
Definition upsert (conflictPaths : list string) (table : Table)
  (p : Partial.PartialTransaction) : DbResult Table :=
  match List.find (fun path => negb (existsb (String.eqb path) propertyPaths))
          conflictPaths with
  | Some path => DbFail (EntityPropertyNotFound path)
  | None =>
      bind (materialize p) (fun fresh =>
        match table !! Partial.transactionHash p with
        | Some row =>
            DbOk (<[Partial.transactionHash p := overwrite row p fresh]> table)
        | None => DbOk (<[Partial.transactionHash p := fresh]> table)
        end)
  end.

End Store.


(** ** What ethers hands to the crawler *)

Module Ethers.

(** [event.args] of a log decoded against the contract ABI
    [event Deposit(address indexed user, address indexed tokenAddress,
    uint256 amount, uint8 decimals)] (and the same for [Withdraw]):
    addresses decode to strings, integers to bigint. *)
Record Result : Type := mkResult {
  arg0 : string;
  arg1 : string;
  arg2 : Z;
  arg3 : Z
}.

(** [ethers.EventLog]; an absent [eventName] is the empty string, absent
    [args] is [None]. *)
Record EventLog : Type := mkEventLog {
  eventName : string;
  address : string;
  blockNumber : Z;
  transactionHash : string;
  blockHash : string;
  args : option Result
}.

(** [ethers.Block]; [hash] is null for a pending block. *)
Record Block : Type := mkBlock {
  number : Z;
  hash : option string;
  parentHash : string;
  timestamp : Z
}.

(** A log of a receipt, with what [contract.interface.parseLog(log)]
    returns for it ([None] when it returns null or throws): the event
    name and the decoded arguments. *)
Record Log : Type := mkLog {
  logAddress : string;
  logBlockNumber : Z;
  logTransactionHash : string;
  logBlockHash : string;
  parseLog : option (string * Result)
}.

(** [ethers.TransactionReceipt]; [to] is null for a contract creation. *)
Record TransactionReceipt : Type := mkTransactionReceipt {
  to : option string;
  receiptHash : string;
  receiptBlockNumber : Z;
  logs : list Log
}.

(** One JSON-RPC endpoint, as the crawler uses it.  [queryFilter from to]
    is [contract.connect(provider).queryFilter(['Deposit', 'Withdraw'],
    from, to)]. *)
Record Provider : Type := mkProvider {
  getBlockNumber : Js.Outcome Z;
  getBlock : Z -> Js.Outcome (option Block);
  getTransactionReceipt : string -> Js.Outcome (option TransactionReceipt);
  queryFilter : Z -> Z -> Js.Outcome (list EventLog)
}.

(** When [ethers.formatUnits(value, decimals)] throws: the fixed-point
    format it builds allows at most 80 decimals and a signed width of
    512 bits.  A uint256 amount always fits the width; a uint8 may
    exceed the decimals. *)
Definition formatUnitsThrows (value decimals : Z) : bool :=
  (decimals <? 0) || (80 <? decimals)
  || (value <? - 2 ^ 511) || (2 ^ 511 <=? value).

End Ethers.

(** ** The event parsers *)

Module Parser.
Import Js.

(** [ParsedEvent], with the properties [DepositEventData] and
    [WithdrawEventData] add to it. *)
Record ParsedEvent : Type := mkParsedEvent {
  eventName : string;
  contractAddress : string;
  blockNumber : Z;
  transactionHash : string;
  blockHash : string;
  operation : Entity.TRANSACTION_OPERATION;
  tokenAddress : option string;
  amount : option string;
  rawAmount : option string;
  decimals : option Z;
  address : option string
}.

Section WithFormatUnits.

(** [ethers.formatUnits(value, decimals)], a function of the ethers
    library. *)
Variable formatUnits : string -> Z -> string.

(** [BaseEventParser.extractBasicEventData]: [thisEventName] is the
    parser's own event name. *)
Definition extractBasicEventData (thisEventName : string)
  (event : Ethers.EventLog) : string * string * Z * string * string :=
  (if truthyString (Ethers.eventName event)
   then Ethers.eventName event else thisEventName,
   Ethers.address event,
   Ethers.blockNumber event,
   Ethers.transactionHash event,
   Ethers.blockHash event).

(** The extractors are the same in both parsers. *)
Definition extractDecimals (args : Ethers.Result) : option Z :=
  if truthyBigInt (Ethers.arg3 args) then Some (Ethers.arg3 args) else None.

Definition extractRawAmount (args : Ethers.Result) : option string :=
  if truthyBigInt (Ethers.arg2 args)
  then Some (stringOfBigInt (Ethers.arg2 args)) else None.

Definition extractTokenAddress (args : Ethers.Result) : option string :=
  if truthyString (Ethers.arg1 args) then Some (Ethers.arg1 args) else None.

(** [rawAmount] is the decimal string of the third argument. *)
Definition extractAmount (args : Ethers.Result) : Outcome (option string) :=
  match extractRawAmount args with
  | None => Return None
  | Some rawAmount =>
      let decimals := default 18 (extractDecimals args) in
      if Ethers.formatUnitsThrows (Ethers.arg2 args) decimals
      then Throw (ErrorObject "invalid fixed format (decimals too large)")
      else Return (Some (formatUnits rawAmount decimals))
  end.

Definition extractUserAddress (args : Ethers.Result) : option string :=
  if truthyString (Ethers.arg0 args) then Some (Ethers.arg0 args) else None.

(** The shared body of [DepositEventParser.parseEvent] and
    [WithdrawEventParser.parseEvent]; the two differ in [operation] and
    in their event name only.  The [catch] around the body answers null
    when [formatUnits] throws. *)
Definition parseEventAs (thisEventName : string)
  (op : Entity.TRANSACTION_OPERATION) (event : Ethers.EventLog)
  : option ParsedEvent :=
  match Ethers.args event with
  | None => None
  | Some args =>
      let '(name, contract, blockNo, txHash, blkHash) :=
        extractBasicEventData thisEventName event in
      match extractAmount args with
      | Throw _ => None
      | Return formatted =>
          Some {| eventName := name;
                  contractAddress := contract;
                  blockNumber := blockNo;
                  transactionHash := txHash;
                  blockHash := blkHash;
                  operation := op;
                  tokenAddress := extractTokenAddress args;
                  amount := formatted;
                  rawAmount := extractRawAmount args;
                  decimals := extractDecimals args;
                  address := extractUserAddress args |}
      end
  end.

(** [IEventParser] *)
Record IEventParser : Type := mkEventParser {
  getEventName : string;
  parseEvent : Ethers.EventLog -> option ParsedEvent
}.

Definition DepositEventParser : IEventParser :=
  {| getEventName := "Deposit";
     parseEvent := parseEventAs "Deposit" Entity.DEPOSIT |}.

Definition WithdrawEventParser : IEventParser :=
  {| getEventName := "Withdraw";
     parseEvent := parseEventAs "Withdraw" Entity.WITHDRAW |}.

(** [BaseEventParser.canParse] and [BaseEventParser.parse] *)
Definition canParse (parser : IEventParser) (event : Ethers.EventLog) : bool :=
  String.eqb (Ethers.eventName event) (getEventName parser).

Definition parse (parser : IEventParser) (event : Ethers.EventLog)
  : option ParsedEvent :=
  if canParse parser event then parseEvent parser event else None.

(** [EventParserFactory.parsers], as the static initialiser fills it. *)
Definition parsers : gmap string IEventParser :=
  <[getEventName WithdrawEventParser := WithdrawEventParser]>
    (<[getEventName DepositEventParser := DepositEventParser]> ∅).

(** [EventParserFactory.getParser] *)
Definition getParser (event : Ethers.EventLog) : option IEventParser :=
  if truthyString (Ethers.eventName event)
  then parsers !! Ethers.eventName event
  else None.

(** [EventParsingService.parseSingleEvent] *)
Definition parseSingleEvent (event : Ethers.EventLog) : option ParsedEvent :=
  match getParser event with
  | None => None
  | Some parser => parse parser event
  end.

(** [EventParsingService.parseEvents] *)
Fixpoint parseEvents (events : list Ethers.EventLog) : list ParsedEvent :=
  match events with
  | [] => []
  | event :: rest =>
      match parseSingleEvent event with
      | Some parsedEvent => parsedEvent :: parseEvents rest
      | None => parseEvents rest
      end
  end.

End WithFormatUnits.

End Parser.


(** ** Chain configuration: [configs/chain-configs.ts] *)

Module Config.

Record ChainConfig : Type := mkChainConfig {
  chainId : string;
  name : string;
  rpcUrls : list string;
  requiredConfirmations : Z;
  pollingInterval : Z;
  batchSize : Z;
  reorgDepth : Z;
  restartDelay : Z;
  maxRetries : Z;
  retryDelay : Z;
  contract : string;
  startBlock : Z
}.

End Config.

(** ** The live crawler: [EvmCrawlerService] *)

Module Crawler.
Import Js Store.

Record BlockInfo : Type := mkBlockInfo {
  blockTime : Z;
  blockHash : string;
  parentHash : string
}.

(** The fields of the service together with the two stores it writes:
    the transactions table and the Redis key space. *)
Record State : Type := mkState {
  lastProcessedBlock : Z;
  isRunning : bool;
  blockMap : gmap Z BlockInfo;
  table : Table;
  redis : gmap string string
}.

Definition setIsRunning (b : bool) (s : State) : State :=
  mkState (lastProcessedBlock s) b (blockMap s) (table s) (redis s).

Definition setLastProcessedBlock (n : Z) (s : State) : State :=
  mkState n (isRunning s) (blockMap s) (table s) (redis s).

Definition setBlockMap (m : gmap Z BlockInfo) (s : State) : State :=
  mkState (lastProcessedBlock s) (isRunning s) m (table s) (redis s).

Definition setTable (t : Table) (s : State) : State :=
  mkState (lastProcessedBlock s) (isRunning s) (blockMap s) t (redis s).

Definition setRedis (r : gmap string string) (s : State) : State :=
  mkState (lastProcessedBlock s) (isRunning s) (blockMap s) (table s) r.

(** What makes a batch or a cycle fail. *)
Inductive Failure : Type :=
| RpcFailure (err : Thrown)
| DbFailure (error : DbError)
| RedisFailure (err : Thrown).

(** [stop()] *)
Definition stop (s : State) : State := setIsRunning false s.

Section WithChain.

Variable chain : Config.ChainConfig.

(** The endpoints of the chain at the time of the call. *)
Variable network : string -> Ethers.Provider.

(** [callRpc(op, this.chain.rpcUrls)] *)
Definition call {T : Type} (op : Ethers.Provider -> Outcome T) : Outcome T :=
  fst (CallRpc.callRpc (fun rpcUrl => op (network rpcUrl))
         (Config.rpcUrls chain)).

Definition cacheKey : string :=
  String.append "last_processed_block:" (Config.chainId chain).

(** [updateLastProcessedBlock]: the Redis write only. *)
Definition updateLastProcessedBlock (blockNo : Z) (s : State) : State :=
  setRedis (<[cacheKey := stringOfBigInt blockNo]> (redis s)) s.

Definition getLatestBlockNumber : Outcome Z :=
  call Ethers.getBlockNumber.

(** ** [saveState] *)

(** The objects built by [events.map(...)]: one [confirmations] value,
    taken from [events[0]], is shared by all of them.  The spread of
    [event] contributes the columns it has a property for; it has none
    named [tokenDecimals]. *)
Definition newTransactions (blocks : gmap Z BlockInfo)
  (events : list Parser.ParsedEvent) (latestBlock : Z)
  : list Partial.PartialTransaction :=
  match events with
  | [] => []
  | first :: _ =>
      let confirmations := latestBlock - Parser.blockNumber first + 1 in
      map (fun event =>
             let blockInfo := blocks !! Parser.blockNumber event in
             {| Partial.address := Parser.address event;
                Partial.amount := Parser.amount event;
                Partial.rawAmount := Parser.rawAmount event;
                Partial.operation := Parser.operation event;
                Partial.transactionHash := Parser.transactionHash event;
                Partial.chainId := Config.chainId chain;
                Partial.blockNumber := Parser.blockNumber event;
                Partial.blockTime := default 0 (blockTime <$> blockInfo);
                Partial.blockHash := default "" (blockHash <$> blockInfo);
                Partial.tokenAddress := Parser.tokenAddress event;
                Partial.tokenDecimals := None;
                Partial.contractAddress := Some (Parser.contractAddress event);
                Partial.confirmations := confirmations;
                Partial.requireConfirmations :=
                  Config.requiredConfirmations chain;
                Partial.status :=
                  if confirmations >=? Config.requiredConfirmations chain
                  then Entity.CONFIRMED else Entity.PENDING |})
          events
  end.

(** The [for (const transaction of transactions)] loop of the conflict
    branch. *)
Fixpoint upsertAll (table : Table) (ps : list Partial.PartialTransaction)
  : DbResult Table :=
  match ps with
  | [] => DbOk table
  | p :: rest =>
      bind (upsert ["transaction_hash"] table p)
           (fun table' => upsertAll table' rest)
  end.

(** [manager.save] of the new rows, with the per-row upsert when the save
    fails on the unique index. *)
Definition saveOrUpsert (t : Table) (txs : list Partial.PartialTransaction)
  : DbResult Table :=
  match saveNew t txs with
  | DbOk t' => DbOk t'
  | DbFail error =>
      if isPsqlConflictError error then upsertAll t txs else DbFail error
  end.

(** The [where] clause of the [manager.find] in the second half. *)
Definition needsUpdate (tx : Entity.TransactionEntity) : bool :=
  String.eqb (Entity.chainId tx) (Config.chainId chain)
  && (Entity.confirmations tx <? Config.requiredConfirmations chain).

(** The body of [existingTransactions.map(...)]. *)
Definition updateConfirmations (latestBlock : Z)
  (tx : Entity.TransactionEntity) : Entity.TransactionEntity :=
  let confirmations :=
    Z.min (latestBlock - Entity.blockNumber tx + 1)
          (Entity.requireConfirmations tx) in
  {| Entity.address := Entity.address tx;
     Entity.amount := Entity.amount tx;
     Entity.rawAmount := Entity.rawAmount tx;
     Entity.operation := Entity.operation tx;
     Entity.transactionHash := Entity.transactionHash tx;
     Entity.chainId := Entity.chainId tx;
     Entity.blockNumber := Entity.blockNumber tx;
     Entity.blockTime := Entity.blockTime tx;
     Entity.blockHash := Entity.blockHash tx;
     Entity.tokenAddress := Entity.tokenAddress tx;
     Entity.tokenDecimals := Entity.tokenDecimals tx;
     Entity.contractAddress := Entity.contractAddress tx;
     Entity.confirmations := confirmations;
     Entity.requireConfirmations := Entity.requireConfirmations tx;
     Entity.status :=
       if confirmations >=? Config.requiredConfirmations chain
       then Entity.CONFIRMED else Entity.PENDING |}.

(** The second half of [saveState]: find, map, save. *)
Definition refreshConfirmations (latestBlock : Z) (t : Table) : Table :=
  (fun tx => if needsUpdate tx then updateConfirmations latestBlock tx else tx)
    <$> t.

(** [saveState(events, latestBlock)], as a function of the table at the
    start of the database transaction.  A failure rolls the transaction
    back. *)
Definition saveState (blocks : gmap Z BlockInfo)
  (events : list Parser.ParsedEvent) (latestBlock : Z) (t : Table)
  : DbResult Table :=
  bind (match events with
        | [] => DbOk t
        | _ :: _ => saveOrUpsert t (newTransactions blocks events latestBlock)
        end)
       (fun t' => DbOk (refreshConfirmations latestBlock t')).

(** ** [rollbackReorg] *)

Definition rollbackReorg (reorgBlock : Z) (s : State) : State :=
  let t :=
    filter (fun kv : string * Entity.TransactionEntity =>
              ~ (Entity.chainId kv.2 = Config.chainId chain
                 /\ reorgBlock <= Entity.blockNumber kv.2))
           (table s) in
  let blocks :=
    filter (fun kv : Z * BlockInfo => kv.1 < reorgBlock) (blockMap s) in
  setLastProcessedBlock (reorgBlock - 1)
    (updateLastProcessedBlock (reorgBlock - 1)
       (setBlockMap blocks (setTable t s))).

(** The state [rollbackReorg] leaves when Redis rejects the write: the
    rows are deleted and the block map is cut, the checkpoint stays as it
    was, and the error goes to the [catch] of [crawl]. *)
Definition rollbackReorgRejected (reorgBlock : Z) (s : State) : State :=
  let t :=
    filter (fun kv : string * Entity.TransactionEntity =>
              ~ (Entity.chainId kv.2 = Config.chainId chain
                 /\ reorgBlock <= Entity.blockNumber kv.2))
           (table s) in
  let blocks :=
    filter (fun kv : Z * BlockInfo => kv.1 < reorgBlock) (blockMap s) in
  setBlockMap blocks (setTable t s).

(** ** Fetching events and block metadata *)

Variable formatUnits : string -> Z -> string.

Definition fetchEvents (fromBlock toBlock : Z)
  : Outcome (list Parser.ParsedEvent) :=
  match call (fun provider => Ethers.queryFilter provider fromBlock toBlock) with
  | Return allEvents => Return (Parser.parseEvents formatUnits allEvents)
  | Throw error => Throw error
  end.

(** [[...new Set(xs)]]: first occurrences, in order. *)
Fixpoint distinctFrom (seen xs : list Z) : list Z :=
  match xs with
  | [] => []
  | x :: rest =>
      if bool_decide (x ∈ seen) then distinctFrom seen rest
      else x :: distinctFrom (x :: seen) rest
  end.

Definition distinct (xs : list Z) : list Z := distinctFrom [] xs.

(** [Promise.all] *)
Fixpoint promiseAll {T : Type} (ps : list (Outcome T)) : Outcome (list T) :=
  match ps with
  | [] => Return []
  | p :: rest =>
      match p with
      | Throw err => Throw err
      | Return v =>
          match promiseAll rest with
          | Throw err => Throw err
          | Return vs => Return (v :: vs)
          end
      end
  end.

Definition blockInfoOf (block : Ethers.Block) : BlockInfo :=
  {| blockTime := Ethers.timestamp block * 1000;
     blockHash := default "" (Ethers.hash block);
     parentHash := Ethers.parentHash block |}.

Definition cacheBlock (blocks : gmap Z BlockInfo)
  (block : option Ethers.Block) : gmap Z BlockInfo :=
  match block with
  | Some b => <[Ethers.number b := blockInfoOf b]> blocks
  | None => blocks
  end.

Definition saveBlockMap (eventBlockNumbers : list Z)
  (latestBlock fromBlock toBlock : Z) (blocks : gmap Z BlockInfo)
  : Outcome (gmap Z BlockInfo) :=
  let reorgThreshold := latestBlock - Config.reorgDepth chain + 1 in
  let lowest := Z.max fromBlock reorgThreshold in
  let additionalBlockNumbers :=
    filter (fun b => b ∉ eventBlockNumbers)
           (seqZ lowest (toBlock - lowest + 1)) in
  let blockNumbers :=
    filter (fun b => blocks !! b = None)
           (eventBlockNumbers ++ additionalBlockNumbers)%list in
  match blockNumbers with
  | [] => Return blocks
  | _ :: _ =>
      match call (fun provider =>
                    promiseAll (map (Ethers.getBlock provider) blockNumbers)) with
      | Throw err => Throw err
      | Return fetched => Return (fold_left cacheBlock fetched blocks)
      end
  end.

(** ** [checkForReorg] *)

(** [currentBlock?.hash !== cachedBlock.blockHash] *)
Definition hashDiffers (currentBlock : option Ethers.Block)
  (cachedBlock : BlockInfo) : bool :=
  match currentBlock with
  | Some b =>
      match Ethers.hash b with
      | Some h => negb (String.eqb h (blockHash cachedBlock))
      | None => true
      end
  | None => true
  end.

(** The [for] loop, [steps] iterations from index [i] on. *)
Fixpoint checkForReorgFrom (steps : nat) (i : Z) (last : Z)
  (blocks : gmap Z BlockInfo) (deepestReorg : option Z)
  : gmap Z BlockInfo * option Z :=
  match steps with
  | O => (blocks, deepestReorg)
  | S steps' =>
      let blockNo := last - i in
      if blockNo <? Config.startBlock chain then (blocks, deepestReorg)
      else
        match blocks !! blockNo with
        | None => checkForReorgFrom steps' (i + 1) last blocks deepestReorg
        | Some cachedBlock =>
            match call (fun provider => Ethers.getBlock provider blockNo) with
            | Throw _ => (blocks, deepestReorg)
            | Return currentBlock =>
                if hashDiffers currentBlock cachedBlock
                then checkForReorgFrom steps' (i + 1) last blocks (Some blockNo)
                else (<[blockNo :=
                          match currentBlock with
                          | Some b => blockInfoOf b
                          | None => mkBlockInfo 0 "" ""
                          end]> blocks,
                      deepestReorg)
            end
        end
  end.

Definition checkForReorg (s : State) : State * option Z :=
  let '(blocks, deepestReorg) :=
    checkForReorgFrom (Z.to_nat (Config.reorgDepth chain)) 0
      (lastProcessedBlock s) (blockMap s) None in
  (setBlockMap blocks s, deepestReorg).

(** ** One pass of the [while] loop *)

Inductive BatchResult : Type :=
| BatchDone (s : State)
| BatchFailed (s : State) (failure : Failure).

(** From [fetchEvents] to the commit of [saveState]. *)
Definition persistBatch (latestBlock fromBlock toBlock : Z) (s : State)
  : BatchResult :=
  match fetchEvents fromBlock toBlock with
  | Throw err => BatchFailed s (RpcFailure err)
  | Return events =>
      let eventBlockNumbers := distinct (map Parser.blockNumber events) in
      match saveBlockMap eventBlockNumbers latestBlock fromBlock toBlock
              (blockMap s) with
      | Throw err => BatchFailed s (RpcFailure err)
      | Return blocks =>
          let s1 := setBlockMap blocks s in
          match saveState blocks events latestBlock (table s1) with
          | DbFail error => BatchFailed s1 (DbFailure error)
          | DbOk t => BatchDone (setTable t s1)
          end
      end
  end.

(** From [updateLastProcessedBlock] to the trim of the block map.
    [redisSet] is what [this.redis.set] of this pass does: it resolves,
    or it rejects and the pass ends in the [catch] of [crawl] with the
    rows committed and the checkpoint as it was. *)
Definition advanceCheckpoint (redisSet : Outcome unit)
  (latestBlock toBlock : Z) (s : State) : BatchResult :=
  match redisSet with
  | Throw err => BatchFailed s (RedisFailure err)
  | Return _ =>
      let s1 :=
        setLastProcessedBlock toBlock (updateLastProcessedBlock toBlock s) in
      let trimThreshold := latestBlock - Config.reorgDepth chain in
      BatchDone
        (setBlockMap
           (filter (fun kv : Z * BlockInfo => kv.1 > trimThreshold)
                   (blockMap s1)) s1)
  end.

(** One pass of the loop, for either behaviour of Redis. *)
Definition processBatchOn (redisSet : Outcome unit)
  (latestBlock fromBlock toBlock : Z) (s : State) : BatchResult :=
  match persistBatch latestBlock fromBlock toBlock s with
  | BatchDone s1 => advanceCheckpoint redisSet latestBlock toBlock s1
  | BatchFailed s1 failure => BatchFailed s1 failure
  end.

(** The pass when Redis takes the write. *)
Definition processBatch (latestBlock fromBlock toBlock : Z) (s : State)
  : BatchResult :=
  processBatchOn (Return tt) latestBlock fromBlock toBlock s.

(** ** The cycle *)

(** What [crawl] leaves on the timer queue when it returns. *)
Inductive Scheduled : Type :=
| NothingScheduled
| CrawlAfter (delay : Z) (resetsIsRunning : bool).

Record CycleResult : Type := mkCycleResult {
  finalState : State;
  windows : list (Z * Z);
  scheduled : Scheduled
}.

Definition nextToBlock (fromBlock latestBlock : Z) : Z :=
  Z.min (fromBlock + Config.batchSize chain - 1) latestBlock.

(** The [while (fromBlock <= latestBlock)] loop.  [redisSet k] is what
    the Redis write of pass [k] does.  [stopDuring k] tells
    whether [stop()] is called while pass [k] is suspended in one of its
    awaits; the pass neither reads nor writes [isRunning], so the call
    commutes with it.  [done] collects the windows persisted so far.
    [None]: the fuel ran out. *)
Fixpoint crawlLoopOn (redisSet : nat -> Outcome unit) (fuel : nat)
  (stopDuring : nat -> bool) (k : nat)
  (latestBlock fromBlock toBlock : Z) (s : State) (done : list (Z * Z))
  : option CycleResult :=
  match fuel with
  | O => None
  | S fuel' =>
      if fromBlock <=? latestBlock then
        match processBatchOn (redisSet k) latestBlock fromBlock toBlock s with
        | BatchFailed s1 _ =>
            let s2 := if stopDuring k then stop s1 else s1 in
            Some (mkCycleResult (setIsRunning false s2) done
                    (CrawlAfter 5000 false))
        | BatchDone s1 =>
            let s2 := if stopDuring k then stop s1 else s1 in
            crawlLoopOn redisSet fuel' stopDuring (S k) latestBlock
              (toBlock + 1) (nextToBlock (toBlock + 1) latestBlock) s2
              (done ++ [(fromBlock, toBlock)])%list
        end
      else
        Some (mkCycleResult s done
                (CrawlAfter (Config.restartDelay chain) true))
  end.

(** Redis takes every write. *)
Definition redisUp (k : nat) : Outcome unit := Return tt.

(** The loop when Redis takes the writes. *)
Definition crawlLoop (fuel : nat) (stopDuring : nat -> bool) (k : nat)
  (latestBlock fromBlock toBlock : Z) (s : State) (done : list (Z * Z))
  : option CycleResult :=
  crawlLoopOn redisUp fuel stopDuring k latestBlock fromBlock toBlock s done.

(** [crawl()].  [redisRollback] is what the Redis write of the rollback
    does, should there be one. *)
Definition crawlOn (redisRollback : Outcome unit)
  (redisSet : nat -> Outcome unit) (fuel : nat) (stopDuring : nat -> bool)
  (s : State) : option CycleResult :=
  if isRunning s then Some (mkCycleResult s [] NothingScheduled)
  else
    let s0 := setIsRunning true s in
    match getLatestBlockNumber with
    | Throw _ =>
        Some (mkCycleResult (setIsRunning false s0) [] (CrawlAfter 5000 false))
    | Return latestBlock =>
        let fromBlock := lastProcessedBlock s0 + 1 in
        let toBlock := nextToBlock fromBlock latestBlock in
        let '(s1, reorgBlock) := checkForReorg s0 in
        match reorgBlock with
        | Some r =>
            match redisRollback with
            | Throw _ =>
                Some (mkCycleResult
                        (setIsRunning false (rollbackReorgRejected r s1)) []
                        (CrawlAfter 5000 false))
            | Return _ =>
                crawlLoopOn redisSet fuel stopDuring 0 latestBlock r
                  (nextToBlock r latestBlock) (rollbackReorg r s1) []
            end
        | None =>
            crawlLoopOn redisSet fuel stopDuring 0 latestBlock fromBlock
              toBlock s1 []
        end
    end.

(** The cycle when Redis takes the writes. *)
Definition crawl (fuel : nat) (stopDuring : nat -> bool) (s : State)
  : option CycleResult :=
  crawlOn (Return tt) redisUp fuel stopDuring s.

(** The timer callback [crawl] left behind runs. *)
Definition timerFires (fuel : nat) (stopDuring : nat -> bool)
  (r : CycleResult) : option CycleResult :=
  match scheduled r with
  | NothingScheduled => Some (mkCycleResult (finalState r) [] NothingScheduled)
  | CrawlAfter _ resets =>
      crawl fuel stopDuring
        (if resets then setIsRunning false (finalState r) else finalState r)
  end.

End WithChain.

End Crawler.

(** ** The configured networks: [configs/chain-configs.ts] *)

Module Networks.

Inductive Network : Type :=
| ETHEREUM | POLYGON | BSC | ARBITRUM | OPTIMISM
| SEPOLIA | BSC_TESTNET | POLYGON_MUMBAI.

(** [Object.values(Network)] *)
Definition values : list Network :=
  [ETHEREUM; POLYGON; BSC; ARBITRUM; OPTIMISM;
   SEPOLIA; BSC_TESTNET; POLYGON_MUMBAI].

Section WithEnvironment.

(** The [*_RPC_URLS] variables of the process environment, split at
    commas. *)
Variable rpcUrlsOf : Network -> list string.

Definition zeroAddress : string :=
  "0x0000000000000000000000000000000000000000".

(** [CHAIN_CONFIGS] and [getChainConfig] *)
Definition getChainConfig (network : Network) : Config.ChainConfig :=
  let cfg (chainId name : string) (requiredConfirmations batchSize
           reorgDepth restartDelay retryDelay : Z) :=
    {| Config.chainId := chainId;
       Config.name := name;
       Config.rpcUrls := rpcUrlsOf network;
       Config.requiredConfirmations := requiredConfirmations;
       Config.pollingInterval := 10000;
       Config.batchSize := batchSize;
       Config.reorgDepth := reorgDepth;
       Config.restartDelay := restartDelay;
       Config.maxRetries := 3;
       Config.retryDelay := retryDelay;
       Config.contract := zeroAddress;
       Config.startBlock := 18000000 |} in
  match network with
  | ETHEREUM => cfg "1" "Ethereum Mainnet" 12 100 12 5000 2000
  | POLYGON => cfg "137" "Polygon Mainnet" 256 100 256 5000 2000
  | BSC => cfg "56" "BNB Smart Chain" 15 100 15 2000 1000
  | ARBITRUM => cfg "42161" "Arbitrum One" 12 100 12 5000 2000
  | OPTIMISM => cfg "10" "Optimism" 12 100 12 5000 2000
  | SEPOLIA => cfg "11155111" "Sepolia Testnet" 12 50 12 5000 2000
  | BSC_TESTNET => cfg "97" "BSC Testnet" 12 50 12 2000 1000
  | POLYGON_MUMBAI => cfg "80001" "Polygon Mumbai" 256 50 256 5000 2000
  end.

End WithEnvironment.

End Networks.

(** ** The fallback verifier: [EvmFallbackCrawlerService] *)

Module Fallback.
Import Js Store.

Record VerifyResult : Type := mkVerifyResult {
  found : bool;
  transaction : option Entity.TransactionEntity;
  message : string
}.

(** [isValidEventData]: the six [in] tests ask for the presence of a
    property, whatever its value; the object literal of both parsers
    always has all six. *)
Definition isValidEventData (parsedEvent : Parser.ParsedEvent) : bool := true.

(** [createTransactionEntity] *)
Definition createTransactionEntity (parsedEvent : Parser.ParsedEvent)
  (chainConfig : Config.ChainConfig)
  (transactionReceipt : Ethers.TransactionReceipt)
  (block : Ethers.Block) (latestBlock : Z) : Partial.PartialTransaction :=
  let confirmations := latestBlock - Ethers.number block + 1 in
  {| Partial.address := Parser.address parsedEvent;
     Partial.amount := Parser.amount parsedEvent;
     Partial.rawAmount := Parser.rawAmount parsedEvent;
     Partial.operation := Parser.operation parsedEvent;
     Partial.transactionHash := Ethers.receiptHash transactionReceipt;
     Partial.chainId := Config.chainId chainConfig;
     Partial.blockNumber := Ethers.number block;
     Partial.blockTime := Ethers.timestamp block * 1000;
     Partial.blockHash := default "" (Ethers.hash block);
     Partial.tokenAddress :=
       Some (default "" (Parser.tokenAddress parsedEvent));
     Partial.tokenDecimals :=
       Some (match Parser.decimals parsedEvent with
             | Some d => if d =? 0 then 18 else d
             | None => 18
             end);
     Partial.contractAddress := Some (Parser.contractAddress parsedEvent);
     Partial.confirmations := confirmations;
     Partial.requireConfirmations := Config.requiredConfirmations chainConfig;
     Partial.status :=
       if confirmations >=? Config.requiredConfirmations chainConfig
       then Entity.CONFIRMED else Entity.PENDING |}.

(** [args.toString()] of a decoded result *)
Definition resultToString (args : Ethers.Result) : string :=
  String.append (Ethers.arg0 args)
    (String.append ","
       (String.append (Ethers.arg1 args)
          (String.append ","
             (String.append (stringOfBigInt (Ethers.arg2 args))
                (String.append "," (stringOfBigInt (Ethers.arg3 args))))))).

Definition isRelevantName (name : string) : bool :=
  String.eqb name "Deposit" || String.eqb name "Withdraw".

(** The callback of [transactionReceipt.logs.find(...)] *)
Definition sameEvent (name : string) (args : Ethers.Result)
  (log : Ethers.Log) : bool :=
  match Ethers.parseLog log with
  | Some (name', args') =>
      String.eqb name' name
      && String.eqb (resultToString args') (resultToString args)
  | None => false
  end.

(** [extractRelevantEvents] *)
Definition extractRelevantEvents (chainConfig : Config.ChainConfig)
  (transactionReceipt : Ethers.TransactionReceipt) : list Ethers.EventLog :=
  match Ethers.to transactionReceipt with
  | None => []
  | Some recipient =>
      if negb (String.eqb (toLowerCase recipient)
                 (toLowerCase (Config.contract chainConfig)))
      then []
      else
        let events :=
          omap Ethers.parseLog (Ethers.logs transactionReceipt) in
        let relevantEventNames :=
          filter (fun ev : string * Ethers.Result => isRelevantName ev.1)
                 events in
        omap (fun ev : string * Ethers.Result =>
                match List.find (sameEvent ev.1 ev.2)
                        (Ethers.logs transactionReceipt) with
                | Some logEntry =>
                    Some {| Ethers.eventName := ev.1;
                            Ethers.address := Ethers.logAddress logEntry;
                            Ethers.blockNumber := Ethers.logBlockNumber logEntry;
                            Ethers.transactionHash :=
                              Ethers.logTransactionHash logEntry;
                            Ethers.blockHash := Ethers.logBlockHash logEntry;
                            Ethers.args := Some ev.2 |}
                | None => None
                end)
             relevantEventNames
  end.

Section WithEnvironment.

Variable rpcUrlsOf : Networks.Network -> list string.
Variable network : string -> Ethers.Provider.
Variable formatUnits : string -> Z -> string.

(** [getNetworkByChainId] *)
Definition getNetworkByChainId (chainId : string) : option Networks.Network :=
  List.find (fun n =>
               String.eqb
                 (Config.chainId (Networks.getChainConfig rpcUrlsOf n))
                 chainId)
            Networks.values.

(** [fetchTransactionReceipt] and [fetchBlock]: an RPC failure is logged
    and turned into null. *)
Definition fetchTransactionReceipt (chainConfig : Config.ChainConfig)
  (transactionHash : string) : option Ethers.TransactionReceipt :=
  match Crawler.call chainConfig network
          (fun provider =>
             Ethers.getTransactionReceipt provider transactionHash) with
  | Return receipt => receipt
  | Throw _ => None
  end.

Definition fetchBlock (chainConfig : Config.ChainConfig) (blockNo : Z)
  : option Ethers.Block :=
  match Crawler.call chainConfig network
          (fun provider => Ethers.getBlock provider blockNo) with
  | Return block => block
  | Throw _ => None
  end.

Definition getLatestBlockNumber (chainConfig : Config.ChainConfig)
  : Outcome Z :=
  Crawler.call chainConfig network Ethers.getBlockNumber.

(** [findByChainIdAndTransactionHash] of the transaction repository *)
Definition findByChainIdAndTransactionHash (t : Table)
  (chainId transactionHash : string) : option Entity.TransactionEntity :=
  match t !! transactionHash with
  | Some row =>
      if String.eqb (Entity.chainId row) chainId then Some row else None
  | None => None
  end.

(** The [for (const parsedEvent of parsedEvents)] loop: each
    [transactionRepository.save] commits on its own; the first one that
    fails ends the loop and keeps what was saved before it. *)
Fixpoint saveAll (chainConfig : Config.ChainConfig)
  (transactionReceipt : Ethers.TransactionReceipt) (block : Ethers.Block)
  (latestBlock : Z) (parsedEvents : list Parser.ParsedEvent) (t : Table)
  (savedTransactions : list Entity.TransactionEntity)
  : Table * (DbError + list Entity.TransactionEntity) :=
  match parsedEvents with
  | [] => (t, inr savedTransactions)
  | parsedEvent :: rest =>
      if isValidEventData parsedEvent then
        let tx := createTransactionEntity parsedEvent chainConfig
                    transactionReceipt block latestBlock in
        match insertOne t tx with
        | DbFail error => (t, inl error)
        | DbOk t' =>
            saveAll chainConfig transactionReceipt block latestBlock rest t'
              (savedTransactions
                 ++ match t' !! Partial.transactionHash tx with
                    | Some row => [row]
                    | None => []
                    end)%list
        end
      else
        saveAll chainConfig transactionReceipt block latestBlock rest t
          savedTransactions
  end.

(** The message of the outer [catch] *)
Definition errorResult (msg : string) : VerifyResult :=
  mkVerifyResult false None
    (String.append "Error processing transaction: " msg).

Definition describe (n : nat) : string :=
  String.append "Successfully saved "
    (String.append (stringOfBigInt (Z.of_nat n)) " missing transaction(s)").

(** [checkAndSaveMissingTransaction] *)
Definition checkAndSaveMissingTransaction (chainId transactionHash : string)
  (t : Table) : Table * VerifyResult :=
  match findByChainIdAndTransactionHash t chainId transactionHash with
  | Some existingTransaction =>
      (t, mkVerifyResult true (Some existingTransaction)
            "Transaction already exists in database")
  | None =>
  match getNetworkByChainId chainId with
  | None =>
      (t, mkVerifyResult false None
            (String.append "Unsupported chain ID: " chainId))
  | Some net =>
  let chainConfig := Networks.getChainConfig rpcUrlsOf net in
  match fetchTransactionReceipt chainConfig transactionHash with
  | None =>
      (t, mkVerifyResult false None "Transaction not found on blockchain")
  | Some transactionReceipt =>
  match extractRelevantEvents chainConfig transactionReceipt with
  | [] =>
      (t, mkVerifyResult false None
            "Transaction does not contain tracked events (Deposit/Withdraw)")
  | (_ :: _) as relevantEvents =>
  match fetchBlock chainConfig (Ethers.receiptBlockNumber transactionReceipt) with
  | None => (t, mkVerifyResult false None "Block information not available")
  | Some block =>
  match getLatestBlockNumber chainConfig with
  | Throw err =>
      (t, errorResult match err with
                      | ErrorObject msg => msg
                      | NotAnError _ => "Unknown error"
                      end)
  | Return latestBlock =>
  match Parser.parseEvents formatUnits relevantEvents with
  | [] =>
      (t, mkVerifyResult false None "Failed to parse events from transaction")
  | (_ :: _) as parsedEvents =>
  match saveAll chainConfig transactionReceipt block latestBlock
          parsedEvents t [] with
  | (t', inl error) => (t', errorResult (messageOf error))
  | (t', inr savedTransactions) =>
      (t', mkVerifyResult true (head savedTransactions)
             (describe (length savedTransactions)))
  end end end end end end end end.

End WithEnvironment.

End Fallback.

(** ** Start-up of the crawler: [start] and [loadLastProcessedBlock] *)

Module Startup.
Import Js Store.

(** [parseInt(s)] without a radix: leading white space is skipped, a sign
    is read, a [0x] prefix switches to base 16, and the longest run of
    digits is converted; [None] is NaN.  White space is the ASCII part of
    the class.  The result is the integer the digits denote, which is
    the JavaScript number as long as its magnitude is below 2^53. *)
Definition isWhiteSpace (c : ascii) : bool :=
  let n := nat_of_ascii c in
  (Nat.leb 9 n && Nat.leb n 13)%bool || Nat.eqb n 32.

Fixpoint trimStart (s : string) : string :=
  match s with
  | EmptyString => EmptyString
  | String c rest => if isWhiteSpace c then trimStart rest else s
  end.

Definition digitValue (radix : Z) (c : ascii) : option Z :=
  let n := Z.of_nat (nat_of_ascii c) in
  let v :=
    if (48 <=? n) && (n <=? 57) then Some (n - 48)
    else if (97 <=? n) && (n <=? 122) then Some (n - 87)
    else if (65 <=? n) && (n <=? 90) then Some (n - 55)
    else None in
  match v with
  | Some d => if d <? radix then Some d else None
  | None => None
  end.

(** The value of the longest prefix of digits; [acc] is the value read
    so far, [None] before the first digit. *)
Fixpoint digitsPrefix (radix : Z) (s : string) (acc : option Z) : option Z :=
  match s with
  | EmptyString => acc
  | String c rest =>
      match digitValue radix c with
      | Some d => digitsPrefix radix rest (Some (radix * default 0 acc + d))
      | None => acc
      end
  end.

Definition parseInt (s : string) : option Z :=
  let s1 := trimStart s in
  let '(negative, s2) :=
    match s1 with
    | String "-" rest => (true, rest)
    | String "+" rest => (false, rest)
    | _ => (false, s1)
    end in
  let '(radix, s3) :=
    match s2 with
    | String "0" (String "x" rest) => (16, rest)
    | String "0" (String "X" rest) => (16, rest)
    | _ => (10, s2)
    end in
  match digitsPrefix radix s3 None with
  | Some v => Some (if negative then - v else v)
  | None => None
  end.

Section WithChain.

Variable chain : Config.ChainConfig.

(** The highest block number among the rows of the chain. *)
Definition highestBlock (t : Table) : option Z :=
  map_fold
    (fun (_ : string) (row : Entity.TransactionEntity) (best : option Z) =>
       if String.eqb (Entity.chainId row) (Config.chainId chain)
       then Some match best with
                 | Some b => Z.max b (Entity.blockNumber row)
                 | None => Entity.blockNumber row
                 end
       else best)
    None t.

(** [latestTx.blockNumber] of [manager.findOne(TransactionEntity,
    { where: { chainId }, order: { blockNumber: 'DESC' } })]: the column
    is a [bigint], which the driver hands over as its decimal string. *)
Definition latestBlockNumber (t : Table) : option string :=
  stringOfBigInt <$> highestBlock t.

(** What [loadLastProcessedBlock] returns, declared [number]: a number,
    NaN, or the string read from the table. *)
Inductive LoadedBlock : Type :=
| NumberBlock (n : Z)
| NaNBlock
| StringBlock (s : string).

(** [loadLastProcessedBlock].  [storeFails] tells whether a command the
    call sends to Redis or to the database throws; the [catch] then
    answers [startBlock - 1] and nothing is written. *)
Definition loadLastProcessedBlock (storeFails : bool) (s : Crawler.State)
  : LoadedBlock * Crawler.State :=
  if storeFails then (NumberBlock (Config.startBlock chain - 1), s)
  else
    let fromTable :=
      match latestBlockNumber (Crawler.table s) with
      | Some blockNo =>
          (StringBlock blockNo,
           Crawler.setRedis
             (<[Crawler.cacheKey chain := blockNo]> (Crawler.redis s)) s)
      | None =>
          (NumberBlock (Config.startBlock chain - 1),
           Crawler.setRedis
             (<[Crawler.cacheKey chain
                := stringOfBigInt (Config.startBlock chain - 1)]>
                (Crawler.redis s)) s)
      end in
    match Crawler.redis s !! Crawler.cacheKey chain with
    | Some cachedBlock =>
        if truthyString cachedBlock
        then (match parseInt cachedBlock with
              | Some n => NumberBlock n
              | None => NaNBlock
              end, s)
        else fromTable
    | None => fromTable
    end.

Variable network : string -> Ethers.Provider.
Variable formatUnits : string -> Z -> string.

Inductive StartResult : Type :=
| AlreadyRunning
| Started (cycle : option Crawler.CycleResult)
| CheckpointIsNaN (s : Crawler.State)
| CheckpointIsString (s : Crawler.State) (lastProcessedBlock : string).

(** [start(chainConfig)].  When the stored checkpoint does not parse, the
    field [lastProcessedBlock] becomes NaN; when the checkpoint comes
    from the table, the field holds a string, and
    [this.lastProcessedBlock + 1] in [crawl] appends the character 1 to
    it.  The model ends at both. *)
Definition start (fuel : nat) (stopDuring : nat -> bool) (storeFails : bool)
  (s : Crawler.State) : StartResult :=
  if Crawler.isRunning s then AlreadyRunning
  else
    match loadLastProcessedBlock storeFails s with
    | (NumberBlock lastBlock, s1) =>
        Started (Crawler.crawl chain network formatUnits fuel stopDuring
                   (Crawler.setLastProcessedBlock lastBlock s1))
    | (NaNBlock, s1) => CheckpointIsNaN s1
    | (StringBlock lastBlock, s1) => CheckpointIsString s1 lastBlock
    end.

End WithChain.

End Startup.


(** ** Scenario data *)

Module Scenario.
Import Js.

(** Three endpoints: the first is throttled, the second answers. *)
Definition sampleOperation (rpcUrl : string) : Outcome Z :=
  if String.eqb rpcUrl "https://rpc-a" then
    Throw (ErrorObject "server response 429 Too Many Requests")
  else if String.eqb rpcUrl "https://rpc-b" then Return 1010
  else Throw (ErrorObject "invalid argument").


(** The chain of the end-to-end scenarios: chain "1", 12 confirmations,
    reorg depth 12, windows of 100 blocks from block 1000 on. *)
Definition watched : string := "0xCcCCccccCCCCcCCCCCCcCcCccCcCCCcCcccccccC".

Definition chain1 : Config.ChainConfig :=
  {| Config.chainId := "1";
     Config.name := "Ethereum Mainnet";
     Config.rpcUrls := ["https://rpc-a"; "https://rpc-b"];
     Config.requiredConfirmations := 12;
     Config.pollingInterval := 10000;
     Config.batchSize := 100;
     Config.reorgDepth := 12;
     Config.restartDelay := 5000;
     Config.maxRetries := 3;
     Config.retryDelay := 2000;
     Config.contract := watched;
     Config.startBlock := 1000 |}.

(** The same chain after the operator raised the threshold to 20. *)
Definition chain1Raised : Config.ChainConfig :=
  {| Config.chainId := "1";
     Config.name := "Ethereum Mainnet";
     Config.rpcUrls := ["https://rpc-a"; "https://rpc-b"];
     Config.requiredConfirmations := 20;
     Config.pollingInterval := 10000;
     Config.batchSize := 100;
     Config.reorgDepth := 12;
     Config.restartDelay := 5000;
     Config.maxRetries := 3;
     Config.retryDelay := 2000;
     Config.contract := watched;
     Config.startBlock := 1000 |}.

Definition blockAt (n : Z) : Ethers.Block :=
  {| Ethers.number := n;
     Ethers.hash := Some (String.append "0xblock" (stringOfBigInt n));
     Ethers.parentHash := String.append "0xblock" (stringOfBigInt (n - 1));
     Ethers.timestamp := 1700000000 + 12 * n |}.

Definition user : string := "0xAb5801a7D398351b8bE11C439e05C5B3259aeC9B".
Definition token : string := "0xdAC17F958D2ee523a2206206994597C13D831ec7".

Definition eventLog (name txHash : string) (blockNo amount decimals : Z)
  : Ethers.EventLog :=
  {| Ethers.eventName := name;
     Ethers.address := watched;
     Ethers.blockNumber := blockNo;
     Ethers.transactionHash := txHash;
     Ethers.blockHash := String.append "0xblock" (stringOfBigInt blockNo);
     Ethers.args := Some (Ethers.mkResult user token amount decimals) |}.

(** An endpoint that serves a chain with head [latest] and the given
    logs. *)
Definition endpoint (latest : Z) (chainLogs : list Ethers.EventLog)
  : Ethers.Provider :=
  {| Ethers.getBlockNumber := Return latest;
     Ethers.getBlock := fun n =>
       Return (if n <=? latest then Some (blockAt n) else None);
     Ethers.getTransactionReceipt := fun _ => Return None;
     Ethers.queryFilter := fun fromBlock toBlock =>
       Return (filter (fun l : Ethers.EventLog =>
                         fromBlock <= Ethers.blockNumber l <= toBlock)
                      chainLogs) |}.

Definition idle : Crawler.State :=
  {| Crawler.lastProcessedBlock := 999;
     Crawler.isRunning := false;
     Crawler.blockMap := ∅;
     Crawler.table := ∅;
     Crawler.redis := ∅ |}.

(** S1: one Deposit of 10^18 units in block 1005, head 1010. *)
Definition depositS1 : Ethers.EventLog :=
  eventLog "Deposit" "0xDEAD" 1005 1000000000000000000 18.

(** Two deposits of one window, ten blocks apart, head 1020. *)
Definition depositOld : Ethers.EventLog :=
  eventLog "Deposit" "0xAAA1" 1005 1000000000000000000 18.

Definition depositRecent : Ethers.EventLog :=
  eventLog "Deposit" "0xAAA2" 1015 2000000000000000000 18.

Definition eventsS1 : list Parser.ParsedEvent :=
  Parser.parseEvents formatUnitsDigits [depositS1].

Definition blocksS1 : gmap Z Crawler.BlockInfo :=
  {[ 1005 := Crawler.blockInfoOf (blockAt 1005) ]}.

Definition blocksRefetched : gmap Z Crawler.BlockInfo :=
  {[ 1004 := Crawler.blockInfoOf (blockAt 1004);
     1005 := Crawler.blockInfoOf (blockAt 1005);
     1006 := Crawler.blockInfoOf (blockAt 1006) ]}.

Definition tableOf (r : Store.DbResult Store.Table) : Store.Table :=
  match r with
  | Store.DbOk t => t
  | Store.DbFail _ => ∅
  end.

(** The table after the S1 batch. *)
Definition tableS1 : Store.Table :=
  tableOf (Crawler.saveState chain1 blocksS1 eventsS1 1010 ∅).

(** One endpoint for every URL: head [latest], the given logs. *)
Definition serving (latest : Z) (chainLogs : list Ethers.EventLog)
  : string -> Ethers.Provider :=
  fun _ => endpoint latest chainLogs.

(** [stop()] is called while the first window of the cycle is being
    processed, and not again. *)
Definition stopInFirstPass (k : nat) : bool := Nat.eqb k 0.

Definition never (k : nat) : bool := false.

(** S6: the crawler is offline with its checkpoint at block 1000; the
    transaction 0xBEEF, sent to the contract of chain "1", carries one
    Withdraw in block 1008; the head is 1025. *)
Definition environment (n : Networks.Network) : list string :=
  ["https://rpc-a"].

Definition withdrawLog : Ethers.Log :=
  {| Ethers.logAddress := Networks.zeroAddress;
     Ethers.logBlockNumber := 1008;
     Ethers.logTransactionHash := "0xBEEF";
     Ethers.logBlockHash := "0xblock1008";
     Ethers.parseLog :=
       Some ("Withdraw", Ethers.mkResult user token 500000000000000000 18) |}.

Definition receiptS6 : Ethers.TransactionReceipt :=
  {| Ethers.to := Some Networks.zeroAddress;
     Ethers.receiptHash := "0xBEEF";
     Ethers.receiptBlockNumber := 1008;
     Ethers.logs := [withdrawLog] |}.

Definition servingS6 : string -> Ethers.Provider :=
  fun _ =>
    {| Ethers.getBlockNumber := Return 1025;
       Ethers.getBlock := fun n => Return (Some (blockAt n));
       Ethers.getTransactionReceipt := fun h =>
         Return (if String.eqb h "0xBEEF" then Some receiptS6 else None);
       Ethers.queryFilter := fun _ _ => Return [] |}.

Definition offline : Crawler.State :=
  {| Crawler.lastProcessedBlock := 1000;
     Crawler.isRunning := false;
     Crawler.blockMap := ∅;
     Crawler.table := ∅;
     Crawler.redis := {[ "last_processed_block:1" := "1000" ]} |}.

Definition verifiedS6 : Store.Table * Fallback.VerifyResult :=
  Fallback.checkAndSaveMissingTransaction environment servingS6
    formatUnitsDigits "1" "0xBEEF" (Crawler.table offline).

Definition withdrawS6 : Parser.ParsedEvent :=
  {| Parser.eventName := "Withdraw";
     Parser.contractAddress := Networks.zeroAddress;
     Parser.blockNumber := 1008;
     Parser.transactionHash := "0xBEEF";
     Parser.blockHash := "0xblock1008";
     Parser.operation := Entity.WITHDRAW;
     Parser.tokenAddress := Some token;
     Parser.amount := Some "0.5";
     Parser.rawAmount := Some "500000000000000000";
     Parser.decimals := Some 18;
     Parser.address := Some user |}.

(** A row confirmed while the threshold was still 12: the deposit of S1
    seen from head 1016. *)
Definition tableConfirmed : Store.Table :=
  tableOf (Crawler.saveState chain1 blocksS1 eventsS1 1016 ∅).

(** A Deposit whose amount and decimals are both zero. *)
Definition depositZero : Ethers.EventLog :=
  eventLog "Deposit" "0xFEED" 1005 0 0.

(** A Deposit of 1.5 units of a token with 6 decimals. *)
Definition depositSixDecimals : Ethers.EventLog :=
  eventLog "Deposit" "0xCAFE" 1005 1500000 6.

(** Endpoints that are all throttled. *)
Definition throttled : string -> Ethers.Provider :=
  fun _ =>
    {| Ethers.getBlockNumber := Throw (ErrorObject "429 Too Many Requests");
       Ethers.getBlock := fun _ => Throw (ErrorObject "429 Too Many Requests");
       Ethers.getTransactionReceipt := fun _ =>
         Throw (ErrorObject "429 Too Many Requests");
       Ethers.queryFilter := fun _ _ =>
         Throw (ErrorObject "429 Too Many Requests") |}.

(** The state after the S1 cycle, and the table after the next batch
    (S2: head 1017, no new events). *)
Definition afterS1 : Crawler.State :=
  {| Crawler.lastProcessedBlock := 1010;
     Crawler.isRunning := false;
     Crawler.blockMap := blocksS1;
     Crawler.table := tableS1;
     Crawler.redis := {[ "last_processed_block:1" := "1010" ]} |}.


Definition parsedOr (fallback : Parser.ParsedEvent) (l : Ethers.EventLog)
  : Parser.ParsedEvent :=
  default fallback (Parser.parseSingleEvent formatUnitsDigits l).

Definition parsedOld : Parser.ParsedEvent := parsedOr withdrawS6 depositOld.

Definition parsedRecent : Parser.ParsedEvent :=
  parsedOr withdrawS6 depositRecent.

(** S4: after the S1 cycle (checkpoint 1010, blocks 1000..1010 cached),
    the chain replaces block 1008 and the blocks above it. *)
Definition blocksCached : gmap Z Crawler.BlockInfo :=
  list_to_map
    ((fun n => (n, Crawler.blockInfoOf (blockAt n))) <$> seqZ 1000 11).

Definition reorganised : string -> Ethers.Provider :=
  fun _ =>
    {| Ethers.getBlockNumber := Return 1012;
       Ethers.getBlock := fun n =>
         Return (Some (if 1008 <=? n
                       then Ethers.mkBlock n
                              (Some (String.append "0xfork" (stringOfBigInt n)))
                              (String.append "0xfork" (stringOfBigInt (n - 1)))
                              (1700000000 + 12 * n)
                       else blockAt n));
       Ethers.getTransactionReceipt := fun _ => Return None;
       Ethers.queryFilter := fun _ _ => Return [] |}.

Definition cachedS1 : Crawler.State :=
  {| Crawler.lastProcessedBlock := 1010;
     Crawler.isRunning := false;
     Crawler.blockMap := blocksCached;
     Crawler.table := tableS1;
     Crawler.redis := {[ "last_processed_block:1" := "1010" ]} |}.

(** The state after S1 with Redis emptied, and with the block map
    emptied. *)
Definition restartedS1 : Crawler.State := Crawler.setRedis ∅ afterS1.

Definition uncachedS1 : Crawler.State := Crawler.setBlockMap ∅ afterS1.

(** The event log the verifier rebuilds from the log of the S6
    receipt. *)
Definition eventS6 : Ethers.EventLog :=
  {| Ethers.eventName := "Withdraw";
     Ethers.address := Networks.zeroAddress;
     Ethers.blockNumber := 1008;
     Ethers.transactionHash := "0xBEEF";
     Ethers.blockHash := "0xblock1008";
     Ethers.args :=
       Some (Ethers.mkResult user token 500000000000000000 18) |}.

(** Redis refuses a write. *)
Definition redisDown : Outcome unit :=
  Throw (ErrorObject "Connection is closed.").

(** Redis refuses the write of every pass. *)
Definition redisRefuses (k : nat) : Outcome unit := redisDown.

(** The arguments of the S1 deposit. *)
Definition argsS1 : Ethers.Result :=
  Ethers.mkResult user token 1000000000000000000 18.

(** The arguments of the deposit of amount 0 with decimals 0. *)
Definition argsZero : Ethers.Result := Ethers.mkResult user token 0 0.

End Scenario.

(** ** Vocabulary of the statements *)

Module Spec.
Import Store.

(** I2 / P2 for one row. *)
Definition statusCoherent (row : Entity.TransactionEntity) : Prop :=
  Entity.status row = Entity.CONFIRMED
  <-> Entity.confirmations row >= Entity.requireConfirmations row.

(** I4 / P4 for the chain of a crawler: no row of the chain lies above
    the checkpoint. *)
Definition checkpointDominates (chain : Config.ChainConfig)
  (s : Crawler.State) : Prop :=
  forall h row,
    Crawler.table s !! h = Some row ->
    Entity.chainId row = Config.chainId chain ->
    Entity.blockNumber row <= Crawler.lastProcessedBlock s.

(** The state a batch leaves behind, done or failed. *)
Definition stateOf (r : Crawler.BatchResult) : Crawler.State :=
  match r with
  | Crawler.BatchDone s => s
  | Crawler.BatchFailed s _ => s
  end.


(** What the second half of [saveState] does to one row. *)
Definition refreshRow (chain : Config.ChainConfig) (latestBlock : Z)
  (tx : Entity.TransactionEntity) : Entity.TransactionEntity :=
  if Crawler.needsUpdate chain tx
  then Crawler.updateConfirmations chain latestBlock tx
  else tx.

(** What is left of a cycle once [isRunning] is put aside. *)
Definition outcomeOf (r : Crawler.CycleResult)
  : list (Z * Z) * Crawler.Scheduled * Crawler.State :=
  (Crawler.windows r, Crawler.scheduled r,
   Crawler.setIsRunning false (Crawler.finalState r)).

End Spec.

(** ** Vocabulary of the further statements *)

Module Terms.
Import Js Store.

(** The decimals a log is formatted with: its fourth argument, 18 when
    that is zero. *)
Definition decimalsOf (a : Ethers.Result) : Z :=
  if Ethers.arg3 a =? 0 then 18 else Ethers.arg3 a.

(** The amount of the log can be formatted: it is zero, and then is not
    formatted at all, or [formatUnits] takes it. *)
Definition formats (a : Ethers.Result) : bool :=
  (Ethers.arg2 a =? 0)
  || negb (Ethers.formatUnitsThrows (Ethers.arg2 a) (decimalsOf a)).

(** A log the registry has a parser for, that carries decoded arguments
    and whose amount can be formatted. *)
Definition tracked (l : Ethers.EventLog) : bool :=
  (String.eqb (Ethers.eventName l) "Deposit"
   || String.eqb (Ethers.eventName l) "Withdraw")
  && match Ethers.args l with Some a => formats a | None => false end.

(** The operation that goes with an event name. *)
Definition operationOf (name : string) : Entity.TRANSACTION_OPERATION :=
  if String.eqb name "Deposit" then Entity.DEPOSIT else Entity.WITHDRAW.

(** The parsed event [pe] stands for the log [l]. *)
Definition standsFor (pe : Parser.ParsedEvent) (l : Ethers.EventLog) : Prop :=
  Parser.eventName pe = Ethers.eventName l
  /\ Parser.operation pe = operationOf (Ethers.eventName l)
  /\ Parser.blockNumber pe = Ethers.blockNumber l
  /\ Parser.transactionHash pe = Ethers.transactionHash l
  /\ Parser.blockHash pe = Ethers.blockHash l
  /\ Parser.contractAddress pe = Ethers.address l.

(** Windows that follow one another from [fromBlock] on: each starts
    where the one before ended, stays below the head, and is [size]
    blocks long unless it ends at the head. *)
Fixpoint chained (size fromBlock latestBlock : Z) (ws : list (Z * Z)) : Prop :=
  match ws with
  | [] => True
  | (a, b) :: rest =>
      a = fromBlock /\ a <= b <= latestBlock
      /\ (b - a + 1 = size \/ (b = latestBlock /\ b - a + 1 <= size))
      /\ chained size (b + 1) latestBlock rest
  end.

(** The last block of the last window; [before] when there is none. *)
Fixpoint endOf (ws : list (Z * Z)) (before : Z) : Z :=
  match ws with
  | [] => before
  | (_, b) :: rest => endOf rest b
  end.


(** The chain no longer has at height [n] the block the map holds: the
    endpoints answer, and the hash differs from the cached one. *)
Definition diverges (chain : Config.ChainConfig)
  (network : string -> Ethers.Provider) (blocks : gmap Z Crawler.BlockInfo)
  (n : Z) : Prop :=
  exists cached current,
    blocks !! n = Some cached
    /\ Crawler.call chain network (fun provider => Ethers.getBlock provider n)
       = Return current
    /\ Crawler.hashDiffers current cached = true.

(** The endpoint has a block for every height and numbers it right. *)
Definition servesBlocks (provider : Ethers.Provider) : Prop :=
  forall n, exists b,
    Ethers.getBlock provider n = Return (Some b) /\ Ethers.number b = n.

(** The value of a run of decimal digits read after [acc]. *)
Fixpoint uintValue (d : Decimal.uint) (acc : Z) : Z :=
  match d with
  | Decimal.Nil => acc
  | Decimal.D0 d' => uintValue d' (10 * acc + 0)
  | Decimal.D1 d' => uintValue d' (10 * acc + 1)
  | Decimal.D2 d' => uintValue d' (10 * acc + 2)
  | Decimal.D3 d' => uintValue d' (10 * acc + 3)
  | Decimal.D4 d' => uintValue d' (10 * acc + 4)
  | Decimal.D5 d' => uintValue d' (10 * acc + 5)
  | Decimal.D6 d' => uintValue d' (10 * acc + 6)
  | Decimal.D7 d' => uintValue d' (10 * acc + 7)
  | Decimal.D8 d' => uintValue d' (10 * acc + 8)
  | Decimal.D9 d' => uintValue d' (10 * acc + 9)
  end.

(** A log of a receipt that decodes to a Deposit or a Withdraw. *)
Definition relevantLog (log : Ethers.Log) : bool :=
  match Ethers.parseLog log with
  | Some (name, _) => Fallback.isRelevantName name
  | None => false
  end.

(** The event log [event] is rebuilt from the log [log] of the receipt:
    it has the name and the arguments [log] decodes to, and the address,
    block and transaction of a log of the receipt that decodes to the
    same name and the same argument string. *)
Definition rebuiltFrom (transactionReceipt : Ethers.TransactionReceipt)
  (event : Ethers.EventLog) (log : Ethers.Log) : Prop :=
  exists args entry,
    Ethers.parseLog log = Some (Ethers.eventName event, args)
    /\ Ethers.args event = Some args
    /\ List.In entry (Ethers.logs transactionReceipt)
    /\ Fallback.sameEvent (Ethers.eventName event) args entry = true
    /\ Ethers.address event = Ethers.logAddress entry
    /\ Ethers.blockNumber event = Ethers.logBlockNumber entry
    /\ Ethers.transactionHash event = Ethers.logTransactionHash entry
    /\ Ethers.blockHash event = Ethers.logBlockHash entry.

(** The table takes a row of the event: it has a user address, and
    its amounts, or the column default 0 in their place, are ones the
    two numeric columns take. *)
Definition storable (event : Parser.ParsedEvent) : Prop :=
  is_Some (Parser.address event)
  /\ (exists amount,
        numeric 65 18 (default "0" (Parser.amount event)) = DbOk amount)
  /\ (exists rawAmount,
        numeric 78 0 (default "0" (Parser.rawAmount event))
        = DbOk rawAmount).

End Terms.
(** * Properties *)

(** ** The parsers *)

Module ParserFacts.
Import Js Parser Terms.

(** The amount of a log: absent when the third argument is zero, an
    exception when [formatUnits] refuses it, its format otherwise. *)
Lemma extractAmount_cases (formatUnits : string -> Z -> string)
  (a : Ethers.Result) :
  extractAmount formatUnits a
  = if Ethers.arg2 a =? 0 then Return None
    else if Ethers.formatUnitsThrows (Ethers.arg2 a) (decimalsOf a)
         then Throw (ErrorObject "invalid fixed format (decimals too large)")
         else Return (Some (formatUnits (stringOfBigInt (Ethers.arg2 a))
                              (decimalsOf a))).
Proof.
  unfold extractAmount, extractRawAmount, extractDecimals, truthyBigInt,
    decimalsOf.
  destruct (Ethers.arg2 a =? 0); [reflexivity |].
  destruct (Ethers.arg3 a =? 0); reflexivity.
Qed.

(** What either parser builds from a log with decoded arguments. *)
Lemma parseEventAs_args (formatUnits : string -> Z -> string)
  (name : string) (op : Entity.TRANSACTION_OPERATION)
  (event : Ethers.EventLog) (a : Ethers.Result) :
  Ethers.args event = Some a ->
  parseEventAs formatUnits name op event
  = if formats a
    then Some {| eventName :=
                   if truthyString (Ethers.eventName event)
                   then Ethers.eventName event else name;
                 contractAddress := Ethers.address event;
                 blockNumber := Ethers.blockNumber event;
                 transactionHash := Ethers.transactionHash event;
                 blockHash := Ethers.blockHash event;
                 operation := op;
                 tokenAddress := extractTokenAddress a;
                 amount :=
                   if Ethers.arg2 a =? 0 then None
                   else Some (formatUnits (stringOfBigInt (Ethers.arg2 a))
                                (decimalsOf a));
                 rawAmount := extractRawAmount a;
                 decimals := extractDecimals a;
                 address := extractUserAddress a |}
    else None.
Proof.
  intros Ha. unfold parseEventAs. rewrite Ha. simpl.
  rewrite extractAmount_cases. unfold formats.
  destruct (Ethers.arg2 a =? 0); [reflexivity |]. simpl.
  destruct (Ethers.formatUnitsThrows _ _); reflexivity.
Qed.

Lemma parseSingleEvent_Deposit (formatUnits : string -> Z -> string)
  (event : Ethers.EventLog) :
  Ethers.eventName event = "Deposit" ->
  parseSingleEvent formatUnits event
  = parseEventAs formatUnits "Deposit" Entity.DEPOSIT event.
Proof.
  intros Hn. unfold parseSingleEvent, getParser. rewrite Hn. simpl.
  unfold parsers. simpl.
  rewrite lookup_insert_ne by discriminate.
  rewrite lookup_insert_eq. unfold parse, canParse. rewrite Hn. reflexivity.
Qed.

Lemma parseSingleEvent_Withdraw (formatUnits : string -> Z -> string)
  (event : Ethers.EventLog) :
  Ethers.eventName event = "Withdraw" ->
  parseSingleEvent formatUnits event
  = parseEventAs formatUnits "Withdraw" Entity.WITHDRAW event.
Proof.
  intros Hn. unfold parseSingleEvent, getParser. rewrite Hn. simpl.
  unfold parsers. simpl.
  rewrite lookup_insert_eq. unfold parse, canParse. rewrite Hn. reflexivity.
Qed.

(** Only logs named Deposit or Withdraw get through the registry. *)
Lemma parseSingleEvent_inv (formatUnits : string -> Z -> string)
  (event : Ethers.EventLog) (pe : ParsedEvent) :
  parseSingleEvent formatUnits event = Some pe ->
  (Ethers.eventName event = "Deposit"
   /\ parseEventAs formatUnits "Deposit" Entity.DEPOSIT event = Some pe)
  \/ (Ethers.eventName event = "Withdraw"
      /\ parseEventAs formatUnits "Withdraw" Entity.WITHDRAW event = Some pe).
Proof.
  intros H.
  destruct (String.eqb_spec (Ethers.eventName event) "Deposit") as [Hd | Hd].
  { left. split; [exact Hd |]. by rewrite <- parseSingleEvent_Deposit. }
  destruct (String.eqb_spec (Ethers.eventName event) "Withdraw") as [Hw | Hw].
  { right. split; [exact Hw |]. by rewrite <- parseSingleEvent_Withdraw. }
  exfalso. unfold parseSingleEvent, getParser in H.
  destruct (truthyString (Ethers.eventName event)); [| discriminate].
  unfold parsers in H. simpl in H.
  rewrite lookup_insert_ne in H by congruence.
  rewrite lookup_insert_ne in H by congruence.
  rewrite lookup_empty in H. discriminate.
Qed.

(** A parsed event comes from a log with arguments whose amount can be
    formatted, and carries what the extractors read from them. *)
Lemma parseSingleEvent_args (formatUnits : string -> Z -> string)
  (event : Ethers.EventLog) (pe : ParsedEvent) :
  parseSingleEvent formatUnits event = Some pe ->
  exists a,
    Ethers.args event = Some a
    /\ formats a = true
    /\ address pe = extractUserAddress a
    /\ tokenAddress pe = extractTokenAddress a
    /\ rawAmount pe = extractRawAmount a
    /\ decimals pe = extractDecimals a
    /\ amount pe
       = (if Ethers.arg2 a =? 0 then None
          else Some (formatUnits (stringOfBigInt (Ethers.arg2 a))
                       (decimalsOf a)))
    /\ blockNumber pe = Ethers.blockNumber event
    /\ transactionHash pe = Ethers.transactionHash event
    /\ blockHash pe = Ethers.blockHash event
    /\ contractAddress pe = Ethers.address event.
Proof.
  intros H.
  destruct (parseSingleEvent_inv _ _ _ H) as [[_ Hp] | [_ Hp]];
    (destruct (Ethers.args event) as [a |] eqn:Ha;
     [| unfold parseEventAs in Hp; rewrite Ha in Hp; discriminate]);
    rewrite (parseEventAs_args _ _ _ _ a Ha) in Hp;
    (destruct (formats a) eqn:Hf; [| discriminate]);
    injection Hp as <-; exists a; simpl; by repeat split.
Qed.

(** A parsed event keeps the position of its log. *)
Lemma parseSingleEvent_position (formatUnits : string -> Z -> string)
  (event : Ethers.EventLog) (pe : ParsedEvent) :
  parseSingleEvent formatUnits event = Some pe ->
  blockNumber pe = Ethers.blockNumber event
  /\ transactionHash pe = Ethers.transactionHash event
  /\ contractAddress pe = Ethers.address event.
Proof.
  intros H.
  destruct (parseSingleEvent_args _ _ _ H)
    as (a & _ & _ & _ & _ & _ & _ & _ & Hb & Ht & _ & Hc).
  by repeat split.
Qed.

Lemma parseEvents_elem (formatUnits : string -> Z -> string)
  (events : list Ethers.EventLog) (pe : ParsedEvent) :
  pe ∈ parseEvents formatUnits events ->
  exists event, event ∈ events /\ parseSingleEvent formatUnits event = Some pe.
Proof.
  induction events as [| event events IH]; simpl; intros Hin.
  - by apply elem_of_nil in Hin.
  - destruct (parseSingleEvent formatUnits event) as [pe' |] eqn:Hp.
    + apply elem_of_cons in Hin as [-> | Hin].
      * exists event. split; [left | done].
      * destruct (IH Hin) as [ev [Hev Hpe]]. exists ev. split; [by right | done].
    + destruct (IH Hin) as [ev [Hev Hpe]]. exists ev. split; [by right | done].
Qed.

End ParserFacts.



(** ** The RPC client pool *)

Module CallRpcFacts.
Import Js CallRpc.

Lemma isRecoverable_ErrorObject (err : Thrown) :
  isRecoverable err = true -> exists message, err = ErrorObject message.
Proof.
  destruct err as [message | d]; [eauto | discriminate].
Qed.

(** A recoverably failing prefix is walked through: the call goes on with
    the rest of the list, having tried the prefix. *)
Lemma callRpcFrom_skip {T : Type} (f : string -> Outcome T)
  (pre rest : list string) (lastError : option Thrown) :
  Forall (failsRecoverably f) pre ->
  exists lastError',
    callRpcFrom f lastError (pre ++ rest)
    = (fst (callRpcFrom f lastError' rest),
       (pre ++ snd (callRpcFrom f lastError' rest))%list)
    /\ (pre = [] -> lastError' = lastError).
Proof.
  intros Hpre. revert lastError.
  induction Hpre as [| url pre [err [Hf Hrec]] _ IH]; intros lastError.
  - exists lastError. split; [| reflexivity].
    simpl. destruct (callRpcFrom f lastError rest); reflexivity.
  - destruct (IH (Some err)) as [last' [Heq _]].
    exists last'. split; [| discriminate].
    simpl. rewrite Hf, Hrec, Heq. reflexivity.
Qed.

Lemma callRpcFrom_exhausted {T : Type} (f : string -> Outcome T)
  (urls : list string) (err : Thrown) :
  isRecoverable err = true ->
  Forall (failsRecoverably f) urls ->
  exists err',
    callRpcFrom f (Some err) urls = (Throw err', urls)
    /\ isRecoverable err' = true
    /\ (urls = [] -> err' = err)
    /\ (forall url, last urls = Some url -> f url = Throw err').
Proof.
  intros Hrec Hall. revert err Hrec.
  induction Hall as [| url urls [e [Hf He]] _ IH]; intros err Hrec.
  - exists err. repeat split; try done.
    destruct (isRecoverable_ErrorObject _ Hrec) as [m ->]. reflexivity.
  - destruct (IH e He) as [err' (Heq & Hrec' & Hnil & Hlast)].
    exists err'. repeat split; try done.
    + simpl. rewrite Hf, He, Heq. reflexivity.
    + intros u Hu. destruct urls as [| url' urls'].
      * simpl in Hu. injection Hu as <-. rewrite Hnil; done.
      * apply Hlast. exact Hu.
Qed.

(** C9.  [callRpc] walks the endpoints in order.  While they fail with a
    recoverable error it moves on; the first endpoint on which [f]
    succeeds gives the result, and the first endpoint on which [f] fails
    with any other error gives that error, in both cases without calling
    [f] on a later endpoint; when all endpoints fail recoverably, the
    error of the last one is thrown.  An error is recoverable exactly when
    it is an [Error] whose message contains "429", "has been pruned",
    "disconnect" or "failed to detect network", or contains "internal"
    once lower-cased. *)
Theorem callRpc_failover {T : Type} (f : string -> Outcome T)
  (pre post : list string) (rpcUrl : string) :
  Forall (failsRecoverably f) pre ->
  (forall value, f rpcUrl = Return value ->
     callRpc f (pre ++ rpcUrl :: post) = (Return value, (pre ++ [rpcUrl])%list))
  /\ (forall err, f rpcUrl = Throw err -> isRecoverable err = false ->
        callRpc f (pre ++ rpcUrl :: post) = (Throw err, (pre ++ [rpcUrl])%list))
  /\ (forall err, f rpcUrl = Throw err -> isRecoverable err = true ->
        callRpc f (pre ++ [rpcUrl]) = (Throw err, (pre ++ [rpcUrl])%list))
  /\ (forall err, isRecoverable err = true <->
        exists message, err = ErrorObject message
          /\ (includes message "429" = true
              \/ includes message "has been pruned" = true
              \/ includes message "disconnect" = true
              \/ includes message "failed to detect network" = true
              \/ includes (toLowerCase message) "internal" = true)).
Proof.
  intros Hpre. repeat split.
  - intros value Hf.
    destruct (callRpcFrom_skip f pre (rpcUrl :: post) None Hpre) as [l [Heq _]].
    unfold callRpc. rewrite Heq. simpl. rewrite Hf. reflexivity.
  - intros err Hf Hrec.
    destruct (callRpcFrom_skip f pre (rpcUrl :: post) None Hpre) as [l [Heq _]].
    unfold callRpc. rewrite Heq. simpl. rewrite Hf, Hrec. reflexivity.
  - intros err Hf Hrec.
    destruct (callRpcFrom_skip f pre [rpcUrl] None Hpre) as [l [Heq _]].
    unfold callRpc. rewrite Heq. simpl. rewrite Hf, Hrec.
    destruct (isRecoverable_ErrorObject _ Hrec) as [m ->]. reflexivity.
  - intros Hrec. destruct err as [message | d]; [| discriminate].
    exists message. split; [reflexivity |].
    unfold isRecoverable in Hrec. simpl in Hrec.
    repeat (apply orb_true_iff in Hrec; destruct Hrec as [Hrec | Hrec]);
      tauto.
  - intros [message [-> H]]. unfold isRecoverable. simpl.
    repeat rewrite orb_true_iff. tauto.
Qed.

(** The pool on three endpoints: the first is throttled, the second
    answers, the third is never called. *)
Lemma callRpc_failover_witness :
  callRpc Scenario.sampleOperation ["https://rpc-a"; "https://rpc-b"; "https://rpc-c"]
  = (Return 1010, ["https://rpc-a"; "https://rpc-b"]).
Proof.
  apply (proj1 (callRpc_failover Scenario.sampleOperation
                  ["https://rpc-a"] ["https://rpc-c"] "https://rpc-b"
                  ltac:(repeat constructor;
                        eexists; split; [reflexivity | reflexivity]))).
  reflexivity.
Defined.

(** With no endpoint configured the call fails with its own error. *)
Lemma callRpc_no_endpoint {T : Type} (f : string -> Outcome T) :
  callRpc f [] = (Throw (ErrorObject "All RPC calls failed"), []).
Proof. reflexivity. Qed.

End CallRpcFacts.

(** ** The table *)

Module StoreFacts.
Import Js Store Spec.

(** What a row that was inserted says about the object it was made of. *)
Lemma materialize_inv (p : Partial.PartialTransaction)
  (row : Entity.TransactionEntity) :
  materialize p = DbOk row ->
  numeric 65 18 (default "0" (Partial.amount p)) = DbOk (Entity.amount row)
  /\ numeric 78 0 (default "0" (Partial.rawAmount p))
     = DbOk (Entity.rawAmount row)
  /\ Partial.address p = Some (Entity.address row)
  /\ Entity.operation row = Partial.operation p
  /\ Entity.transactionHash row = Partial.transactionHash p
  /\ Entity.chainId row = Partial.chainId p
  /\ Entity.blockNumber row = Partial.blockNumber p
  /\ Entity.blockTime row = Partial.blockTime p
  /\ Entity.blockHash row = Partial.blockHash p
  /\ Entity.tokenAddress row = Partial.tokenAddress p
  /\ Entity.tokenDecimals row = default 18 (Partial.tokenDecimals p)
  /\ Entity.contractAddress row = Partial.contractAddress p
  /\ Entity.confirmations row = Partial.confirmations p
  /\ Entity.requireConfirmations row = Partial.requireConfirmations p
  /\ Entity.status row = Partial.status p.
Proof.
  unfold materialize.
  destruct (numeric 65 18 _) as [amount | e]; [| discriminate].
  destruct (numeric 78 0 _) as [rawAmount | e]; [| discriminate].
  simpl. destruct (Partial.address p) as [addr |]; [| discriminate].
  intros [= <-]. simpl. by repeat split.
Qed.

(** The object is one the table takes: both amounts convert and the
    address is there. *)
Lemma materialize_ok (p : Partial.PartialTransaction)
  (amount rawAmount addr : string) :
  numeric 65 18 (default "0" (Partial.amount p)) = DbOk amount ->
  numeric 78 0 (default "0" (Partial.rawAmount p)) = DbOk rawAmount ->
  Partial.address p = Some addr ->
  exists row,
    materialize p = DbOk row
    /\ Entity.amount row = amount
    /\ Entity.rawAmount row = rawAmount
    /\ Entity.address row = addr.
Proof.
  intros Ha Hr Haddr. unfold materialize. rewrite Ha, Hr, Haddr. simpl.
  eexists. split; [reflexivity |]. by repeat split.
Qed.

Lemma materialize_no_address (p : Partial.PartialTransaction) :
  Partial.address p = None -> exists e, materialize p = DbFail e.
Proof.
  intros Ha. unfold materialize.
  destruct (numeric 65 18 _); simpl; [| eauto].
  destruct (numeric 78 0 _); simpl; [| eauto].
  rewrite Ha. eauto.
Qed.

Lemma insertOne_inv (t t' : Table) (p : Partial.PartialTransaction) :
  insertOne t p = DbOk t' ->
  exists row,
    materialize p = DbOk row
    /\ t !! Partial.transactionHash p = None
    /\ t' = <[Partial.transactionHash p := row]> t.
Proof.
  unfold insertOne. destruct (materialize p) as [row | e]; [| discriminate].
  simpl. destruct (t !! Partial.transactionHash p) eqn:Hl; [discriminate |].
  intros [= <-]. by exists row.
Qed.

Lemma insertOne_ok (t : Table) (p : Partial.PartialTransaction)
  (row : Entity.TransactionEntity) :
  materialize p = DbOk row -> t !! Partial.transactionHash p = None ->
  insertOne t p = DbOk (<[Partial.transactionHash p := row]> t).
Proof. intros Hm Hn. unfold insertOne. rewrite Hm. simpl. by rewrite Hn. Qed.

(** A hash that is in the table meets the unique index, unless the
    object is refused before. *)
Lemma insertOne_taken (t : Table) (p : Partial.PartialTransaction) :
  is_Some (t !! Partial.transactionHash p) ->
  exists e, insertOne t p = DbFail e.
Proof.
  intros [row Hrow]. unfold insertOne.
  destruct (materialize p) as [fresh | e]; simpl; [| eauto].
  rewrite Hrow. eauto.
Qed.

Lemma insertOne_conflict (t : Table) (p : Partial.PartialTransaction)
  (row : Entity.TransactionEntity) :
  materialize p = DbOk row -> is_Some (t !! Partial.transactionHash p) ->
  insertOne t p = DbFail (QueryFailed uniqueViolation).
Proof.
  intros Hm [old Hold]. unfold insertOne. rewrite Hm. simpl.
  by rewrite Hold.
Qed.

(** The rows of a table after a save that went through: the old ones,
    and one for each object, under hashes that were free. *)
Lemma saveNew_lookup (ps : list Partial.PartialTransaction) :
  forall (t t' : Table),
  saveNew t ps = DbOk t' ->
  (forall p, p ∈ ps -> t !! Partial.transactionHash p = None)
  /\ (forall h row,
        t' !! h = Some row <->
        t !! h = Some row
        \/ exists p, p ∈ ps /\ Partial.transactionHash p = h
                     /\ materialize p = DbOk row).
Proof.
  induction ps as [| p ps IH]; intros t t' H; simpl in H.
  - injection H as <-. split.
    + intros p Hp. by apply elem_of_nil in Hp.
    + intros h row. split; [by left |].
      intros [Hold | (p & Hp & _)]; [done | by apply elem_of_nil in Hp].
  - destruct (insertOne t p) as [t1 |] eqn:Hins; [| discriminate].
    simpl in H.
    apply insertOne_inv in Hins as (row1 & Hm & Hnone & ->).
    destruct (IH _ _ H) as [Hfresh Hrows]. split.
    + intros q Hq. apply elem_of_cons in Hq as [-> | Hq]; [exact Hnone |].
      specialize (Hfresh q Hq).
      apply lookup_insert_None in Hfresh. tauto.
    + intros h row. rewrite Hrows. split.
      * intros [Hold | (q & Hq & Hh & Hmq)].
        -- apply lookup_insert_Some in Hold as [[<- <-] | [_ Hold]];
             [right; exists p; split; [left | by split] | by left].
        -- right. exists q. split; [by right | by split].
      * intros [Hold | (q & Hq & Hh & Hmq)].
        -- left. rewrite lookup_insert_ne; [exact Hold | congruence].
        -- apply elem_of_cons in Hq as [-> | Hq].
           ++ left. rewrite <- Hh, lookup_insert_eq. congruence.
           ++ right. exists q. by repeat split.
Qed.

(** A save goes through exactly when the table takes every object and
    the hashes are free and differ from one another. *)
Lemma saveNew_ok_iff (ps : list Partial.PartialTransaction) :
  forall (t : Table),
  (exists t', saveNew t ps = DbOk t') <->
  (forall p, p ∈ ps -> exists row, materialize p = DbOk row)
  /\ (forall p, p ∈ ps -> t !! Partial.transactionHash p = None)
  /\ NoDup (Partial.transactionHash <$> ps).
Proof.
  induction ps as [| p ps IH]; intros t; simpl.
  - split; [| eauto]. intros _. split; [| split; [| constructor]];
      intros p Hp; by apply elem_of_nil in Hp.
  - split.
    + intros [t' H].
      destruct (insertOne t p) as [t1 |] eqn:Hins; [| discriminate].
      simpl in H.
      apply insertOne_inv in Hins as (row1 & Hm & Hnone & ->).
      destruct (proj1 (IH _) (ex_intro _ t' H)) as (Hall & Hfresh & Hnd).
      split; [| split].
      * intros q Hq. apply elem_of_cons in Hq as [-> | Hq]; eauto.
      * intros q Hq. apply elem_of_cons in Hq as [-> | Hq]; [exact Hnone |].
        specialize (Hfresh q Hq). apply lookup_insert_None in Hfresh. tauto.
      * constructor; [| exact Hnd].
        intros Hin. apply list_elem_of_fmap in Hin as (q & Hh & Hq).
        specialize (Hfresh q Hq). rewrite <- Hh in Hfresh.
        by rewrite lookup_insert_eq in Hfresh.
    + intros (Hall & Hfresh & Hnd).
      destruct (Hall p) as [row1 Hm]; [left |].
      rewrite (insertOne_ok t p row1 Hm) by (apply Hfresh; left). simpl.
      apply IH. apply NoDup_cons in Hnd as [Hnotin Hnd].
      split; [| split; [| exact Hnd]].
      * intros q Hq. apply Hall. by right.
      * intros q Hq. apply lookup_insert_None. split; [apply Hfresh; by right |].
        intros Heq. apply Hnotin. rewrite Heq.
        apply list_elem_of_fmap. by exists q.
Qed.

(** The conflict branch of the crawler never gets past its first
    statement: [transaction_hash] is no property of the entity. *)
Lemma upsertAll_fails (ps : list Partial.PartialTransaction) (t : Table) :
  ps <> [] ->
  Crawler.upsertAll t ps = DbFail (EntityPropertyNotFound "transaction_hash").
Proof. destruct ps as [| p ps]; [done | reflexivity]. Qed.

Lemma saveNew_nil_fail (t : Table) (ps : list Partial.PartialTransaction)
  (e : DbError) :
  saveNew t ps = DbFail e -> ps <> [].
Proof. by destruct ps. Qed.

(** So the rows are committed exactly when the plain save goes
    through. *)
Lemma saveOrUpsert_ok (ps : list Partial.PartialTransaction) (t t' : Table) :
  Crawler.saveOrUpsert t ps = DbOk t' <-> saveNew t ps = DbOk t'.
Proof.
  unfold Crawler.saveOrUpsert.
  destruct (saveNew t ps) as [t1 | e] eqn:Hs; [done |].
  split; [| discriminate].
  destruct (isPsqlConflictError e); [| discriminate].
  by rewrite (upsertAll_fails ps t (saveNew_nil_fail t ps e Hs)).
Qed.

(** A save that fails on the unique index ends in the error of the
    upsert; any other failure is passed on. *)
Lemma saveOrUpsert_fail (ps : list Partial.PartialTransaction) (t : Table)
  (e : DbError) :
  saveNew t ps = DbFail e ->
  Crawler.saveOrUpsert t ps
  = DbFail (if isPsqlConflictError e
            then EntityPropertyNotFound "transaction_hash" else e).
Proof.
  intros Hs. unfold Crawler.saveOrUpsert. rewrite Hs.
  destruct (isPsqlConflictError e); [| reflexivity].
  by rewrite (upsertAll_fails ps t (saveNew_nil_fail t ps e Hs)).
Qed.

End StoreFacts.

(** ** The numeric columns *)

Module NumericFacts.
Import Js Store Terms.

Lemma append_empty (s : string) : String.append s "" = s.
Proof.
  induction s as [| c s IH]; [reflexivity |].
  change (String c (String.append s "") = String c s). by f_equal.
Qed.

Lemma uintValue_acc (d : Decimal.uint) (p : positive) :
  Z.pos (Pos.of_uint_acc d p) = uintValue d (Z.pos p).
Proof.
  revert p. induction d; intros p; simpl; try reflexivity;
    rewrite IHd; f_equal; lia.
Qed.

Lemma uintValue_of_uint (d : Decimal.uint) :
  uintValue d 0 = Z.of_uint d.
Proof.
  unfold Z.of_uint. induction d; simpl; try reflexivity;
    try exact IHd; by rewrite uintValue_acc.
Qed.

Lemma wholePart_uint (d : Decimal.uint) (acc : Z) (seen : bool) :
  wholePart (NilEmpty.string_of_uint d) acc seen
  = (uintValue d acc,
     match d with Decimal.Nil => seen | _ => true end,
     "").
Proof.
  revert acc seen.
  induction d; intros acc seen; simpl; try reflexivity;
    rewrite IHd; by destruct d.
Qed.

(** The decimal string of a natural number is read back as that number. *)
Lemma wholePart_stringOfBigInt (n : Z) :
  0 <= n -> wholePart (stringOfBigInt n) 0 false = (n, true, "").
Proof.
  intros Hn. unfold stringOfBigInt.
  assert (Hv : match Z.to_int n with
               | Decimal.Pos d => uintValue d 0 = n
               | Decimal.Neg _ => False
               end).
  { pose proof (DecimalZ.of_to n) as Hof.
    destruct (Z.to_int n) as [d | d] eqn:Hd.
    - rewrite uintValue_of_uint. exact Hof.
    - unfold Z.to_int in Hd. destruct n; try discriminate; lia. }
  destruct (Z.to_int n) as [d | d]; [| done]. simpl.
  destruct d as [| d | d | d | d | d | d | d | d | d | d];
    simpl in *; rewrite <- Hv; [reflexivity | ..];
    rewrite wholePart_uint; by destruct d.
Qed.

Lemma stringOfBigInt_unsigned (n : Z) :
  0 <= n ->
  exists c rest,
    stringOfBigInt n = String c rest
    /\ c <> "-"%char /\ c <> "+"%char.
Proof.
  intros Hn. unfold stringOfBigInt.
  destruct (Z.to_int n) as [d | d] eqn:Hd.
  - simpl.
    destruct d as [| d | d | d | d | d | d | d | d | d | d]; simpl;
      eexists _, _; (split; [reflexivity | split; discriminate]).
  - unfold Z.to_int in Hd. destruct n; try discriminate; lia.
Qed.

(** A column of scale 0 keeps the decimal string of a natural number
    that has no more digits than its precision. *)
Lemma numeric_integer (precision : nat) (n : Z) :
  0 <= n < 10 ^ Z.of_nat precision ->
  numeric precision 0 (stringOfBigInt n) = DbOk (stringOfBigInt n).
Proof.
  intros [Hn Hlt]. unfold numeric.
  destruct (stringOfBigInt_unsigned n Hn) as (c & rest & Hs & Hm & Hp).
  assert (Hbody : (let '(negative, body) :=
                     match stringOfBigInt n with
                     | String "-" r => (true, r)
                     | String "+" r => (false, r)
                     | _ => (false, stringOfBigInt n)
                     end in (negative, body))
                  = (false, stringOfBigInt n)).
  { rewrite Hs.
    destruct c as [[] [] [] [] [] [] [] []]; try reflexivity; congruence. }
  destruct (match stringOfBigInt n with
            | String "-" r => (true, r)
            | String "+" r => (false, r)
            | _ => (false, stringOfBigInt n)
            end) as [negative body].
  injection Hbody as -> ->.
  rewrite (wholePart_stringOfBigInt n Hn). simpl.
  rewrite Z.mul_1_r.
  destruct (Z.leb_spec (10 ^ Z.of_nat precision) n) as [Hge | _]; [lia |].
  unfold renderNumeric. simpl. rewrite Z.div_1_r.
  by rewrite append_empty.
Qed.

(** 2^256 has 78 digits. *)
Lemma uint256_fits (n : Z) : 0 <= n < 2 ^ 256 -> 0 <= n < 10 ^ Z.of_nat 78.
Proof.
  intros [H0 H1]. split; [exact H0 |].
  eapply Z.lt_trans; [exact H1 |]. reflexivity.
Qed.

Lemma numeric_default (precision scale : nat) :
  (0 < precision)%nat ->
  exists zero, numeric precision scale "0" = DbOk zero.
Proof.
  intros Hp. unfold numeric. simpl.
  change (10 * 0 + (Z.of_nat (nat_of_ascii "0") - 48)) with 0.
  rewrite Z.mul_0_l.
  destruct (Z.leb_spec (10 ^ Z.of_nat precision) 0) as [Hge | _];
    [| eexists; reflexivity].
  exfalso.
  assert (0 < 10 ^ Z.of_nat precision) by (apply Z.pow_pos_nonneg; lia).
  lia.
Qed.

End NumericFacts.

(** ** The persist step *)

Module SaveStateFacts.
Import Store Spec StoreFacts.

Section WithChain.

Variable chain : Config.ChainConfig.

Lemma lookup_refreshConfirmations (latestBlock : Z) (t : Table) (h : string) :
  Crawler.refreshConfirmations chain latestBlock t !! h
  = refreshRow chain latestBlock <$> t !! h.
Proof. unfold Crawler.refreshConfirmations. by rewrite lookup_fmap. Qed.

Lemma refreshRow_idempotent (latestBlock : Z) (tx : Entity.TransactionEntity) :
  refreshRow chain latestBlock (refreshRow chain latestBlock tx)
  = refreshRow chain latestBlock tx.
Proof.
  unfold refreshRow.
  destruct (Crawler.needsUpdate chain tx) eqn:Hn; [| by rewrite Hn].
  destruct (Crawler.needsUpdate chain
              (Crawler.updateConfirmations chain latestBlock tx));
    reflexivity.
Qed.

(** The refresh writes confirmations and status only. *)
Lemma refreshRow_kept (latestBlock : Z) (tx : Entity.TransactionEntity) :
  Entity.address (refreshRow chain latestBlock tx) = Entity.address tx
  /\ Entity.amount (refreshRow chain latestBlock tx) = Entity.amount tx
  /\ Entity.rawAmount (refreshRow chain latestBlock tx) = Entity.rawAmount tx
  /\ Entity.operation (refreshRow chain latestBlock tx) = Entity.operation tx
  /\ Entity.transactionHash (refreshRow chain latestBlock tx)
     = Entity.transactionHash tx
  /\ Entity.blockTime (refreshRow chain latestBlock tx) = Entity.blockTime tx
  /\ Entity.blockHash (refreshRow chain latestBlock tx) = Entity.blockHash tx
  /\ Entity.tokenAddress (refreshRow chain latestBlock tx)
     = Entity.tokenAddress tx
  /\ Entity.tokenDecimals (refreshRow chain latestBlock tx)
     = Entity.tokenDecimals tx
  /\ Entity.contractAddress (refreshRow chain latestBlock tx)
     = Entity.contractAddress tx.
Proof.
  unfold refreshRow. destruct (Crawler.needsUpdate chain tx); simpl;
    by repeat split.
Qed.

Lemma refreshRow_blockNumber (latestBlock : Z) (tx : Entity.TransactionEntity) :
  Entity.blockNumber (refreshRow chain latestBlock tx) = Entity.blockNumber tx
  /\ Entity.chainId (refreshRow chain latestBlock tx) = Entity.chainId tx
  /\ Entity.requireConfirmations (refreshRow chain latestBlock tx)
     = Entity.requireConfirmations tx.
Proof.
  unfold refreshRow. destruct (Crawler.needsUpdate chain tx); simpl; tauto.
Qed.

(** [saveState] commits exactly when the save of the new rows goes
    through; the table it commits is that save, refreshed. *)
Lemma saveState_spec (blocks : gmap Z Crawler.BlockInfo)
  (events : list Parser.ParsedEvent) (latestBlock : Z) (t t' : Table) :
  Crawler.saveState chain blocks events latestBlock t = DbOk t' <->
  exists t1,
    saveNew t (Crawler.newTransactions chain blocks events latestBlock)
    = DbOk t1
    /\ t' = Crawler.refreshConfirmations chain latestBlock t1.
Proof.
  unfold Crawler.saveState.
  destruct events as [| e es].
  - simpl. split.
    + intros [= <-]. by exists t.
    + intros (t1 & [= <-] & ->). reflexivity.
  - set (txs := Crawler.newTransactions chain blocks (e :: es) latestBlock).
    split.
    + destruct (Crawler.saveOrUpsert t txs) as [t1 | err] eqn:Hs;
        [| discriminate].
      cbn [bind]. intros [= <-]. exists t1.
      split; [exact (proj1 (saveOrUpsert_ok txs t t1) Hs) | reflexivity].
    + intros (t1 & Hs & ->).
      by rewrite (proj2 (saveOrUpsert_ok txs t t1) Hs).
Qed.

(** What makes [saveState] fail is what makes the save of the new rows
    fail, with the unique violation turned into the error of the
    upsert. *)
Lemma saveState_fail (blocks : gmap Z Crawler.BlockInfo)
  (events : list Parser.ParsedEvent) (latestBlock : Z) (t : Table)
  (e : DbError) :
  Crawler.saveState chain blocks events latestBlock t = DbFail e <->
  exists e0,
    saveNew t (Crawler.newTransactions chain blocks events latestBlock)
    = DbFail e0
    /\ e = (if isPsqlConflictError e0
            then EntityPropertyNotFound "transaction_hash" else e0).
Proof.
  unfold Crawler.saveState.
  destruct events as [| ev es].
  - simpl. split; [discriminate | intros (e0 & ? & _); discriminate].
  - set (txs := Crawler.newTransactions chain blocks (ev :: es) latestBlock).
    destruct (saveNew t txs) as [t1 | e0] eqn:Hs.
    + rewrite (proj2 (saveOrUpsert_ok txs t t1) Hs). cbn [bind].
      split; [discriminate | intros (e1 & ? & _); discriminate].
    + rewrite (saveOrUpsert_fail txs t e0 Hs). cbn [bind]. split.
      * intros [= <-]. by exists e0.
      * intros (e1 & [= <-] & ->). reflexivity.
Qed.

(** Every object of [newTransactions] is built from one event of the
    batch and carries the confirmations of the first. *)
Lemma newTransactions_elem (blocks : gmap Z Crawler.BlockInfo)
  (first : Parser.ParsedEvent) (rest : list Parser.ParsedEvent)
  (latestBlock : Z) (tx : Partial.PartialTransaction) :
  tx ∈ Crawler.newTransactions chain blocks (first :: rest) latestBlock ->
  exists event,
    event ∈ first :: rest
    /\ Partial.transactionHash tx = Parser.transactionHash event
    /\ Partial.blockNumber tx = Parser.blockNumber event
    /\ Partial.address tx = Parser.address event
    /\ Partial.chainId tx = Config.chainId chain
    /\ Partial.requireConfirmations tx = Config.requiredConfirmations chain
    /\ Partial.confirmations tx = latestBlock - Parser.blockNumber first + 1
    /\ Partial.status tx
       = (if Partial.confirmations tx >=? Config.requiredConfirmations chain
          then Entity.CONFIRMED else Entity.PENDING).
Proof.
  unfold Crawler.newTransactions. intros Hin.
  apply list_elem_of_fmap in Hin as [event [-> Hev]].
  exists event. simpl. by repeat split.
Qed.

Lemma newTransactions_hashes (blocks : gmap Z Crawler.BlockInfo)
  (events : list Parser.ParsedEvent) (latestBlock : Z) :
  Partial.transactionHash
    <$> Crawler.newTransactions chain blocks events latestBlock
  = Parser.transactionHash <$> events.
Proof.
  unfold Crawler.newTransactions. destruct events as [| e es]; [reflexivity |].
  rewrite <- list_fmap_compose. reflexivity.
Qed.

Lemma newTransactions_any (blocks : gmap Z Crawler.BlockInfo)
  (events : list Parser.ParsedEvent) (latestBlock : Z)
  (tx : Partial.PartialTransaction) :
  tx ∈ Crawler.newTransactions chain blocks events latestBlock ->
  exists event,
    event ∈ events
    /\ Partial.transactionHash tx = Parser.transactionHash event
    /\ Partial.blockNumber tx = Parser.blockNumber event
    /\ Partial.chainId tx = Config.chainId chain
    /\ Partial.requireConfirmations tx = Config.requiredConfirmations chain
    /\ Partial.status tx
       = (if Partial.confirmations tx >=? Config.requiredConfirmations chain
          then Entity.CONFIRMED else Entity.PENDING).
Proof.
  destruct events as [| first rest];
    [intros H; by apply elem_of_nil in H |].
  intros H. apply newTransactions_elem in H
    as (event & He & Hh & Hb & _ & Hc & Hr & _ & Hs).
  exists event. by repeat split.
Qed.

(** The row under hash [h] once [saveState] has committed: a row of the
    old table or the row of an object of the batch, refreshed. *)
Lemma lookup_saved (blocks : gmap Z Crawler.BlockInfo)
  (events : list Parser.ParsedEvent) (latestBlock : Z) (t t' : Table)
  (h : string) (row : Entity.TransactionEntity) :
  Crawler.saveState chain blocks events latestBlock t = DbOk t' ->
  t' !! h = Some row <->
  exists row0,
    row = refreshRow chain latestBlock row0
    /\ (t !! h = Some row0
        \/ exists tx,
             tx ∈ Crawler.newTransactions chain blocks events latestBlock
             /\ Partial.transactionHash tx = h
             /\ materialize tx = DbOk row0).
Proof.
  intros Hs. apply saveState_spec in Hs as (t1 & Hsave & ->).
  rewrite lookup_refreshConfirmations.
  destruct (saveNew_lookup _ _ _ Hsave) as [_ Hrows]. split.
  - destruct (t1 !! h) as [row0 |] eqn:H1; [| discriminate].
    simpl. intros [= <-]. exists row0. split; [reflexivity |].
    by apply Hrows.
  - intros (row0 & -> & H0). apply Hrows in H0. by rewrite H0.
Qed.

(** The hashes of the batch were free. *)
Lemma saved_fresh (blocks : gmap Z Crawler.BlockInfo)
  (events : list Parser.ParsedEvent) (latestBlock : Z) (t t' : Table)
  (event : Parser.ParsedEvent) :
  Crawler.saveState chain blocks events latestBlock t = DbOk t' ->
  event ∈ events -> t !! Parser.transactionHash event = None.
Proof.
  intros Hs Hev. apply saveState_spec in Hs as (t1 & Hsave & _).
  destruct (saveNew_lookup _ _ _ Hsave) as [Hfresh _].
  assert (Hin : Parser.transactionHash event
                ∈ Partial.transactionHash
                    <$> Crawler.newTransactions chain blocks events latestBlock).
  { rewrite newTransactions_hashes. apply list_elem_of_fmap. by exists event. }
  apply list_elem_of_fmap in Hin as (tx & -> & Htx). by apply Hfresh.
Qed.

End WithChain.

End SaveStateFacts.

(** ** Replaying a window *)

Module ReplayFacts.
Import Js Store Spec StoreFacts SaveStateFacts.

(** Whether the table takes an object depends on its two amounts and on
    its address only. *)
Lemma materialize_agrees (p q : Partial.PartialTransaction)
  (row : Entity.TransactionEntity) :
  Partial.amount q = Partial.amount p ->
  Partial.rawAmount q = Partial.rawAmount p ->
  Partial.address q = Partial.address p ->
  materialize p = DbOk row ->
  exists row', materialize q = DbOk row'.
Proof.
  intros Ha Hr Haddr Hm.
  apply materialize_inv in Hm as (Hamount & Hraw & Hp & _).
  destruct (materialize_ok q (Entity.amount row) (Entity.rawAmount row)
              (Entity.address row)) as (row' & Hq & _);
    [by rewrite Ha | by rewrite Hr | by rewrite Haddr |].
  by exists row'.
Qed.

(** C5, on the code.  A window whose rows are in the table cannot be
    replayed: once a batch with at least one event has been committed,
    [saveState] of the same events on the committed table fails,
    whatever the head and the block map of the replay are.  The save
    meets the unique index, the conflict branch calls [manager.upsert]
    with the conflict path [transaction_hash], and TypeORM refuses the
    path; the transaction is rolled back and the error leaves
    [saveState]. *)
Theorem replay_throws (chain : Config.ChainConfig)
  (blocks blocks' : gmap Z Crawler.BlockInfo)
  (events : list Parser.ParsedEvent) (latestBlock latestBlock' : Z)
  (t0 t1 : Table) :
  events <> [] ->
  Crawler.saveState chain blocks events latestBlock t0 = DbOk t1 ->
  Crawler.saveState chain blocks' events latestBlock' t1
  = DbFail (EntityPropertyNotFound "transaction_hash").
Proof.
  intros Hne Hs. destruct events as [| e es]; [done |].
  assert (Hin : e ∈ e :: es) by left.
  pose proof (saved_fresh chain blocks (e :: es) latestBlock t0 t1 e Hs Hin)
    as Hfree.
  set (tx := fun (b : gmap Z Crawler.BlockInfo) (l : Z) =>
               Crawler.newTransactions chain b (e :: es) l).
  assert (Hhead : forall b l, exists p rest,
            tx b l = p :: rest
            /\ Partial.transactionHash p = Parser.transactionHash e
            /\ Partial.amount p = Parser.amount e
            /\ Partial.rawAmount p = Parser.rawAmount e
            /\ Partial.address p = Parser.address e).
  { intros b l. unfold tx, Crawler.newTransactions. simpl.
    eexists _, _. split; [reflexivity |]. by repeat split. }
  destruct (Hhead blocks latestBlock) as (p & rest & Hp & Hh & Ha & Hr & Hd).
  destruct (Hhead blocks' latestBlock')
    as (p' & rest' & Hp' & Hh' & Ha' & Hr' & Hd').
  pose proof Hs as Hs0.
  apply saveState_spec in Hs0 as (t1' & Hsave & Ht1). fold (tx blocks latestBlock) in Hsave.
  assert (Hrow : exists row, materialize p = DbOk row).
  { apply (proj1 (saveNew_ok_iff (tx blocks latestBlock) t0)
             (ex_intro _ t1' Hsave)).
    rewrite Hp. left. }
  destruct Hrow as [row Hrow].
  destruct (materialize_agrees p p' row) as [row' Hrow'];
    [congruence | congruence | congruence | exact Hrow |].
  assert (Hthere : is_Some (t1 !! Partial.transactionHash p')).
  { rewrite Hh'. 
    assert (Hl : t1 !! Parser.transactionHash e
                 = Some (refreshRow chain latestBlock row)).
    { apply (lookup_saved chain blocks (e :: es) latestBlock t0 t1 _ _ Hs).
      exists row. split; [reflexivity |]. right. exists p.
      fold (tx blocks latestBlock). rewrite Hp. split; [left | by split]. }
    rewrite Hl. eauto. }
  apply saveState_fail. exists (QueryFailed uniqueViolation).
  split; [| reflexivity].
  fold (tx blocks' latestBlock'). rewrite Hp'. simpl.
  by rewrite (insertOne_conflict t1 p' row' Hrow' Hthere).
Qed.

(** The batch of S1, once more, with the head eight blocks further. *)
Lemma replay_throws_witness :
  Crawler.saveState Scenario.chain1 Scenario.blocksRefetched Scenario.eventsS1
    1018 Scenario.tableS1
  = DbFail (EntityPropertyNotFound "transaction_hash").
Proof.
  apply (replay_throws Scenario.chain1 Scenario.blocksS1
           Scenario.blocksRefetched Scenario.eventsS1 1010 1018
           ∅ Scenario.tableS1).
  - discriminate.
  - vm_compute. reflexivity.
Defined.

(** S1 with Redis refusing the write of the checkpoint: the cycle ends
    in its catch with the row committed and the checkpoint at 999.  The
    next cycle reads the window from block 1000 again, fails in
    [saveState] and leaves everything as it found it, and so does every
    cycle after it. *)
Example crawl_cannot_pass_committed_window :
  exists r f r',
    Crawler.crawlOn Scenario.chain1
      (Scenario.serving 1010 [Scenario.depositS1]) formatUnitsDigits
      (Return tt) Scenario.redisRefuses 10 Scenario.never Scenario.idle
    = Some r
    /\ Crawler.windows r = []
    /\ is_Some (Crawler.table (Crawler.finalState r) !! "0xDEAD")
    /\ Crawler.lastProcessedBlock (Crawler.finalState r) = 999
    /\ Crawler.scheduled r = Crawler.CrawlAfter 5000 false
    /\ Crawler.processBatch Scenario.chain1
         (Scenario.serving 1010 [Scenario.depositS1]) formatUnitsDigits
         1010 1000 1010 (Crawler.finalState r)
       = Crawler.BatchFailed f
           (Crawler.DbFailure (EntityPropertyNotFound "transaction_hash"))
    /\ Crawler.crawl Scenario.chain1
         (Scenario.serving 1010 [Scenario.depositS1]) formatUnitsDigits
         10 Scenario.never (Crawler.finalState r)
       = Some r'
    /\ Crawler.windows r' = []
    /\ Crawler.table (Crawler.finalState r')
       = Crawler.table (Crawler.finalState r)
    /\ Crawler.lastProcessedBlock (Crawler.finalState r') = 999
    /\ Crawler.scheduled r' = Crawler.CrawlAfter 5000 false
    /\ Crawler.crawl Scenario.chain1
         (Scenario.serving 1010 [Scenario.depositS1]) formatUnitsDigits
         10 Scenario.never (Crawler.finalState r')
       = Some r'.
Proof.
  eexists _, _, _.
  split; [vm_compute; reflexivity |].
  split; [reflexivity |].
  split; [vm_compute; eauto |].
  split; [reflexivity |].
  split; [reflexivity |].
  split; [vm_compute; reflexivity |].
  split; [vm_compute; reflexivity |].
  split; [reflexivity |].
  split; [vm_compute; reflexivity |].
  split; [reflexivity |].
  split; [reflexivity |].
  vm_compute. reflexivity.
Qed.

(** S6 continued: the verifier has inserted the row of block 1008, and
    the crawler comes back with its checkpoint at 1000.  Its first pass
    finds the Withdraw of block 1008 in its window and fails in
    [saveState]; the cycle persists no window. *)
Example crawl_cannot_pass_verified_row :
  exists r f,
    Crawler.processBatch
      (Networks.getChainConfig Scenario.environment Networks.ETHEREUM)
      (Scenario.serving 1025 [Scenario.eventS6]) formatUnitsDigits
      1025 1001 1025
      (Crawler.setTable (fst Scenario.verifiedS6) Scenario.offline)
    = Crawler.BatchFailed f
        (Crawler.DbFailure (EntityPropertyNotFound "transaction_hash"))
    /\ Crawler.crawl
         (Networks.getChainConfig Scenario.environment Networks.ETHEREUM)
         (Scenario.serving 1025 [Scenario.eventS6]) formatUnitsDigits
         10 Scenario.never
         (Crawler.setTable (fst Scenario.verifiedS6) Scenario.offline)
       = Some r
    /\ Crawler.windows r = []
    /\ Crawler.table (Crawler.finalState r) = fst Scenario.verifiedS6
    /\ Crawler.lastProcessedBlock (Crawler.finalState r) = 1000
    /\ Crawler.scheduled r = Crawler.CrawlAfter 5000 false.
Proof.
  eexists _, _.
  split; [vm_compute; reflexivity |].
  split; [vm_compute; reflexivity |].
  split; [reflexivity |].
  split; [vm_compute; reflexivity |].
  split; [reflexivity |]. reflexivity.
Qed.

End ReplayFacts.

(** ** Rollback and checkpoint *)

Module CheckpointFacts.
Import Js Store Spec StoreFacts SaveStateFacts.

(** The rows a rollback keeps. *)
Lemma rollbackReorg_rows (chain : Config.ChainConfig) (reorgBlock : Z)
  (s : Crawler.State) (h : string) (row : Entity.TransactionEntity) :
  Crawler.table (Crawler.rollbackReorg chain reorgBlock s) !! h = Some row
  <-> Crawler.table s !! h = Some row
      /\ ~ (Entity.chainId row = Config.chainId chain
            /\ reorgBlock <= Entity.blockNumber row).
Proof.
  unfold Crawler.rollbackReorg. simpl.
  rewrite map_lookup_filter_Some. simpl. tauto.
Qed.

(** C6.  [rollbackReorg R] keeps exactly the rows that are not rows of
    the current chain at block [R] or above, keeps exactly the block-map
    entries below [R], and sets the checkpoint, in memory and in Redis,
    to [R - 1]; so no row of the chain with blockNumber >= R remains. *)
Theorem rollbackReorg_complete (chain : Config.ChainConfig) (reorgBlock : Z)
  (s : Crawler.State) :
  (forall h row,
     Crawler.table (Crawler.rollbackReorg chain reorgBlock s) !! h = Some row
     <-> Crawler.table s !! h = Some row
         /\ ~ (Entity.chainId row = Config.chainId chain
               /\ reorgBlock <= Entity.blockNumber row))
  /\ (forall n info,
        Crawler.blockMap (Crawler.rollbackReorg chain reorgBlock s) !! n
        = Some info
        <-> Crawler.blockMap s !! n = Some info /\ n < reorgBlock)
  /\ Crawler.lastProcessedBlock (Crawler.rollbackReorg chain reorgBlock s)
     = reorgBlock - 1
  /\ Crawler.redis (Crawler.rollbackReorg chain reorgBlock s)
       !! Crawler.cacheKey chain
     = Some (stringOfBigInt (reorgBlock - 1))
  /\ (forall h row,
        Crawler.table (Crawler.rollbackReorg chain reorgBlock s) !! h = Some row ->
        Entity.chainId row = Config.chainId chain ->
        Entity.blockNumber row < reorgBlock).
Proof.
  split; [| split; [| split; [| split]]].
  - intros h row. apply rollbackReorg_rows.
  - intros n info. unfold Crawler.rollbackReorg. simpl.
    rewrite map_lookup_filter_Some. simpl. tauto.
  - reflexivity.
  - unfold Crawler.rollbackReorg. simpl. apply lookup_insert_eq.
  - intros h row Hrow Hc. apply rollbackReorg_rows in Hrow as [_ Hrow].
    destruct (Z.lt_ge_cases (Entity.blockNumber row) reorgBlock) as [Hlt | Hge];
      [exact Hlt | exfalso; apply Hrow; by split].
Qed.

(** One turn of the loop when Redis takes the writes. *)
Lemma crawlLoop_step (chain : Config.ChainConfig)
  (network : string -> Ethers.Provider) (formatUnits : string -> Z -> string)
  (fuel : nat) (stopDuring : nat -> bool) (k : nat)
  (latestBlock fromBlock toBlock : Z) (s : Crawler.State)
  (done : list (Z * Z)) :
  Crawler.crawlLoop chain network formatUnits (S fuel) stopDuring k
    latestBlock fromBlock toBlock s done
  = if fromBlock <=? latestBlock then
      match Crawler.processBatch chain network formatUnits latestBlock
              fromBlock toBlock s with
      | Crawler.BatchFailed s1 _ =>
          Some (Crawler.mkCycleResult
                  (Crawler.setIsRunning false
                     (if stopDuring k then Crawler.stop s1 else s1))
                  done (Crawler.CrawlAfter 5000 false))
      | Crawler.BatchDone s1 =>
          Crawler.crawlLoop chain network formatUnits fuel stopDuring (S k)
            latestBlock (toBlock + 1)
            (Crawler.nextToBlock chain (toBlock + 1) latestBlock)
            (if stopDuring k then Crawler.stop s1 else s1)
            (done ++ [(fromBlock, toBlock)])%list
      end
    else
      Some (Crawler.mkCycleResult s done
              (Crawler.CrawlAfter (Config.restartDelay chain) true)).
Proof. reflexivity. Qed.

(** The cycle when Redis takes the writes. *)
Lemma crawl_cases (chain : Config.ChainConfig)
  (network : string -> Ethers.Provider) (formatUnits : string -> Z -> string)
  (fuel : nat) (stopDuring : nat -> bool) (s : Crawler.State) :
  Crawler.crawl chain network formatUnits fuel stopDuring s
  = if Crawler.isRunning s
    then Some (Crawler.mkCycleResult s [] Crawler.NothingScheduled)
    else
      match Crawler.getLatestBlockNumber chain network with
      | Throw _ =>
          Some (Crawler.mkCycleResult
                  (Crawler.setIsRunning false (Crawler.setIsRunning true s))
                  [] (Crawler.CrawlAfter 5000 false))
      | Return latestBlock =>
          let fromBlock := Crawler.lastProcessedBlock s + 1 in
          let '(s1, reorgBlock) :=
            Crawler.checkForReorg chain network (Crawler.setIsRunning true s) in
          match reorgBlock with
          | Some r =>
              Crawler.crawlLoop chain network formatUnits fuel stopDuring 0
                latestBlock r (Crawler.nextToBlock chain r latestBlock)
                (Crawler.rollbackReorg chain r s1) []
          | None =>
              Crawler.crawlLoop chain network formatUnits fuel stopDuring 0
                latestBlock fromBlock
                (Crawler.nextToBlock chain fromBlock latestBlock) s1 []
          end
      end.
Proof.
  unfold Crawler.crawl, Crawler.crawlOn, Crawler.crawlLoop.
  destruct (Crawler.isRunning s); [reflexivity |].
  destruct (Crawler.getLatestBlockNumber chain network); [| reflexivity].
  by destruct (Crawler.checkForReorg _ _ _) as [s1 [r |]].
Qed.

(** The probe's answer is what [crawl] rolls back to. *)
Lemma crawl_rolls_back (chain : Config.ChainConfig)
  (network : string -> Ethers.Provider) (formatUnits : string -> Z -> string)
  (fuel : nat) (stopDuring : nat -> bool) (s s1 : Crawler.State)
  (latestBlock r : Z) :
  Crawler.isRunning s = false ->
  Crawler.getLatestBlockNumber chain network = Return latestBlock ->
  Crawler.checkForReorg chain network (Crawler.setIsRunning true s)
  = (s1, Some r) ->
  Crawler.crawl chain network formatUnits fuel stopDuring s
  = Crawler.crawlLoop chain network formatUnits fuel stopDuring 0 latestBlock
      r (Crawler.nextToBlock chain r latestBlock)
      (Crawler.rollbackReorg chain r s1) [].
Proof.
  intros Hrun Hlatest Hprobe. rewrite crawl_cases.
  rewrite Hrun, Hlatest, Hprobe. reflexivity.
Qed.

Lemma rollbackReorg_checkpoint (chain : Config.ChainConfig) (reorgBlock : Z)
  (s : Crawler.State) :
  checkpointDominates chain (Crawler.rollbackReorg chain reorgBlock s).
Proof.
  intros h row Hrow Hc. apply rollbackReorg_rows in Hrow as [_ Hrow].
  change (Entity.blockNumber row <= reorgBlock - 1).
  destruct (Z.lt_ge_cases (Entity.blockNumber row) reorgBlock) as [Hlt | Hge];
    [lia | exfalso; apply Hrow; by split].
Qed.

(** In the loop the window always reaches the checkpoint. *)
Lemma window_reaches_checkpoint (chain : Config.ChainConfig)
  (latestBlock lastProcessed : Z) :
  0 <= Config.batchSize chain ->
  lastProcessed + 1 <= latestBlock ->
  lastProcessed <= Crawler.nextToBlock chain (lastProcessed + 1) latestBlock.
Proof. unfold Crawler.nextToBlock. lia. Qed.

(** Every row [saveState] commits is a row of the old table or carries
    the block number of an event of the batch. *)
Lemma saveState_blockNumber (chain : Config.ChainConfig)
  (blocks : gmap Z Crawler.BlockInfo) (events : list Parser.ParsedEvent)
  (latestBlock : Z) (t t' : Table) (h : string) (row : Entity.TransactionEntity) :
  Crawler.saveState chain blocks events latestBlock t = DbOk t' ->
  t' !! h = Some row ->
  (exists old, t !! h = Some old
               /\ Entity.blockNumber row = Entity.blockNumber old
               /\ Entity.chainId row = Entity.chainId old)
  \/ (exists event, event ∈ events
                    /\ Entity.blockNumber row = Parser.blockNumber event).
Proof.
  intros Hs Hrow.
  apply (lookup_saved chain blocks events latestBlock t t' h row Hs) in Hrow
    as (row0 & -> & [Hold | (tx & Htx & Hh & Hm)]).
  - left. exists row0. split; [exact Hold |].
    destruct (refreshRow_blockNumber chain latestBlock row0) as (-> & -> & _).
    done.
  - right. apply newTransactions_any in Htx as (event & Hev & _ & Hbn & _).
    exists event. split; [exact Hev |].
    destruct (refreshRow_blockNumber chain latestBlock row0) as (-> & _).
    apply materialize_inv in Hm. destruct Hm as (_ & _ & _ & _ & _ & _ & -> & _).
    exact Hbn.
Qed.

(** The rows of a pass lie at or below the end of its window, whatever
    becomes of the pass. *)
Lemma persistBatch_rows (chain : Config.ChainConfig)
  (network : string -> Ethers.Provider) (formatUnits : string -> Z -> string)
  (latestBlock fromBlock toBlock : Z) (s : Crawler.State) :
  checkpointDominates chain s ->
  Crawler.lastProcessedBlock s <= toBlock ->
  (forall allEvents,
     Crawler.call chain network
       (fun provider => Ethers.queryFilter provider fromBlock toBlock)
     = Return allEvents ->
     Forall (fun l => Ethers.blockNumber l <= toBlock) allEvents) ->
  match Crawler.persistBatch chain network formatUnits
          latestBlock fromBlock toBlock s with
  | Crawler.BatchDone s1 =>
      Crawler.lastProcessedBlock s1 = Crawler.lastProcessedBlock s
      /\ Crawler.redis s1 = Crawler.redis s
      /\ (forall h row,
            Crawler.table s1 !! h = Some row ->
            Entity.chainId row = Config.chainId chain ->
            Entity.blockNumber row <= toBlock)
  | Crawler.BatchFailed s1 failure =>
      checkpointDominates chain s1
      /\ (forall err, failure <> Crawler.RedisFailure err)
  end.
Proof.
  intros Hinv Hlast Hlogs.
  unfold Crawler.persistBatch, Crawler.fetchEvents.
  destruct (Crawler.call chain network _) as [allEvents | err] eqn:Hq;
    [| split; [exact Hinv | discriminate]].
  destruct (Crawler.saveBlockMap _ _ _ _ _ _ _) as [blocks | err];
    [| split; [exact Hinv | discriminate]].
  cbn [Crawler.table Crawler.setBlockMap].
  destruct (Crawler.saveState _ _ _ _ _) as [t' | err] eqn:Hs;
    [| split; [exact Hinv | discriminate]].
  split; [reflexivity |]. split; [reflexivity |].
  intros h row Hrow Hc. simpl in Hrow.
  destruct (saveState_blockNumber _ _ _ _ _ _ _ _ Hs Hrow)
    as [(old & Hold & Hbn & Hch) | (event & Hev & Hbn)].
  - rewrite Hbn. etrans; [| exact Hlast].
    apply (Hinv h old Hold). congruence.
  - rewrite Hbn.
    apply ParserFacts.parseEvents_elem in Hev as (l & Hl & Hp).
    apply ParserFacts.parseSingleEvent_position in Hp as [-> _].
    specialize (Hlogs allEvents eq_refl).
    rewrite Forall_forall in Hlogs. by apply Hlogs.
Qed.

(** A rollback whose Redis write is rejected removes rows only. *)
Lemma rollbackReorgRejected_checkpoint (chain : Config.ChainConfig)
  (reorgBlock : Z) (s : Crawler.State) :
  checkpointDominates chain s ->
  checkpointDominates chain (Crawler.rollbackReorgRejected chain reorgBlock s).
Proof.
  intros Hinv h row Hrow Hc.
  unfold Crawler.rollbackReorgRejected in Hrow. simpl in Hrow.
  apply map_lookup_filter_Some in Hrow as [Hrow _].
  exact (Hinv h row Hrow Hc).
Qed.

(** C4, as amended.  A pass of the crawler loop over the window up to
    [toBlock], when the endpoint answers the log query with logs of the
    window, keeps the checkpoint above the rows of the chain if it
    completes and if it fails in the log query, the block fetch or the
    persist step; a completed pass leaves the checkpoint at [toBlock], in
    memory and in Redis.  A pass whose Redis write is rejected has
    committed its rows and leaves the checkpoint where it was, in memory
    and in Redis: its rows lie at or below [toBlock], not below the
    checkpoint.  A rollback keeps the checkpoint above the rows, also
    when its Redis write is rejected. *)
Theorem processBatch_keeps_checkpoint (chain : Config.ChainConfig)
  (network : string -> Ethers.Provider) (formatUnits : string -> Z -> string)
  (redisSet : Outcome unit)
  (latestBlock fromBlock toBlock : Z) (s : Crawler.State) :
  checkpointDominates chain s ->
  Crawler.lastProcessedBlock s <= toBlock ->
  (forall allEvents,
     Crawler.call chain network
       (fun provider => Ethers.queryFilter provider fromBlock toBlock)
     = Return allEvents ->
     Forall (fun l => Ethers.blockNumber l <= toBlock) allEvents) ->
  match Crawler.processBatchOn chain network formatUnits redisSet
          latestBlock fromBlock toBlock s with
  | Crawler.BatchDone s' =>
      checkpointDominates chain s'
      /\ Crawler.lastProcessedBlock s' = toBlock
      /\ Crawler.redis s' !! Crawler.cacheKey chain
         = Some (stringOfBigInt toBlock)
  | Crawler.BatchFailed s' (Crawler.RedisFailure err) =>
      redisSet = Throw err
      /\ Crawler.persistBatch chain network formatUnits
           latestBlock fromBlock toBlock s = Crawler.BatchDone s'
      /\ Crawler.lastProcessedBlock s' = Crawler.lastProcessedBlock s
      /\ Crawler.redis s' = Crawler.redis s
      /\ (forall h row,
            Crawler.table s' !! h = Some row ->
            Entity.chainId row = Config.chainId chain ->
            Entity.blockNumber row <= toBlock)
  | Crawler.BatchFailed s' _ => checkpointDominates chain s'
  end
  /\ (forall reorgBlock,
        checkpointDominates chain (Crawler.rollbackReorg chain reorgBlock s)
        /\ checkpointDominates chain
             (Crawler.rollbackReorgRejected chain reorgBlock s)).
Proof.
  intros Hinv Hlast Hlogs. split.
  - pose proof (persistBatch_rows chain network formatUnits latestBlock
                  fromBlock toBlock s Hinv Hlast Hlogs) as Hp.
    unfold Crawler.processBatchOn.
    destruct (Crawler.persistBatch _ _ _ _ _ _ _) as [s1 | s1 f] eqn:Hpb.
    + destruct Hp as (Hl & Hr & Hrows).
      unfold Crawler.advanceCheckpoint.
      destruct redisSet as [[] | err].
      * split; [| split; [reflexivity | apply lookup_insert_eq]].
        intros h row Hrow Hc. simpl in *. by apply (Hrows h row).
      * by repeat split.
    + destruct Hp as [Hdom Hnot]. destruct f; [exact Hdom | exact Hdom |].
      by destruct (Hnot err).
  - intros r. split; [apply rollbackReorg_checkpoint |].
    by apply rollbackReorgRejected_checkpoint.
Qed.

End CheckpointFacts.

(** ** Confirmations and status *)

Module ConfirmationFacts.
Import Js Store Spec StoreFacts SaveStateFacts.

(** X24.  All objects of a batch share the confirmations of its first
    event, head - block of the first event + 1; an object has the count
    of its own block exactly when its block is the block of the first
    event. *)
Lemma newTransactions_confirmations (chain : Config.ChainConfig)
  (blocks : gmap Z Crawler.BlockInfo) (first : Parser.ParsedEvent)
  (rest : list Parser.ParsedEvent) (latestBlock : Z)
  (tx : Partial.PartialTransaction) :
  tx ∈ Crawler.newTransactions chain blocks (first :: rest) latestBlock ->
  Partial.confirmations tx = latestBlock - Parser.blockNumber first + 1
  /\ (Partial.confirmations tx = latestBlock - Partial.blockNumber tx + 1
      <-> Partial.blockNumber tx = Parser.blockNumber first).
Proof.
  intros Hin.
  apply newTransactions_elem in Hin as (event & _ & _ & _ & _ & _ & _ & Hc & _).
  split; [exact Hc | lia].
Qed.

(** S1: one Deposit in block 1005, head 1010.  The batch has one block,
    and the row gets its own count. *)
Example crawl_single_deposit :
  exists r row,
    Crawler.crawl Scenario.chain1 (Scenario.serving 1010 [Scenario.depositS1])
      formatUnitsDigits 10 Scenario.never Scenario.idle = Some r
    /\ Crawler.table (Crawler.finalState r) !! "0xDEAD" = Some row
    /\ Entity.rawAmount row = "1000000000000000000"
    /\ Entity.confirmations row = 1010 - 1005 + 1
    /\ Entity.status row = Entity.PENDING
    /\ Crawler.lastProcessedBlock (Crawler.finalState r) = 1010.
Proof.
  eexists. eexists.
  split; [vm_compute; reflexivity |].
  split; [vm_compute; reflexivity |]. by repeat split.
Qed.

(** C1, on the code.  Head 1020, required confirmations 12, one window
    with a Deposit in block 1005 and a Deposit in block 1015: the cycle
    stores the second row with confirmations 16 and status CONFIRMED,
    the value of the first event of the batch, where head - blockNumber
    + 1 is 6. *)
Theorem crawl_stores_first_events_confirmations :
  exists r row,
    Crawler.crawl Scenario.chain1
      (Scenario.serving 1020 [Scenario.depositOld; Scenario.depositRecent])
      formatUnitsDigits 10 Scenario.never Scenario.idle = Some r
    /\ Crawler.table (Crawler.finalState r) !! "0xAAA2" = Some row
    /\ Entity.blockNumber row = 1015
    /\ Entity.confirmations row = 16
    /\ Entity.status row = Entity.CONFIRMED
    /\ 1020 - Entity.blockNumber row + 1 = 6
    /\ 6 < Entity.requireConfirmations row.
Proof.
  eexists. eexists.
  split; [vm_compute; reflexivity |].
  split; [vm_compute; reflexivity |].
  repeat split.
Qed.

(** X23.  While the threshold of the configuration is the one the rows
    were inserted under, [saveState] keeps the status of every row
    coherent with its own [requireConfirmations], CONFIRMED exactly when
    the confirmations have reached it, and the rows of the chain keep
    that threshold. *)
Lemma saveState_keeps_status_coherent (chain : Config.ChainConfig)
  (blocks : gmap Z Crawler.BlockInfo) (events : list Parser.ParsedEvent)
  (latestBlock : Z) (t t' : Table) :
  (forall h row, t !! h = Some row ->
     statusCoherent row
     /\ (Entity.chainId row = Config.chainId chain ->
         Entity.requireConfirmations row = Config.requiredConfirmations chain)) ->
  Crawler.saveState chain blocks events latestBlock t = DbOk t' ->
  forall h row, t' !! h = Some row ->
    statusCoherent row
    /\ (Entity.chainId row = Config.chainId chain ->
        Entity.requireConfirmations row = Config.requiredConfirmations chain).
Proof.
  intros Hold Hs h row Hrow.
  assert (Hrefresh : forall x,
            statusCoherent x ->
            (Entity.chainId x = Config.chainId chain ->
             Entity.requireConfirmations x = Config.requiredConfirmations chain) ->
            statusCoherent (refreshRow chain latestBlock x)
            /\ (Entity.chainId (refreshRow chain latestBlock x)
                = Config.chainId chain ->
                Entity.requireConfirmations (refreshRow chain latestBlock x)
                = Config.requiredConfirmations chain)).
  { intros x Hx Hreq. unfold refreshRow.
    destruct (Crawler.needsUpdate chain x) eqn:Hn; [| by split].
    unfold Crawler.needsUpdate in Hn. apply andb_true_iff in Hn as [Hc _].
    apply String.eqb_eq in Hc. specialize (Hreq Hc).
    split; [| by simpl].
    unfold statusCoherent, Crawler.updateConfirmations. simpl.
    rewrite <- Hreq.
    destruct (Z.geb_spec
                (Z.min (latestBlock - Entity.blockNumber x + 1)
                   (Entity.requireConfirmations x))
                (Entity.requireConfirmations x)); split; try done; lia. }
  apply (lookup_saved chain blocks events latestBlock t t' h row Hs) in Hrow
    as (row0 & -> & [Ho | (p & Hin & Hh & Hm)]).
  - destruct (Hold h row0 Ho) as [H1 H2]. by apply Hrefresh.
  - apply newTransactions_any in Hin as (event & _ & _ & _ & _ & Hr & Hst).
    apply materialize_inv in Hm.
    destruct Hm as (_ & _ & _ & _ & _ & _ & _ & _ & _ & _ & _ & _
                    & Hwc & Hwr & Hws).
    apply Hrefresh.
    + unfold statusCoherent. rewrite Hws, Hwr, Hwc, Hst, Hr.
      destruct (Z.geb_spec (Partial.confirmations p)
                  (Config.requiredConfirmations chain));
        split; try done; lia.
    + intros _. by rewrite Hwr.
Qed.

(** C2, on the code.  The row of S1 was confirmed under the threshold 12
    and carries [requireConfirmations] 12.  After the threshold of the
    configuration is raised to 20, the next [saveState] (head 1030, no new
    events) sets the row back to PENDING although its confirmations, 12,
    still reach its own [requireConfirmations]. *)
Theorem saveState_uses_live_threshold :
  exists before t after,
    Scenario.tableConfirmed !! "0xDEAD" = Some before
    /\ Entity.status before = Entity.CONFIRMED
    /\ statusCoherent before
    /\ Crawler.saveState Scenario.chain1Raised ∅ [] 1030 Scenario.tableConfirmed
       = DbOk t
    /\ t !! "0xDEAD" = Some after
    /\ Entity.confirmations after = 12
    /\ Entity.requireConfirmations after = 12
    /\ Entity.status after = Entity.PENDING
    /\ ~ statusCoherent after.
Proof.
  eexists. eexists. eexists.
  split; [vm_compute; reflexivity |].
  split; [reflexivity |].
  split; [unfold statusCoherent; simpl; split; [lia | reflexivity] |].
  split; [vm_compute; reflexivity |].
  split; [vm_compute; reflexivity |].
  split; [reflexivity |].
  split; [reflexivity |].
  split; [reflexivity |].
  unfold statusCoherent. simpl. intros [_ H].
  assert (Hc : Entity.PENDING = Entity.CONFIRMED) by (apply H; lia).
  discriminate.
Qed.

End ConfirmationFacts.

(** ** Stopping *)

Module StopFacts.
Import Js Store Spec.

(** A pass of the loop does not look at [isRunning]. *)
Lemma processBatch_ignores_isRunning (chain : Config.ChainConfig)
  (network : string -> Ethers.Provider) (formatUnits : string -> Z -> string)
  (latestBlock fromBlock toBlock : Z) (s : Crawler.State) (b : bool) :
  Crawler.processBatch chain network formatUnits latestBlock fromBlock toBlock
    (Crawler.setIsRunning b s)
  = match Crawler.processBatch chain network formatUnits
            latestBlock fromBlock toBlock s with
    | Crawler.BatchDone s' => Crawler.BatchDone (Crawler.setIsRunning b s')
    | Crawler.BatchFailed s' f =>
        Crawler.BatchFailed (Crawler.setIsRunning b s') f
    end.
Proof.
  destruct s as [last running blocks t r].
  unfold Crawler.processBatch, Crawler.processBatchOn,
    Crawler.advanceCheckpoint, Crawler.persistBatch. simpl.
  destruct (Crawler.fetchEvents _ _ _ _ _) as [events | err]; [| reflexivity].
  destruct (Crawler.saveBlockMap _ _ _ _ _ _ _) as [blocks' | err];
    [| reflexivity].
  simpl. destruct (Crawler.saveState _ _ _ _ _); reflexivity.
Qed.

(** X22.  The loop of a cycle does not look at [isRunning]: whatever
    calls of [stop()] arrive during its passes, it persists the same
    windows, leaves the same tables and schedules the same next cycle
    as without them. *)
Lemma crawlLoop_ignores_stop (chain : Config.ChainConfig)
  (network : string -> Ethers.Provider) (formatUnits : string -> Z -> string)
  (fuel : nat) (stopDuring : nat -> bool) :
  forall (k : nat) (latestBlock fromBlock toBlock : Z) (s : Crawler.State)
         (b : bool) (done : list (Z * Z)),
  outcomeOf <$> Crawler.crawlLoop chain network formatUnits fuel stopDuring k
                   latestBlock fromBlock toBlock (Crawler.setIsRunning b s) done
  = outcomeOf <$> Crawler.crawlLoop chain network formatUnits fuel
                     Scenario.never k latestBlock fromBlock toBlock s done.
Proof.
  induction fuel as [| fuel IH]; intros k latestBlock fromBlock toBlock s b done.
  - reflexivity.
  - rewrite !CheckpointFacts.crawlLoop_step.
    destruct (fromBlock <=? latestBlock); [| by destruct s].
    rewrite processBatch_ignores_isRunning.
    destruct (Crawler.processBatch _ _ _ _ _ _ _) as [s' | s' f].
    + unfold Scenario.never at 1.
      destruct (stopDuring k).
      * unfold Crawler.stop.
        replace (Crawler.setIsRunning false (Crawler.setIsRunning b s'))
          with (Crawler.setIsRunning false s') by (by destruct s').
        apply IH.
      * apply IH.
    + unfold Scenario.never. destruct (stopDuring k); by destruct s'.
Qed.

(** C7, on the code.  Checkpoint 999, head 1250, windows of 100 blocks;
    [stop()] is called while the first window is processed.  The cycle
    still persists the second and third window and leaves a timer that
    starts the next cycle; when the timer fires with the head at 1260 the
    crawler persists the window 1251..1260 and schedules again. *)
Theorem stop_leaves_the_loop_running :
  exists r r',
    Crawler.crawl Scenario.chain1 (Scenario.serving 1250 []) formatUnitsDigits
      10 Scenario.stopInFirstPass Scenario.idle = Some r
    /\ Crawler.windows r = [(1000, 1099); (1100, 1199); (1200, 1250)]
    /\ Crawler.isRunning (Crawler.finalState r) = false
    /\ Crawler.scheduled r = Crawler.CrawlAfter 5000 true
    /\ Crawler.timerFires Scenario.chain1 (Scenario.serving 1260 [])
         formatUnitsDigits 10 Scenario.never r = Some r'
    /\ Crawler.windows r' = [(1251, 1260)]
    /\ Crawler.scheduled r' = Crawler.CrawlAfter 5000 true.
Proof.
  eexists. eexists.
  split; [vm_compute; reflexivity |].
  split; [reflexivity |].
  split; [reflexivity |].
  split; [reflexivity |].
  split; [vm_compute; reflexivity |].
  split; reflexivity.
Qed.

End StopFacts.

(** ** The fallback verifier *)

Module FallbackFacts.
Import Js Store Spec StoreFacts.

(** C3, as stated, fails.  In S6 (receipt in block 1008, head 1025, 12
    required confirmations) the verifier stores the row with confirmations
    18, above its [requireConfirmations]. *)
Lemma fallback_stores_uncapped_confirmations :
  exists row,
    fst Scenario.verifiedS6 !! "0xBEEF" = Some row
    /\ Fallback.found (snd Scenario.verifiedS6) = true
    /\ Entity.confirmations row = 18
    /\ Entity.requireConfirmations row = 12
    /\ Entity.status row = Entity.CONFIRMED
    /\ Entity.confirmations row <> 12
    /\ ~ Entity.confirmations row <= Entity.requireConfirmations row.
Proof.
  eexists. split; [vm_compute; reflexivity |].
  split; [vm_compute; reflexivity |].
  simpl. repeat split; try lia.
Qed.

(** C3, as amended.  A row the fallback verifier saves has confirmations
    head - block number + 1, without a cap, its [requireConfirmations] is
    the threshold of the chain configuration, and its status is CONFIRMED
    exactly when the confirmations reach that threshold. *)
Theorem fallback_row_confirmations (parsedEvent : Parser.ParsedEvent)
  (chainConfig : Config.ChainConfig)
  (transactionReceipt : Ethers.TransactionReceipt) (block : Ethers.Block)
  (latestBlock : Z) (t t' : Table) :
  insertOne t (Fallback.createTransactionEntity parsedEvent chainConfig
                 transactionReceipt block latestBlock) = DbOk t' ->
  exists row,
    t' !! Ethers.receiptHash transactionReceipt = Some row
    /\ Entity.blockNumber row = Ethers.number block
    /\ Entity.confirmations row = latestBlock - Ethers.number block + 1
    /\ Entity.requireConfirmations row
       = Config.requiredConfirmations chainConfig
    /\ (Entity.status row = Entity.CONFIRMED
        <-> Entity.confirmations row >= Entity.requireConfirmations row)
    /\ (Entity.status row = Entity.PENDING
        <-> Entity.confirmations row < Entity.requireConfirmations row).
Proof.
  intros H. apply insertOne_inv in H as (row & Hm & _ & ->).
  exists row. simpl. split; [apply lookup_insert_eq |].
  apply materialize_inv in Hm.
  destruct Hm as (_ & _ & _ & _ & _ & _ & Hb & _ & _ & _ & _ & _
                  & Hc & Hr & Hs).
  simpl in Hb, Hc, Hr, Hs. rewrite Hb, Hc, Hr, Hs.
  destruct (Z.geb_spec (latestBlock - Ethers.number block + 1)
              (Config.requiredConfirmations chainConfig));
    repeat split; try done; lia.
Qed.

(** The row of S6. *)
Lemma fallback_row_confirmations_witness :
  exists row,
    fst Scenario.verifiedS6 !! "0xBEEF" = Some row
    /\ Entity.blockNumber row = 1008
    /\ Entity.confirmations row = 1025 - 1008 + 1
    /\ Entity.requireConfirmations row = 12
    /\ (Entity.status row = Entity.CONFIRMED
        <-> Entity.confirmations row >= Entity.requireConfirmations row)
    /\ (Entity.status row = Entity.PENDING
        <-> Entity.confirmations row < Entity.requireConfirmations row).
Proof.
  apply (fallback_row_confirmations Scenario.withdrawS6
           (Networks.getChainConfig Scenario.environment Networks.ETHEREUM)
           Scenario.receiptS6 (Scenario.blockAt 1008) 1025
           ∅ (fst Scenario.verifiedS6)).
  vm_compute. reflexivity.
Defined.

(** A save of the verifier leaves the other rows as they are. *)
Lemma insertOne_other (t t' : Table) (p : Partial.PartialTransaction)
  (h : string) :
  insertOne t p = DbOk t' -> h <> Partial.transactionHash p ->
  t' !! h = t !! h.
Proof.
  unfold insertOne. destruct (materialize p); [| discriminate]. simpl.
  destruct (t !! Partial.transactionHash p); [discriminate |].
  intros [= <-] Hne. by rewrite lookup_insert_ne.
Qed.

End FallbackFacts.

(** ** The checkpoint between the save and its update *)

Module CheckpointScenario.
Import Js Store Spec.

(** C4, as stated, fails at three observable points.  In S1 the row of
    block 1005 is committed while the checkpoint is still 999; when Redis
    then rejects the write of the checkpoint the pass ends that way; in
    S6 the verifier inserts a row of block 1008 while the checkpoint of
    the offline crawler is 1000. *)
Lemma rows_above_checkpoint :
  ~ checkpointDominates Scenario.chain1
      (stateOf (Crawler.persistBatch Scenario.chain1
                  (Scenario.serving 1010 [Scenario.depositS1])
                  formatUnitsDigits 1010 1000 1010 Scenario.idle))
  /\ ~ checkpointDominates Scenario.chain1
         (stateOf (Crawler.processBatchOn Scenario.chain1
                     (Scenario.serving 1010 [Scenario.depositS1])
                     formatUnitsDigits Scenario.redisDown
                     1010 1000 1010 Scenario.idle))
  /\ ~ checkpointDominates
         (Networks.getChainConfig Scenario.environment Networks.ETHEREUM)
         (Crawler.setTable (fst Scenario.verifiedS6) Scenario.offline).
Proof.
  split; [| split]; intros H.
  - assert (Hrow : exists row,
              Crawler.table
                (stateOf (Crawler.persistBatch Scenario.chain1
                            (Scenario.serving 1010 [Scenario.depositS1])
                            formatUnitsDigits 1010 1000 1010 Scenario.idle))
                !! "0xDEAD" = Some row
              /\ Entity.chainId row = "1" /\ Entity.blockNumber row = 1005)
      by (eexists; split; [vm_compute; reflexivity | by split]).
    destruct Hrow as (row & Hrow & Hc & Hb).
    specialize (H "0xDEAD" row Hrow Hc). rewrite Hb in H.
    vm_compute in H. by apply H.
  - assert (Hrow : exists row,
              Crawler.table
                (stateOf (Crawler.processBatchOn Scenario.chain1
                            (Scenario.serving 1010 [Scenario.depositS1])
                            formatUnitsDigits Scenario.redisDown
                            1010 1000 1010 Scenario.idle))
                !! "0xDEAD" = Some row
              /\ Entity.chainId row = "1" /\ Entity.blockNumber row = 1005)
      by (eexists; split; [vm_compute; reflexivity | by split]).
    destruct Hrow as (row & Hrow & Hc & Hb).
    specialize (H "0xDEAD" row Hrow Hc). rewrite Hb in H.
    vm_compute in H. by apply H.
  - assert (Hrow : exists row,
              fst Scenario.verifiedS6 !! "0xBEEF" = Some row
              /\ Entity.chainId row = "1" /\ Entity.blockNumber row = 1008)
      by (eexists; split; [vm_compute; reflexivity | by split]).
    destruct Hrow as (row & Hrow & Hc & Hb).
    specialize (H "0xBEEF" row Hrow Hc). rewrite Hb in H.
    vm_compute in H. by apply H.
Qed.

(** The pass of S1, with Redis taking the write of the checkpoint. *)
Lemma processBatch_keeps_checkpoint_witness :
  match Crawler.processBatchOn Scenario.chain1
          (Scenario.serving 1010 [Scenario.depositS1]) formatUnitsDigits
          (Return tt) 1010 1000 1010 Scenario.idle with
  | Crawler.BatchDone s' =>
      checkpointDominates Scenario.chain1 s'
      /\ Crawler.lastProcessedBlock s' = 1010
      /\ Crawler.redis s' !! Crawler.cacheKey Scenario.chain1
         = Some (stringOfBigInt 1010)
  | Crawler.BatchFailed s' (Crawler.RedisFailure err) =>
      Return tt = Throw err
      /\ Crawler.persistBatch Scenario.chain1
           (Scenario.serving 1010 [Scenario.depositS1]) formatUnitsDigits
           1010 1000 1010 Scenario.idle = Crawler.BatchDone s'
      /\ Crawler.lastProcessedBlock s'
         = Crawler.lastProcessedBlock Scenario.idle
      /\ Crawler.redis s' = Crawler.redis Scenario.idle
      /\ (forall h row,
            Crawler.table s' !! h = Some row ->
            Entity.chainId row = Config.chainId Scenario.chain1 ->
            Entity.blockNumber row <= 1010)
  | Crawler.BatchFailed s' _ => checkpointDominates Scenario.chain1 s'
  end
  /\ (forall reorgBlock,
        checkpointDominates Scenario.chain1
          (Crawler.rollbackReorg Scenario.chain1 reorgBlock Scenario.idle)
        /\ checkpointDominates Scenario.chain1
             (Crawler.rollbackReorgRejected Scenario.chain1 reorgBlock
                Scenario.idle)).
Proof.
  apply (CheckpointFacts.processBatch_keeps_checkpoint Scenario.chain1
           (Scenario.serving 1010 [Scenario.depositS1])
           formatUnitsDigits (Return tt) 1010 1000 1010 Scenario.idle).
  - intros h row H. vm_compute in H. discriminate.
  - simpl. lia.
  - intros allEvents H. vm_compute in H. injection H as <-.
    repeat constructor. simpl. lia.
Defined.

End CheckpointScenario.

(** ** From a log to a row *)

Module RoundTripFacts.
Import Js Store Spec Terms StoreFacts SaveStateFacts.

Lemma truthyString_true (s : string) : s <> "" -> truthyString s = true.
Proof. by destruct s. Qed.

Lemma truthyBigInt_true (n : Z) : n <> 0 -> truthyBigInt n = true.
Proof.
  intros Hn. unfold truthyBigInt. by destruct (Z.eqb_spec n 0).
Qed.

(** The object [newTransactions] builds at position [i] carries the
    properties of the event at position [i], and no [tokenDecimals]. *)
Lemma newTransactions_lookup (chain : Config.ChainConfig)
  (blocks : gmap Z Crawler.BlockInfo) (events : list Parser.ParsedEvent)
  (latestBlock : Z) (i : nat) (tx : Partial.PartialTransaction) :
  Crawler.newTransactions chain blocks events latestBlock !! i = Some tx ->
  exists event,
    events !! i = Some event
    /\ Partial.address tx = Parser.address event
    /\ Partial.amount tx = Parser.amount event
    /\ Partial.rawAmount tx = Parser.rawAmount event
    /\ Partial.tokenAddress tx = Parser.tokenAddress event
    /\ Partial.operation tx = Parser.operation event
    /\ Partial.transactionHash tx = Parser.transactionHash event
    /\ Partial.contractAddress tx = Some (Parser.contractAddress event)
    /\ Partial.tokenDecimals tx = None.
Proof.
  destruct events as [| first rest]; [by rewrite lookup_nil |].
  unfold Crawler.newTransactions. rewrite list_lookup_fmap.
  destruct ((first :: rest) !! i) as [event |]; [| discriminate].
  simpl. intros [= <-]. exists event. simpl. by repeat split.
Qed.

(** An amount that is not zero and that [formatUnits] takes. *)
Lemma formats_uint (a : Ethers.Result) :
  0 <= Ethers.arg2 a < 2 ^ 256 -> 0 <= Ethers.arg3 a <= 80 ->
  formats a = true.
Proof.
  intros [H0 H1] [H2 H3]. unfold formats, Ethers.formatUnitsThrows, decimalsOf.
  assert (H511 : 2 ^ 256 < 2 ^ 511) by reflexivity.
  destruct (Z.eqb_spec (Ethers.arg2 a) 0) as [| _]; [reflexivity |]. simpl.
  destruct (Z.eqb_spec (Ethers.arg3 a) 0) as [| _].
  - destruct (Z.ltb_spec (Ethers.arg2 a) (- 2 ^ 511)); [lia |].
    destruct (Z.leb_spec (2 ^ 511) (Ethers.arg2 a)); [lia |]. reflexivity.
  - destruct (Z.ltb_spec (Ethers.arg3 a) 0); [lia |].
    destruct (Z.ltb_spec 80 (Ethers.arg3 a)); [lia |].
    destruct (Z.ltb_spec (Ethers.arg2 a) (- 2 ^ 511)); [lia |].
    destruct (Z.leb_spec (2 ^ 511) (Ethers.arg2 a)); [lia |]. reflexivity.
Qed.

(** The row of a batch of one event whose hash is new to the table and
    whose amounts the table takes. *)
Lemma saveState_single (chain : Config.ChainConfig)
  (blocks : gmap Z Crawler.BlockInfo) (pe : Parser.ParsedEvent)
  (latestBlock : Z) (t : Table) (amount rawAmount addr : string) :
  numeric 65 18 (default "0" (Parser.amount pe)) = DbOk amount ->
  numeric 78 0 (default "0" (Parser.rawAmount pe)) = DbOk rawAmount ->
  Parser.address pe = Some addr ->
  t !! Parser.transactionHash pe = None ->
  exists t' row,
    Crawler.saveState chain blocks [pe] latestBlock t = DbOk t'
    /\ t' !! Parser.transactionHash pe = Some row
    /\ Entity.address row = addr
    /\ Entity.amount row = amount
    /\ Entity.rawAmount row = rawAmount
    /\ Entity.tokenAddress row = Parser.tokenAddress pe
    /\ Entity.operation row = Parser.operation pe
    /\ Entity.contractAddress row = Some (Parser.contractAddress pe)
    /\ Entity.tokenDecimals row = 18
    /\ Entity.chainId row = Config.chainId chain
    /\ Entity.blockNumber row = Parser.blockNumber pe.
Proof.
  intros Ha Hr Haddr Hnew.
  set (txs := Crawler.newTransactions chain blocks [pe] latestBlock).
  assert (Htx : exists tx,
            txs = [tx]
            /\ Partial.transactionHash tx = Parser.transactionHash pe
            /\ Partial.address tx = Parser.address pe
            /\ Partial.amount tx = Parser.amount pe
            /\ Partial.rawAmount tx = Parser.rawAmount pe
            /\ Partial.tokenAddress tx = Parser.tokenAddress pe
            /\ Partial.operation tx = Parser.operation pe
            /\ Partial.contractAddress tx = Some (Parser.contractAddress pe)
            /\ Partial.tokenDecimals tx = None
            /\ Partial.chainId tx = Config.chainId chain
            /\ Partial.blockNumber tx = Parser.blockNumber pe)
    by (eexists; split; [reflexivity | by repeat split]).
  destruct Htx as (tx & Htxs & Hh & Hta & Htm & Htr & Htt & Hto & Htc & Htd
                   & Hch & Hbn).
  destruct (materialize_ok tx amount rawAmount addr)
    as (row0 & Hm & Hma & Hmr & Hmd);
    [by rewrite Htm | by rewrite Htr | by rewrite Hta |].
  assert (Hs : Crawler.saveState chain blocks [pe] latestBlock t
               = DbOk (Crawler.refreshConfirmations chain latestBlock
                         (<[Partial.transactionHash tx := row0]> t))).
  { apply saveState_spec. eexists. split; [| reflexivity].
    fold txs. rewrite Htxs. simpl.
    rewrite (insertOne_ok t tx row0 Hm) by (by rewrite Hh). reflexivity. }
  eexists _, (refreshRow chain latestBlock row0).
  split; [exact Hs |]. split.
  { rewrite lookup_refreshConfirmations, <- Hh, lookup_insert_eq.
    reflexivity. }
  destruct (refreshRow_kept chain latestBlock row0)
    as (-> & -> & -> & -> & _ & _ & _ & -> & -> & ->).
  destruct (refreshRow_blockNumber chain latestBlock row0) as (-> & -> & _).
  apply materialize_inv in Hm.
  destruct Hm as (_ & _ & _ & Hop & _ & Hc & Hb & _ & _ & Hta' & Htd' & Hca & _).
  rewrite Hta', Hop, Hca, Htd', Hc, Hb, Htd. simpl.
  by repeat split.
Qed.

(** C8, as stated, fails.  The Deposit of S1 is sent by
    0xAb5801a7D398351b8bE11C439e05C5B3259aeC9B; the row keeps the address
    in this mixed-case form, which is not its lower-case form. *)
Lemma address_is_not_lower_cased :
  exists row,
    Scenario.tableS1 !! "0xDEAD" = Some row
    /\ Entity.address row = Scenario.user
    /\ Entity.address row <> toLowerCase Scenario.user
    /\ Entity.tokenAddress row = Some Scenario.token
    /\ Entity.tokenAddress row <> Some (toLowerCase Scenario.token).
Proof.
  eexists. split; [vm_compute; reflexivity |].
  split; [reflexivity |]. split; [by vm_compute |].
  split; [reflexivity | by vm_compute].
Qed.

(** C8, as amended.  A Deposit log with non-empty addresses, an amount
    that is not zero and decimals up to 80, whose formatted amount the
    [amount] column takes, is parsed, and persisting it in a table that
    does not hold its transaction hash yields a row whose [address] and
    [tokenAddress] are the strings of the log as they are, without any
    change of case, whose [rawAmount] is the amount in decimal, whose
    [amount] is the formatted amount as the column returns it, and whose
    operation is deposit; the parsed event carries the decimals of the
    log when they are not zero. *)
Theorem deposit_round_trip (formatUnits : string -> Z -> string)
  (chain : Config.ChainConfig) (blocks : gmap Z Crawler.BlockInfo)
  (latestBlock : Z) (t : Table) (event : Ethers.EventLog) (a : Ethers.Result)
  (stored : string) :
  Ethers.eventName event = "Deposit" ->
  Ethers.args event = Some a ->
  Ethers.arg0 a <> "" ->
  Ethers.arg1 a <> "" ->
  0 < Ethers.arg2 a < 2 ^ 256 ->
  0 <= Ethers.arg3 a <= 80 ->
  numeric 65 18
    (formatUnits (stringOfBigInt (Ethers.arg2 a)) (decimalsOf a))
  = DbOk stored ->
  t !! Ethers.transactionHash event = None ->
  exists pe t' row,
    Parser.parseEvents formatUnits [event] = [pe]
    /\ Crawler.saveState chain blocks [pe] latestBlock t = DbOk t'
    /\ t' !! Ethers.transactionHash event = Some row
    /\ Entity.address row = Ethers.arg0 a
    /\ Entity.tokenAddress row = Some (Ethers.arg1 a)
    /\ Entity.rawAmount row = stringOfBigInt (Ethers.arg2 a)
    /\ Entity.amount row = stored
    /\ Entity.operation row = Entity.DEPOSIT
    /\ Entity.contractAddress row = Some (Ethers.address event)
    /\ (Ethers.arg3 a <> 0 -> Parser.decimals pe = Some (Ethers.arg3 a)).
Proof.
  intros Hname Hargs H0 H1 H2 H3 Hstored Hnew.
  pose proof (ParserFacts.parseSingleEvent_Deposit formatUnits event Hname)
    as Hparse.
  rewrite (ParserFacts.parseEventAs_args formatUnits _ _ event a Hargs)
    in Hparse.
  rewrite (formats_uint a) in Hparse by lia.
  assert (Hnz : (Ethers.arg2 a =? 0) = false) by (apply Z.eqb_neq; lia).
  rewrite Hnz in Hparse.
  match type of Hparse with _ = Some ?x => set (pe := x) in * end.
  destruct (saveState_single chain blocks pe latestBlock t stored
              (stringOfBigInt (Ethers.arg2 a)) (Ethers.arg0 a))
    as (t' & row & Hs & Hrow & Ha & Hm & Hr & Ht & Ho & Hc & _).
  - exact Hstored.
  - simpl. unfold Parser.extractRawAmount.
    rewrite (truthyBigInt_true (Ethers.arg2 a)) by lia. simpl.
    apply NumericFacts.numeric_integer, NumericFacts.uint256_fits. lia.
  - simpl. unfold Parser.extractUserAddress.
    by rewrite (truthyString_true _ H0).
  - exact Hnew.
  - exists pe, t', row.
    split; [simpl; by rewrite Hparse |].
    split; [exact Hs |]. split; [exact Hrow |].
    split; [exact Ha |].
    split.
    { rewrite Ht. simpl. unfold Parser.extractTokenAddress.
      by rewrite (truthyString_true _ H1). }
    split; [exact Hr |]. split; [exact Hm |].
    split; [exact Ho |]. split; [exact Hc |].
    intros Hd. simpl. unfold Parser.extractDecimals.
    by rewrite (truthyBigInt_true _ Hd).
Qed.

(** The Deposit of S1, persisted in an empty table. *)
Lemma deposit_round_trip_witness :
  exists pe t' row,
    Parser.parseEvents formatUnitsDigits [Scenario.depositS1] = [pe]
    /\ Crawler.saveState Scenario.chain1 Scenario.blocksS1 [pe] 1010 ∅ = DbOk t'
    /\ t' !! Ethers.transactionHash Scenario.depositS1 = Some row
    /\ Entity.address row = Ethers.arg0 Scenario.argsS1
    /\ Entity.tokenAddress row = Some (Ethers.arg1 Scenario.argsS1)
    /\ Entity.rawAmount row = stringOfBigInt (Ethers.arg2 Scenario.argsS1)
    /\ Entity.amount row = "1.000000000000000000"
    /\ Entity.operation row = Entity.DEPOSIT
    /\ Entity.contractAddress row
       = Some (Ethers.address Scenario.depositS1)
    /\ (Ethers.arg3 Scenario.argsS1 <> 0 ->
        Parser.decimals pe = Some (Ethers.arg3 Scenario.argsS1)).
Proof.
  apply (deposit_round_trip formatUnitsDigits Scenario.chain1 Scenario.blocksS1
           1010 ∅ Scenario.depositS1 Scenario.argsS1
           "1.000000000000000000").
  - reflexivity.
  - reflexivity.
  - discriminate.
  - discriminate.
  - split; [reflexivity | reflexivity].
  - split; discriminate.
  - vm_compute. reflexivity.
  - reflexivity.
Defined.

(** The crawler's row object has no property named [tokenDecimals]: a
    Deposit with 6 decimals is stored with the column default 18, next to
    an amount formatted with 6. *)
Example crawler_stores_default_decimals :
  exists parsed t row,
    Parser.parseEvents formatUnitsDigits [Scenario.depositSixDecimals] = [parsed]
    /\ Parser.decimals parsed = Some 6
    /\ Parser.amount parsed = Some "1.5"
    /\ Crawler.saveState Scenario.chain1 Scenario.blocksS1 [parsed] 1010 ∅
       = DbOk t
    /\ t !! "0xCAFE" = Some row
    /\ Entity.amount row = "1.500000000000000000"
    /\ Entity.tokenDecimals row = 18.
Proof.
  eexists. eexists. eexists.
  split; [reflexivity |]. split; [reflexivity |]. split; [reflexivity |].
  split; [vm_compute; reflexivity |].
  split; [vm_compute; reflexivity |]. by split.
Qed.

(** What the hypotheses of the round trip keep out.  A Deposit with 81
    decimals is dropped by the parser, whose [catch] swallows the
    exception of [formatUnits]; a Deposit of 10^66 units with 18
    decimals is parsed and then refused by the [amount] column; one
    unit with 20 decimals is stored as zero. *)
Example deposits_that_do_not_round_trip :
  Parser.parseEvents formatUnitsDigits
    [Scenario.eventLog "Deposit" "0xD081" 1005 5 81] = []
  /\ Crawler.saveState Scenario.chain1 Scenario.blocksS1
       (Parser.parseEvents formatUnitsDigits
          [Scenario.eventLog "Deposit" "0xD066" 1005 (10 ^ 66) 18])
       1010 ∅
     = DbFail (QueryFailed numericOverflow)
  /\ (exists row,
        Scenario.tableOf
          (Crawler.saveState Scenario.chain1 Scenario.blocksS1
             (Parser.parseEvents formatUnitsDigits
                [Scenario.eventLog "Deposit" "0xD020" 1005 1 20])
             1010 ∅) !! "0xD020" = Some row
        /\ Entity.rawAmount row = "1"
        /\ Entity.amount row = "0.000000000000000000").
Proof.
  split; [reflexivity |]. split; [vm_compute; reflexivity |].
  eexists. split; [vm_compute; reflexivity |]. by split.
Qed.

End RoundTripFacts.

(** ** Zero amounts and zero decimals *)

Module ZeroFacts.
Import Js Store Spec Terms StoreFacts SaveStateFacts RoundTripFacts.

(** C10.  A Deposit or Withdraw log with a user address whose amount
    or whose decimals are 0 is parsed, and both the crawler and the
    fallback verifier persist a row for it.  When the amount is 0,
    [rawAmount] and [amount] of the parsed event are undefined, not the
    string 0, and both rows hold the column default 0 in both columns.
    When the decimals are 0, [decimals] of the parsed event is
    undefined, the amount (if there is one) is formatted with 18
    decimals, and both rows hold [tokenDecimals] 18 next to that
    amount. *)
Theorem zero_arguments_are_absent (formatUnits : string -> Z -> string)
  (chain : Config.ChainConfig) (blocks : gmap Z Crawler.BlockInfo)
  (latestBlock : Z) (chainConfig : Config.ChainConfig)
  (transactionReceipt : Ethers.TransactionReceipt) (block : Ethers.Block)
  (head : Z) (t : Table) (event : Ethers.EventLog) (a : Ethers.Result)
  (stored : string) :
  Ethers.eventName event = "Deposit" \/ Ethers.eventName event = "Withdraw" ->
  Ethers.args event = Some a ->
  Ethers.arg0 a <> "" ->
  0 <= Ethers.arg2 a < 2 ^ 256 ->
  Ethers.arg2 a = 0 \/ Ethers.arg3 a = 0 ->
  numeric 65 18
    (if Ethers.arg2 a =? 0 then "0"
     else formatUnits (stringOfBigInt (Ethers.arg2 a)) 18)
  = DbOk stored ->
  t !! Ethers.transactionHash event = None ->
  t !! Ethers.receiptHash transactionReceipt = None ->
  exists pe t1 row1 t2 row2,
    Parser.parseSingleEvent formatUnits event = Some pe
    /\ Crawler.saveState chain blocks [pe] latestBlock t = DbOk t1
    /\ t1 !! Ethers.transactionHash event = Some row1
    /\ insertOne t (Fallback.createTransactionEntity pe chainConfig
                      transactionReceipt block head) = DbOk t2
    /\ t2 !! Ethers.receiptHash transactionReceipt = Some row2
    /\ Entity.amount row1 = stored
    /\ Entity.amount row2 = stored
    /\ (Ethers.arg2 a = 0 ->
        Parser.rawAmount pe = None
        /\ Parser.amount pe = None
        /\ Entity.rawAmount row1 = "0"
        /\ Entity.rawAmount row2 = "0"
        /\ stored = "0.000000000000000000")
    /\ (Ethers.arg3 a = 0 ->
        Parser.decimals pe = None
        /\ Parser.amount pe
           = (if Ethers.arg2 a =? 0 then None
              else Some (formatUnits (stringOfBigInt (Ethers.arg2 a)) 18))
        /\ Entity.tokenDecimals row1 = 18
        /\ Entity.tokenDecimals row2 = 18).
Proof.
  intros Hname Hargs H0 H2 Hzero Hstored Hnew Hnew'.
  assert (Hparse : exists name op,
            Parser.parseSingleEvent formatUnits event
            = Parser.parseEventAs formatUnits name op event).
  { destruct Hname as [Hn | Hn].
    - exists "Deposit", Entity.DEPOSIT.
      by apply ParserFacts.parseSingleEvent_Deposit.
    - exists "Withdraw", Entity.WITHDRAW.
      by apply ParserFacts.parseSingleEvent_Withdraw. }
  destruct Hparse as (name & op & Hparse).
  rewrite (ParserFacts.parseEventAs_args formatUnits _ _ event a Hargs)
    in Hparse.
  assert (Hformats : formats a = true).
  { destruct Hzero as [Hz | Hz].
    - unfold formats. by rewrite Hz.
    - apply formats_uint; [exact H2 | lia]. }
  rewrite Hformats in Hparse.
  match type of Hparse with _ = Some ?x => set (pe := x) in * end.
  assert (Hamount : default "0" (Parser.amount pe)
                    = (if Ethers.arg2 a =? 0 then "0"
                       else formatUnits (stringOfBigInt (Ethers.arg2 a)) 18)).
  { simpl. destruct (Z.eqb_spec (Ethers.arg2 a) 0) as [Hz | Hnz];
      [reflexivity |].
    destruct Hzero as [Hz | Hz]; [done |].
    unfold decimalsOf. by rewrite Hz. }
  assert (Hraw : default "0" (Parser.rawAmount pe)
                 = stringOfBigInt (Ethers.arg2 a)).
  { simpl. unfold Parser.extractRawAmount, truthyBigInt.
    destruct (Z.eqb_spec (Ethers.arg2 a) 0) as [-> | _]; reflexivity. }
  assert (Haddr : Parser.address pe = Some (Ethers.arg0 a)).
  { simpl. unfold Parser.extractUserAddress.
    by rewrite (truthyString_true _ H0). }
  assert (Hrawok : numeric 78 0 (default "0" (Parser.rawAmount pe))
                   = DbOk (stringOfBigInt (Ethers.arg2 a))).
  { rewrite Hraw.
    by apply NumericFacts.numeric_integer, NumericFacts.uint256_fits. }
  destruct (saveState_single chain blocks pe latestBlock t stored
              (stringOfBigInt (Ethers.arg2 a)) (Ethers.arg0 a))
    as (t1 & row1 & Hs & Hrow1 & _ & Hm1 & Hr1 & _ & _ & _ & Hd1 & _);
    [by rewrite Hamount | exact Hrawok | exact Haddr | exact Hnew |].
  destruct (materialize_ok
              (Fallback.createTransactionEntity pe chainConfig
                 transactionReceipt block head)
              stored (stringOfBigInt (Ethers.arg2 a)) (Ethers.arg0 a))
    as (row2 & Hm & Hm2 & Hr2 & _);
    [cbn [Fallback.createTransactionEntity Partial.amount];
     by rewrite Hamount
    | exact Hrawok | exact Haddr |].
  exists pe, t1, row1,
    (<[Ethers.receiptHash transactionReceipt := row2]> t), row2.
  split; [exact Hparse |]. split; [exact Hs |]. split; [exact Hrow1 |].
  split; [exact (insertOne_ok t _ row2 Hm Hnew') |].
  split; [apply lookup_insert_eq |].
  split; [exact Hm1 |]. split; [exact Hm2 |]. split.
  - intros Hz.
    split; [simpl; unfold Parser.extractRawAmount; by rewrite Hz |].
    split; [simpl; by rewrite Hz |].
    rewrite Hr1, Hr2, Hz. split; [reflexivity |]. split; [reflexivity |].
    rewrite Hz in Hstored. vm_compute in Hstored. congruence.
  - intros Hz.
    assert (Hdec : Parser.decimals pe = None)
      by (simpl; unfold Parser.extractDecimals; by rewrite Hz).
    split; [exact Hdec |]. split.
    { simpl. unfold decimalsOf. by rewrite Hz. }
    split; [exact Hd1 |].
    apply materialize_inv in Hm.
    destruct Hm as (_ & _ & _ & _ & _ & _ & _ & _ & _ & _ & -> & _).
    cbn [Fallback.createTransactionEntity Partial.tokenDecimals].
    by rewrite Hdec.
Qed.

(** A Deposit of amount 0 with decimals 0, persisted by the crawler in
    an empty table and by the verifier for the receipt of S6. *)
Lemma zero_arguments_are_absent_witness :
  exists pe t1 row1 t2 row2,
    Parser.parseSingleEvent formatUnitsDigits Scenario.depositZero = Some pe
    /\ Crawler.saveState Scenario.chain1 Scenario.blocksS1 [pe] 1010 ∅
       = DbOk t1
    /\ t1 !! Ethers.transactionHash Scenario.depositZero = Some row1
    /\ insertOne ∅
         (Fallback.createTransactionEntity pe
            (Networks.getChainConfig Scenario.environment Networks.ETHEREUM)
            Scenario.receiptS6 (Scenario.blockAt 1008) 1025) = DbOk t2
    /\ t2 !! Ethers.receiptHash Scenario.receiptS6 = Some row2
    /\ Entity.amount row1 = "0.000000000000000000"
    /\ Entity.amount row2 = "0.000000000000000000"
    /\ (Ethers.arg2 Scenario.argsZero = 0 ->
        Parser.rawAmount pe = None
        /\ Parser.amount pe = None
        /\ Entity.rawAmount row1 = "0"
        /\ Entity.rawAmount row2 = "0"
        /\ "0.000000000000000000" = "0.000000000000000000")
    /\ (Ethers.arg3 Scenario.argsZero = 0 ->
        Parser.decimals pe = None
        /\ Parser.amount pe
           = (if Ethers.arg2 Scenario.argsZero =? 0 then None
              else Some (formatUnitsDigits
                           (stringOfBigInt (Ethers.arg2 Scenario.argsZero))
                           18))
        /\ Entity.tokenDecimals row1 = 18
        /\ Entity.tokenDecimals row2 = 18).
Proof.
  apply (zero_arguments_are_absent formatUnitsDigits Scenario.chain1
           Scenario.blocksS1 1010
           (Networks.getChainConfig Scenario.environment Networks.ETHEREUM)
           Scenario.receiptS6 (Scenario.blockAt 1008) 1025 ∅
           Scenario.depositZero Scenario.argsZero "0.000000000000000000").
  - left. reflexivity.
  - reflexivity.
  - discriminate.
  - split; [discriminate | reflexivity].
  - left. reflexivity.
  - vm_compute. reflexivity.
  - reflexivity.
  - reflexivity.
Defined.

(** With decimals 0 and a non-zero amount the formatter is called with
    18, and a zero amount is parsed whatever the decimals are. *)
Example zero_decimals_formatted_with_18 :
  Parser.amount <$>
    Parser.parseSingleEvent formatUnitsDigits
      (Scenario.eventLog "Withdraw" "0xF00D" 1005 1500000000000000000 0)
  = Some (Some "1.5")
  /\ Parser.amount <$>
       Parser.parseSingleEvent formatUnitsDigits
         (Scenario.eventLog "Withdraw" "0xF00E" 1005 0 255)
     = Some None.
Proof. split; reflexivity. Qed.

End ZeroFacts.

(** * Further properties *)

(** ** The pool, on every input *)

Module PoolFacts.
Import Js CallRpc CallRpcFacts.

(** Either every endpoint of a list fails recoverably, or there is a
    first one that does not. *)
Lemma first_deciding_endpoint {T : Type} (f : string -> Outcome T)
  (urls : list string) :
  Forall (failsRecoverably f) urls
  \/ exists pre u post,
       urls = (pre ++ u :: post)%list
       /\ Forall (failsRecoverably f) pre
       /\ ((exists v, f u = Return v)
           \/ (exists e, f u = Throw e /\ isRecoverable e = false)).
Proof.
  induction urls as [| u urls IH]; [left; constructor |].
  destruct (f u) as [v | e] eqn:Hf.
  - right. exists [], u, urls. repeat split; [constructor | left; eauto].
  - destruct (isRecoverable e) eqn:He.
    + assert (Hu : failsRecoverably f u) by (exists e; by split).
      destruct IH as [Hall | (pre & u' & post & -> & Hpre & Hu')].
      * left. by constructor.
      * right. exists (u :: pre), u', post.
        repeat split; [by constructor | exact Hu'].
    + right. exists [], u, urls. repeat split; [constructor | right; eauto].
Qed.

(** X1.  Whatever the operation and the endpoints, [callRpc] ends in one
    of three ways: with the value of the first endpoint that does not
    fail recoverably; with the error of that endpoint, when it is not a
    recoverable one; or, when every endpoint fails recoverably, with the
    error of the last endpoint (its own "All RPC calls failed" when there
    is no endpoint).  In the first two cases no endpoint after the
    deciding one is called. *)
Theorem callRpc_outcome {T : Type} (f : string -> Outcome T)
  (rpcUrls : list string) :
  (exists pre u post v,
     rpcUrls = (pre ++ u :: post)%list
     /\ Forall (failsRecoverably f) pre
     /\ f u = Return v
     /\ callRpc f rpcUrls = (Return v, (pre ++ [u])%list))
  \/ (exists pre u post e,
        rpcUrls = (pre ++ u :: post)%list
        /\ Forall (failsRecoverably f) pre
        /\ f u = Throw e /\ isRecoverable e = false
        /\ callRpc f rpcUrls = (Throw e, (pre ++ [u])%list))
  \/ (Forall (failsRecoverably f) rpcUrls
      /\ exists e,
           callRpc f rpcUrls = (Throw e, rpcUrls)
           /\ (rpcUrls = [] -> e = ErrorObject "All RPC calls failed")
           /\ (forall u, last rpcUrls = Some u -> f u = Throw e)).
Proof.
  destruct (first_deciding_endpoint f rpcUrls)
    as [Hall | (pre & u & post & -> & Hpre & [[v Hv] | [e [He Hrec]]])].
  - right. right. split; [exact Hall |].
    destruct Hall as [| u urls [e0 [Hf0 Hr0]] Hall].
    + exists (ErrorObject "All RPC calls failed"). by repeat split.
    + destruct (callRpcFrom_exhausted f urls e0 Hr0 Hall)
        as (e & Heq & _ & Hnil & Hlast).
      exists e. split; [| split; [discriminate |]].
      * unfold callRpc. simpl. rewrite Hf0, Hr0, Heq. reflexivity.
      * intros u' Hu'. destruct urls as [| u2 urls2].
        -- simpl in Hu'. injection Hu' as <-. by rewrite Hnil.
        -- apply Hlast. exact Hu'.
  - left. exists pre, u, post, v. repeat split; try done.
    destruct (callRpcFrom_skip f pre (u :: post) None Hpre) as [l [Heq _]].
    unfold callRpc. rewrite Heq. simpl. by rewrite Hv.
  - right. left. exists pre, u, post, e. repeat split; try done.
    destruct (callRpcFrom_skip f pre (u :: post) None Hpre) as [l [Heq _]].
    unfold callRpc. rewrite Heq. simpl. by rewrite He, Hrec.
Qed.

End PoolFacts.

(** ** The parsing service, on every batch of logs *)

Module ParsingFacts.
Import Js Parser ParserFacts Terms.

Lemma parseSingleEvent_tracked (formatUnits : string -> Z -> string)
  (l : Ethers.EventLog) :
  match parseSingleEvent formatUnits l with
  | Some pe => tracked l = true /\ standsFor pe l
  | None => tracked l = false
  end.
Proof.
  unfold tracked.
  destruct (String.eqb_spec (Ethers.eventName l) "Deposit") as [Hd | Hd].
  - rewrite (parseSingleEvent_Deposit formatUnits l Hd).
    destruct (Ethers.args l) as [a |] eqn:Ha;
      [| unfold parseEventAs; by rewrite Ha].
    rewrite (parseEventAs_args formatUnits _ _ l a Ha).
    destruct (formats a); [| reflexivity].
    split; [reflexivity |]. unfold standsFor, operationOf. simpl.
    rewrite Hd. simpl. by repeat split.
  - destruct (String.eqb_spec (Ethers.eventName l) "Withdraw") as [Hw | Hw].
    + rewrite (parseSingleEvent_Withdraw formatUnits l Hw).
      destruct (Ethers.args l) as [a |] eqn:Ha;
        [| unfold parseEventAs; by rewrite Ha].
      rewrite (parseEventAs_args formatUnits _ _ l a Ha).
      destruct (formats a); [| reflexivity].
      split; [reflexivity |]. unfold standsFor, operationOf. simpl.
      rewrite Hw. simpl. by repeat split.
    + destruct (parseSingleEvent formatUnits l) as [pe |] eqn:Hp;
        [| reflexivity].
      apply parseSingleEvent_inv in Hp as [[Hn _] | [Hn _]]; congruence.
Qed.

(** X2.  [parseEvents] never fails and keeps the order of the logs: its
    result has one parsed event for each log that is named Deposit or
    Withdraw, carries decoded arguments and has an amount that is zero
    or that [formatUnits] takes (decimals up to 80), in the same order,
    with the event name, block, transaction and contract of that log and
    the operation that goes with the name; every other log is skipped,
    among them a Deposit or Withdraw with more than 80 decimals. *)
Theorem parseEvents_tracked (formatUnits : string -> Z -> string)
  (events : list Ethers.EventLog) :
  Forall2 standsFor (parseEvents formatUnits events)
    (List.filter tracked events).
Proof.
  induction events as [| l events IH]; simpl; [constructor |].
  pose proof (parseSingleEvent_tracked formatUnits l) as Hl.
  destruct (parseSingleEvent formatUnits l) as [pe |].
  - destruct Hl as [-> Hs]. by constructor.
  - by rewrite Hl.
Qed.

(** X25.  [parseEvents] keeps nothing from one log to the next: the
    parse of two batches one after the other is the parse of the first
    followed by the parse of the second. *)
Lemma parseEvents_app (formatUnits : string -> Z -> string)
  (l1 l2 : list Ethers.EventLog) :
  parseEvents formatUnits (l1 ++ l2)
  = (parseEvents formatUnits l1 ++ parseEvents formatUnits l2)%list.
Proof.
  induction l1 as [| l l1 IH]; simpl; [reflexivity |].
  destruct (parseSingleEvent formatUnits l); simpl; by rewrite IH.
Qed.

End ParsingFacts.

(** ** The persist step, on every batch *)

Module PersistFacts.
Import Js Store Spec Terms StoreFacts SaveStateFacts.

(** When the table takes every object, a save can fail on the unique
    index only. *)
Lemma saveNew_fails_taken (ps : list Partial.PartialTransaction) :
  forall (t : Table) (e : DbError),
  (forall p, p ∈ ps -> exists row, materialize p = DbOk row) ->
  saveNew t ps = DbFail e -> e = QueryFailed uniqueViolation.
Proof.
  induction ps as [| p ps IH]; intros t e Hall H; [discriminate |].
  simpl in H. destruct (Hall p) as [row Hm]; [left |].
  destruct (t !! Partial.transactionHash p) as [old |] eqn:Hl.
  - rewrite (insertOne_conflict t p row Hm) in H by eauto.
    by injection H as <-.
  - rewrite (insertOne_ok t p row Hm Hl) in H. simpl in H.
    refine (IH _ e _ H).
    intros q Hq. apply Hall. by right.
Qed.

(** The object of an event is one the table takes exactly when the
    event is storable. *)
Lemma newTransactions_storable (chain : Config.ChainConfig)
  (blocks : gmap Z Crawler.BlockInfo) (events : list Parser.ParsedEvent)
  (latestBlock : Z) :
  (forall tx,
     tx ∈ Crawler.newTransactions chain blocks events latestBlock ->
     exists row, materialize tx = DbOk row)
  <-> Forall storable events.
Proof.
  rewrite Forall_forall.
  destruct events as [| first rest].
  { split; intros _ x Hx; by apply elem_of_nil in Hx. }
  unfold Crawler.newTransactions. split.
  - intros Hall event Hev.
    destruct (Hall _ (proj2 (list_elem_of_fmap _ _ _)
                             (ex_intro _ event (conj eq_refl Hev))))
      as [row Hm].
    apply materialize_inv in Hm as (Ha & Hr & Hd & _). simpl in Ha, Hr, Hd.
    unfold storable. rewrite Hd, Ha, Hr. eauto.
  - intros Hall tx Htx. apply list_elem_of_fmap in Htx as (event & -> & Hev).
    destruct (Hall event Hev) as ([addr Hd] & [amount Ha] & [raw Hr]).
    match goal with
    | |- exists row, materialize ?p = _ =>
        destruct (materialize_ok p amount raw addr Ha Hr Hd) as (row & Hm & _)
    end.
    by exists row.
Qed.

(** X3.  The persist step commits exactly when every event of the batch
    is storable (it has a user address, and its amounts are ones the two
    numeric columns take) and the transaction hashes of the batch are
    free in the table and differ from one another.  When every event is
    storable and the step fails, a hash was taken or repeated, and the
    error is the [EntityPropertyNotFoundError] of the upsert, which
    rejects the conflict path [transaction_hash]: no conflict is ever
    resolved by an update. *)
Theorem saveState_commits_iff (chain : Config.ChainConfig)
  (blocks : gmap Z Crawler.BlockInfo) (events : list Parser.ParsedEvent)
  (latestBlock : Z) (t : Table) :
  ((exists t', Crawler.saveState chain blocks events latestBlock t = DbOk t')
   <-> Forall storable events
       /\ (forall event, event ∈ events ->
           t !! Parser.transactionHash event = None)
       /\ NoDup (Parser.transactionHash <$> events))
  /\ (forall e,
        Forall storable events ->
        Crawler.saveState chain blocks events latestBlock t = DbFail e ->
        e = EntityPropertyNotFound "transaction_hash").
Proof.
  set (txs := Crawler.newTransactions chain blocks events latestBlock).
  assert (Hfresh : (forall p, p ∈ txs -> t !! Partial.transactionHash p = None)
                   <-> (forall event, event ∈ events ->
                        t !! Parser.transactionHash event = None)).
  { split.
    - intros H event Hev.
      assert (Hin : Parser.transactionHash event
                    ∈ Partial.transactionHash <$> txs).
      { unfold txs. rewrite newTransactions_hashes.
        apply list_elem_of_fmap. by exists event. }
      apply list_elem_of_fmap in Hin as (tx & -> & Htx). by apply H.
    - intros H p Hp.
      apply newTransactions_any in Hp as (event & Hev & -> & _). by apply H. }
  split.
  - split.
    + intros [t' Hs]. apply saveState_spec in Hs as (t1 & Hsave & _).
      destruct (proj1 (saveNew_ok_iff txs t) (ex_intro _ t1 Hsave))
        as (Hall & Hfr & Hnd).
      split; [by apply (newTransactions_storable chain blocks events latestBlock) |].
      split; [by apply Hfresh |].
      unfold txs in Hnd. by rewrite newTransactions_hashes in Hnd.
    + intros (Hst & Hfr & Hnd).
      destruct (proj2 (saveNew_ok_iff txs t)) as [t1 Hsave].
      { split; [by apply newTransactions_storable |].
        split; [by apply Hfresh |].
        unfold txs. by rewrite newTransactions_hashes. }
      eexists. apply saveState_spec. exists t1. by split.
  - intros e Hst Hs. apply saveState_fail in Hs as (e0 & Hsave & ->).
    fold txs in Hsave.
    rewrite (saveNew_fails_taken txs t e0) at 1;
      [reflexivity | | exact Hsave].
    by apply newTransactions_storable.
Qed.

(** X4.  The persist step removes no row, and it leaves a row exactly as
    it was when no event of the batch has its transaction hash and the
    row belongs to another chain or has reached the required
    confirmations of the configuration. *)
Theorem saveState_leaves_settled_rows (chain : Config.ChainConfig)
  (blocks : gmap Z Crawler.BlockInfo) (events : list Parser.ParsedEvent)
  (latestBlock : Z) (t t' : Table) :
  Crawler.saveState chain blocks events latestBlock t = DbOk t' ->
  (forall h, is_Some (t !! h) -> is_Some (t' !! h))
  /\ (forall h row,
        t !! h = Some row ->
        (forall event, event ∈ events -> Parser.transactionHash event <> h) ->
        Entity.chainId row <> Config.chainId chain
        \/ Entity.confirmations row >= Config.requiredConfirmations chain ->
        t' !! h = Some row).
Proof.
  intros Hs. split.
  - intros h [row Hrow]. exists (refreshRow chain latestBlock row).
    apply (lookup_saved chain blocks events latestBlock t t' h _ Hs).
    exists row. split; [reflexivity | by left].
  - intros h row Hrow Hne Hsettled.
    apply (lookup_saved chain blocks events latestBlock t t' h _ Hs).
    exists row. split; [| by left].
    unfold refreshRow, Crawler.needsUpdate.
    destruct Hsettled as [Hc | Hc].
    + destruct (String.eqb_spec (Entity.chainId row) (Config.chainId chain));
        [done | reflexivity].
    + destruct (Z.ltb_spec (Entity.confirmations row)
                  (Config.requiredConfirmations chain)); [lia |].
      by rewrite andb_false_r.
Qed.

Lemma saveState_leaves_settled_rows_witness :
  exists row,
    Scenario.tableConfirmed !! "0xDEAD" = Some row
    /\ Scenario.tableOf
         (Crawler.saveState Scenario.chain1 Scenario.blocksS1
            (Parser.parseEvents formatUnitsDigits [Scenario.depositRecent])
            1020 Scenario.tableConfirmed) !! "0xDEAD" = Some row.
Proof.
  eexists. split; [vm_compute; reflexivity |].
  refine (proj2 (saveState_leaves_settled_rows Scenario.chain1
                   Scenario.blocksS1
                   (Parser.parseEvents formatUnitsDigits [Scenario.depositRecent])
                   1020 Scenario.tableConfirmed _ _) "0xDEAD" _ _ _ _).
  - vm_compute. reflexivity.
  - vm_compute. reflexivity.
  - intros event Hev. apply list_elem_of_singleton in Hev as ->. discriminate.
  - right. simpl. lia.
Defined.





(** The row of S1 after its batch. *)
Lemma saveState_keeps_status_coherent_witness :
  exists row,
    Scenario.tableS1 !! "0xDEAD" = Some row /\ statusCoherent row.
Proof.
  eexists. split; [vm_compute; reflexivity |].
  refine (proj1 (ConfirmationFacts.saveState_keeps_status_coherent
                   Scenario.chain1 Scenario.blocksS1 Scenario.eventsS1 1010
                   ∅ Scenario.tableS1 _ _ "0xDEAD" _ _)).
  - intros h row H. rewrite lookup_empty in H. discriminate.
  - vm_compute. reflexivity.
  - vm_compute. reflexivity.
Defined.

(** The second object of the two-deposit batch. *)
Lemma newTransactions_confirmations_witness :
  exists tx,
    Crawler.newTransactions Scenario.chain1 Scenario.blocksS1
      [Scenario.parsedOld; Scenario.parsedRecent] 1020 !! 1%nat
    = Some tx
    /\ Partial.blockNumber tx = 1015
    /\ Partial.confirmations tx = 1020 - 1005 + 1.
Proof.
  eexists. split; [reflexivity |]. split; [reflexivity |].
  apply (ConfirmationFacts.newTransactions_confirmations
           Scenario.chain1 Scenario.blocksS1 Scenario.parsedOld
           [Scenario.parsedRecent] 1020).
  right. left.
Defined.

End PersistFacts.

(** ** Passes and cycles *)

Module CycleFacts.
Import Js Store Spec Terms.

(** X6.  A pass that fails leaves the table, the Redis checkpoint, the
    checkpoint in memory and [isRunning] as they were; only the block map
    may have grown. *)
Theorem failed_pass_changes_no_store (chain : Config.ChainConfig)
  (network : string -> Ethers.Provider) (formatUnits : string -> Z -> string)
  (latestBlock fromBlock toBlock : Z) (s s' : Crawler.State)
  (failure : Crawler.Failure) :
  Crawler.processBatch chain network formatUnits latestBlock fromBlock toBlock s
  = Crawler.BatchFailed s' failure ->
  Crawler.table s' = Crawler.table s
  /\ Crawler.redis s' = Crawler.redis s
  /\ Crawler.lastProcessedBlock s' = Crawler.lastProcessedBlock s
  /\ Crawler.isRunning s' = Crawler.isRunning s.
Proof.
  unfold Crawler.processBatch, Crawler.processBatchOn,
    Crawler.advanceCheckpoint, Crawler.persistBatch.
  destruct (Crawler.fetchEvents _ _ _ _ _) as [events | err].
  - destruct (Crawler.saveBlockMap _ _ _ _ _ _ _) as [blocks | err].
    + simpl. destruct (Crawler.saveState _ _ _ _ _); [discriminate |].
      intros [= <- _]. by repeat split.
    + intros [= <- _]. by repeat split.
  - intros [= <- _]. by repeat split.
Qed.

Lemma failed_pass_changes_no_store_witness :
  Crawler.table
    (stateOf (Crawler.processBatch Scenario.chain1 Scenario.throttled
                formatUnitsDigits 1020 1011 1020 Scenario.afterS1))
  = Crawler.table Scenario.afterS1.
Proof.
  apply (failed_pass_changes_no_store Scenario.chain1 Scenario.throttled
           formatUnitsDigits 1020 1011 1020 Scenario.afterS1 _
           (Crawler.RpcFailure (ErrorObject "429 Too Many Requests"))).
  reflexivity.
Defined.

(** Where a pass leaves the checkpoint in memory. *)
Lemma processBatch_lastProcessedBlock (chain : Config.ChainConfig)
  (network : string -> Ethers.Provider) (formatUnits : string -> Z -> string)
  (latestBlock fromBlock toBlock : Z) (s : Crawler.State) :
  match Crawler.processBatch chain network formatUnits
          latestBlock fromBlock toBlock s with
  | Crawler.BatchDone s' => Crawler.lastProcessedBlock s' = toBlock
  | Crawler.BatchFailed s' _ =>
      Crawler.lastProcessedBlock s' = Crawler.lastProcessedBlock s
  end.
Proof.
  unfold Crawler.processBatch, Crawler.processBatchOn,
    Crawler.advanceCheckpoint, Crawler.persistBatch.
  destruct (Crawler.fetchEvents _ _ _ _ _) as [events | err]; [| reflexivity].
  destruct (Crawler.saveBlockMap _ _ _ _ _ _ _) as [blocks | err];
    [| reflexivity].
  simpl. by destruct (Crawler.saveState _ _ _ _ _).
Qed.

(** The loop ends, and its windows follow one another; the checkpoint in
    memory is the end of the last of them. *)
Lemma crawlLoop_windows (chain : Config.ChainConfig)
  (network : string -> Ethers.Provider) (formatUnits : string -> Z -> string)
  (stopDuring : nat -> bool) (latestBlock : Z) :
  1 <= Config.batchSize chain ->
  forall (fuel k : nat) (fromBlock : Z) (s : Crawler.State)
         (done : list (Z * Z)),
  (Z.to_nat (latestBlock - fromBlock + 1) < fuel)%nat ->
  exists r ws,
    Crawler.crawlLoop chain network formatUnits fuel stopDuring k latestBlock
      fromBlock (Crawler.nextToBlock chain fromBlock latestBlock) s done
    = Some r
    /\ Crawler.windows r = (done ++ ws)%list
    /\ chained (Config.batchSize chain) fromBlock latestBlock ws
    /\ Crawler.lastProcessedBlock (Crawler.finalState r)
       = endOf ws (Crawler.lastProcessedBlock s)
    /\ ((Crawler.scheduled r
         = Crawler.CrawlAfter (Config.restartDelay chain) true
         /\ endOf ws (fromBlock - 1) = Z.max (fromBlock - 1) latestBlock)
        \/ (Crawler.scheduled r = Crawler.CrawlAfter 5000 false
            /\ Crawler.isRunning (Crawler.finalState r) = false)).
Proof.
  intros Hsize fuel.
  induction fuel as [| fuel IH]; intros k fromBlock s done Hfuel; [lia |].
  rewrite CheckpointFacts.crawlLoop_step.
  destruct (Z.leb_spec fromBlock latestBlock) as [Hle | Hgt].
  - set (toBlock := Crawler.nextToBlock chain fromBlock latestBlock).
    assert (Hto : fromBlock <= toBlock <= latestBlock
                  /\ (toBlock - fromBlock + 1 = Config.batchSize chain
                      \/ (toBlock = latestBlock
                          /\ toBlock - fromBlock + 1 <= Config.batchSize chain)))
      by (unfold toBlock, Crawler.nextToBlock; lia).
    pose proof (processBatch_lastProcessedBlock chain network formatUnits
                  latestBlock fromBlock toBlock s) as Hlast.
    destruct (Crawler.processBatch _ _ _ _ _ _ _) as [s1 | s1 f].
    + set (s2 := if stopDuring k then Crawler.stop s1 else s1).
      assert (Hs2 : Crawler.lastProcessedBlock s2 = toBlock)
        by (unfold s2; destruct (stopDuring k); exact Hlast).
      destruct (IH (S k) (toBlock + 1) s2 (done ++ [(fromBlock, toBlock)])%list)
        as (r & ws & Hr & Hw & Hch & Hend & Hsched); [lia |].
      exists r, ((fromBlock, toBlock) :: ws). split; [exact Hr |].
      split; [by rewrite Hw, <- app_assoc |].
      split; [simpl; tauto |].
      split; [simpl; by rewrite Hend, Hs2 |].
      destruct Hsched as [[Hs He] | Hs]; [left | by right].
      split; [exact Hs |]. simpl.
      replace (toBlock + 1 - 1) with toBlock in He by lia. lia.
    + eexists _, []. split; [reflexivity |]. simpl.
      split; [by rewrite app_nil_r |]. split; [done |].
      split; [by destruct (stopDuring k) |]. by right.
  - eexists _, []. split; [reflexivity |]. simpl.
    split; [by rewrite app_nil_r |]. split; [done |]. split; [done |].
    left. split; [done | lia].
Qed.




End CycleFacts.

(** ** The reorg probe and the block map *)

Module ProbeFacts.
Import Js Store Spec Terms.

Section WithChain.

Variable chain : Config.ChainConfig.
Variable network : string -> Ethers.Provider.

Lemma checkForReorgFrom_sound (steps : nat) :
  forall (i last : Z) (blocks blocks' : gmap Z Crawler.BlockInfo)
         (deepest res : option Z),
  Crawler.checkForReorgFrom chain network steps i last blocks deepest
  = (blocks', res) ->
  res = deepest
  \/ exists r,
       res = Some r
       /\ last - i - Z.of_nat steps < r <= last - i
       /\ Config.startBlock chain <= r
       /\ diverges chain network blocks r
       /\ (forall n, r < n <= last - i -> is_Some (blocks !! n) ->
           diverges chain network blocks n).
Proof.
  induction steps as [| steps IH];
    intros i last blocks blocks' deepest res H; simpl in H.
  - injection H as _ <-. by left.
  - destruct (Z.ltb_spec (last - i) (Config.startBlock chain)) as [Hlt | Hge].
    { injection H as _ <-. by left. }
    destruct (blocks !! (last - i)) as [cachedBlock |] eqn:Hcached.
    + destruct (Crawler.call chain network _) as [currentBlock | err] eqn:Hcall.
      * destruct (Crawler.hashDiffers currentBlock cachedBlock) eqn:Hdiff.
        -- assert (Hhere : diverges chain network blocks (last - i))
             by (exists cachedBlock, currentBlock; by repeat split).
           destruct (IH _ _ _ _ _ _ H) as [-> | (r & -> & Hr & Hs & Hd & Hall)].
           ++ right. exists (last - i).
              split; [reflexivity |]. split; [lia |]. split; [lia |].
              split; [exact Hhere | intros n Hn; lia].
           ++ right. exists r.
              split; [reflexivity |]. split; [lia |]. split; [exact Hs |].
              split; [exact Hd |]. intros n Hn Hc.
              destruct (Z.eq_dec n (last - i)) as [-> | Hne];
                [exact Hhere | apply Hall; [lia | exact Hc]].
        -- injection H as _ <-. by left.
      * injection H as _ <-. by left.
    + destruct (IH _ _ _ _ _ _ H) as [-> | (r & -> & Hr & Hs & Hd & Hall)];
        [by left | right].
      exists r. split; [reflexivity |]. split; [lia |]. split; [exact Hs |].
      split; [exact Hd |]. intros n Hn Hc.
      destruct (Z.eq_dec n (last - i)) as [-> | Hne].
      * rewrite Hcached in Hc. by destruct Hc.
      * apply Hall; [lia | exact Hc].
Qed.

Lemma checkForReorgFrom_uncached (steps : nat) :
  forall (i last : Z) (blocks : gmap Z Crawler.BlockInfo) (deepest : option Z),
  (forall n, last - i - Z.of_nat steps < n <= last - i -> blocks !! n = None) ->
  Crawler.checkForReorgFrom chain network steps i last blocks deepest
  = (blocks, deepest).
Proof.
  induction steps as [| steps IH]; intros i last blocks deepest Hnone;
    simpl; [reflexivity |].
  destruct (last - i <? Config.startBlock chain); [reflexivity |].
  rewrite (Hnone (last - i)) by lia. apply IH. intros n Hn. apply Hnone. lia.
Qed.

Lemma checkForReorgFrom_match (skipped : nat) :
  forall (steps : nat) (i last : Z) (blocks : gmap Z Crawler.BlockInfo)
         (deepest : option Z) (cached : Crawler.BlockInfo) (b : Ethers.Block),
  (skipped < steps)%nat ->
  (forall n, last - i - Z.of_nat skipped < n <= last - i ->
     blocks !! n = None) ->
  Config.startBlock chain <= last - i - Z.of_nat skipped ->
  blocks !! (last - i - Z.of_nat skipped) = Some cached ->
  Crawler.call chain network
    (fun provider => Ethers.getBlock provider (last - i - Z.of_nat skipped))
  = Return (Some b) ->
  Ethers.hash b = Some (Crawler.blockHash cached) ->
  Crawler.checkForReorgFrom chain network steps i last blocks deepest
  = (<[last - i - Z.of_nat skipped := Crawler.blockInfoOf b]> blocks, deepest).
Proof.
  induction skipped as [| skipped IH];
    intros steps i last blocks deepest cached b Hsteps Hnone Hstart Hcached
      Hcall Hhash;
    (destruct steps as [| steps]; [lia |]); simpl.
  - replace (last - i - Z.of_nat 0) with (last - i) in * by lia.
    destruct (Z.ltb_spec (last - i) (Config.startBlock chain)); [lia |].
    rewrite Hcached, Hcall. unfold Crawler.hashDiffers.
    by rewrite Hhash, String.eqb_refl.
  - destruct (Z.ltb_spec (last - i) (Config.startBlock chain)); [lia |].
    rewrite (Hnone (last - i)) by lia.
    replace (last - i - Z.of_nat (S skipped))
      with (last - (i + 1) - Z.of_nat skipped) in * by lia.
    apply (IH steps (i + 1) last blocks deepest cached b); try done; [lia |].
    intros n Hn. apply Hnone. lia.
Qed.

End WithChain.

(** X8.  A block the probe reports lies in the last [reorgDepth] blocks
    up to the checkpoint and not below [startBlock]; the map holds a hash
    for it that the chain no longer has, and the same is true of every
    cached block above it up to the checkpoint.  The probe changes
    nothing but the block map. *)
Theorem checkForReorg_reports_divergence (chain : Config.ChainConfig)
  (network : string -> Ethers.Provider) (s s' : Crawler.State) (r : Z) :
  Crawler.checkForReorg chain network s = (s', Some r) ->
  Crawler.lastProcessedBlock s - Config.reorgDepth chain < r
    <= Crawler.lastProcessedBlock s
  /\ Config.startBlock chain <= r
  /\ diverges chain network (Crawler.blockMap s) r
  /\ (forall n, r < n <= Crawler.lastProcessedBlock s ->
      is_Some (Crawler.blockMap s !! n) ->
      diverges chain network (Crawler.blockMap s) n)
  /\ Crawler.table s' = Crawler.table s
  /\ Crawler.lastProcessedBlock s' = Crawler.lastProcessedBlock s
  /\ Crawler.redis s' = Crawler.redis s.
Proof.
  unfold Crawler.checkForReorg.
  destruct (Crawler.checkForReorgFrom _ _ _ _ _ _ _) as [blocks' res] eqn:Hloop.
  intros [= <- ->].
  apply checkForReorgFrom_sound
    in Hloop as [Hnone | (r' & [= <-] & Hr & Hs & Hd & Hall)];
    [discriminate |].
  split; [lia |]. split; [exact Hs |]. split; [exact Hd |].
  split; [| by repeat split].
  intros n Hn. apply Hall. lia.
Qed.

Lemma checkForReorg_reports_divergence_witness :
  1010 - 12 < 1008 <= 1010
  /\ diverges Scenario.chain1 Scenario.reorganised Scenario.blocksCached 1008.
Proof.
  destruct (checkForReorg_reports_divergence Scenario.chain1
              Scenario.reorganised Scenario.cachedS1
              (fst (Crawler.checkForReorg Scenario.chain1 Scenario.reorganised
                      Scenario.cachedS1)) 1008)
    as (Hr & _ & Hd & _).
  - vm_compute. reflexivity.
  - split; [exact Hr | exact Hd].
Defined.

(** X9.  When the block map holds none of the last [reorgDepth] blocks
    up to the checkpoint, as after a restart, the probe reports nothing
    and leaves the state as it is, whatever the endpoints would answer:
    it does not ask them. *)
Theorem checkForReorg_without_cache (chain : Config.ChainConfig)
  (network : string -> Ethers.Provider) (s : Crawler.State) :
  (forall n,
     Crawler.lastProcessedBlock s - Config.reorgDepth chain < n
       <= Crawler.lastProcessedBlock s ->
     Crawler.blockMap s !! n = None) ->
  Crawler.checkForReorg chain network s = (s, None).
Proof.
  intros Hnone. unfold Crawler.checkForReorg.
  rewrite checkForReorgFrom_uncached; [by destruct s |].
  intros n Hn. apply Hnone. lia.
Qed.

Lemma checkForReorg_without_cache_witness :
  Crawler.checkForReorg Scenario.chain1 Scenario.reorganised Scenario.offline
  = (Scenario.offline, None).
Proof.
  apply (checkForReorg_without_cache Scenario.chain1 Scenario.reorganised
           Scenario.offline).
  intros n _. apply lookup_empty.
Defined.

(** X10.  When the most recent cached block at or below the checkpoint
    still has the hash the chain has, the probe reports nothing and only
    refreshes that entry: cached blocks below it are not compared. *)
Theorem checkForReorg_stops_at_match (chain : Config.ChainConfig)
  (network : string -> Ethers.Provider) (s : Crawler.State)
  (skipped : nat) (cached : Crawler.BlockInfo) (b : Ethers.Block) :
  Z.of_nat skipped < Config.reorgDepth chain ->
  (forall n,
     Crawler.lastProcessedBlock s - Z.of_nat skipped < n
       <= Crawler.lastProcessedBlock s ->
     Crawler.blockMap s !! n = None) ->
  Config.startBlock chain <= Crawler.lastProcessedBlock s - Z.of_nat skipped ->
  Crawler.blockMap s !! (Crawler.lastProcessedBlock s - Z.of_nat skipped)
  = Some cached ->
  Crawler.call chain network
    (fun provider =>
       Ethers.getBlock provider
         (Crawler.lastProcessedBlock s - Z.of_nat skipped))
  = Return (Some b) ->
  Ethers.hash b = Some (Crawler.blockHash cached) ->
  Crawler.checkForReorg chain network s
  = (Crawler.setBlockMap
       (<[Crawler.lastProcessedBlock s - Z.of_nat skipped
          := Crawler.blockInfoOf b]> (Crawler.blockMap s)) s,
     None).
Proof.
  intros Hdepth Hnone Hstart Hcached Hcall Hhash.
  unfold Crawler.checkForReorg.
  rewrite (checkForReorgFrom_match chain network skipped
             (Z.to_nat (Config.reorgDepth chain)) 0
             (Crawler.lastProcessedBlock s) (Crawler.blockMap s) None cached b).
  - by replace (Crawler.lastProcessedBlock s - 0 - Z.of_nat skipped)
      with (Crawler.lastProcessedBlock s - Z.of_nat skipped) by lia.
  - lia.
  - intros n Hn. apply Hnone. lia.
  - by replace (Crawler.lastProcessedBlock s - 0 - Z.of_nat skipped)
      with (Crawler.lastProcessedBlock s - Z.of_nat skipped) by lia.
  - by replace (Crawler.lastProcessedBlock s - 0 - Z.of_nat skipped)
      with (Crawler.lastProcessedBlock s - Z.of_nat skipped) by lia.
  - by replace (Crawler.lastProcessedBlock s - 0 - Z.of_nat skipped)
      with (Crawler.lastProcessedBlock s - Z.of_nat skipped) by lia.
  - exact Hhash.
Qed.

(** The chain of S1 is unchanged at head 1012: the probe on the cached
    state compares block 1010 only. *)
Lemma checkForReorg_stops_at_match_witness :
  snd (Crawler.checkForReorg Scenario.chain1 (Scenario.serving 1012 [])
         Scenario.cachedS1)
  = None.
Proof.
  rewrite (checkForReorg_stops_at_match Scenario.chain1
             (Scenario.serving 1012 []) Scenario.cachedS1 0
             (Crawler.blockInfoOf (Scenario.blockAt 1010))
             (Scenario.blockAt 1010)).
  - reflexivity.
  - simpl. lia.
  - intros n Hn. simpl in Hn. lia.
  - simpl. lia.
  - vm_compute. reflexivity.
  - reflexivity.
  - reflexivity.
Defined.

End ProbeFacts.

(** ** Filling the block map *)

Module BlockMapFacts.
Import Js Store Spec Terms.

Lemma filter_uncached_nil (blocks : gmap Z Crawler.BlockInfo) (l : list Z) :
  filter (fun b => blocks !! b = None) l = [] <->
  Forall (fun b => is_Some (blocks !! b)) l.
Proof.
  induction l as [| x l IH]; [by split; [constructor |] |].
  rewrite filter_cons. destruct (decide (blocks !! x = None)) as [Hx | Hx].
  - split; [discriminate |]. intros H. apply Forall_cons in H as [[v Hv] _].
    congruence.
  - rewrite IH. split.
    + intros H. constructor; [| exact H].
      by destruct (blocks !! x); [eauto |].
    + intros H. by apply Forall_cons in H as [_ H].
Qed.

(** The block numbers [saveBlockMap] looks at cover the events' blocks
    and the part of the window that lies in the reorg range. *)
Lemma wanted_covers (chain : Config.ChainConfig) (eventBlockNumbers : list Z)
  (latestBlock fromBlock toBlock n : Z) :
  n ∈ eventBlockNumbers
  \/ Z.max fromBlock (latestBlock - Config.reorgDepth chain + 1) <= n <= toBlock ->
  n ∈ (eventBlockNumbers
       ++ filter (fun b => b ∉ eventBlockNumbers)
            (seqZ (Z.max fromBlock (latestBlock - Config.reorgDepth chain + 1))
               (toBlock
                - Z.max fromBlock (latestBlock - Config.reorgDepth chain + 1)
                + 1)))%list.
Proof.
  intros [Hin | Hrange]; apply elem_of_app; [by left |].
  destruct (decide (n ∈ eventBlockNumbers)) as [Hin | Hnin]; [by left |].
  right. apply list_elem_of_filter. split; [exact Hnin |].
  apply elem_of_seqZ. lia.
Qed.

(** X11.  When the block map already holds the blocks of the events and
    the blocks of the window that lie in the reorg range,
    [saveBlockMap] returns it unchanged without asking any endpoint. *)
Theorem saveBlockMap_all_cached (chain : Config.ChainConfig)
  (network : string -> Ethers.Provider) (eventBlockNumbers : list Z)
  (latestBlock fromBlock toBlock : Z) (blocks : gmap Z Crawler.BlockInfo) :
  (forall n, n ∈ eventBlockNumbers -> is_Some (blocks !! n)) ->
  (forall n,
     Z.max fromBlock (latestBlock - Config.reorgDepth chain + 1) <= n
       <= toBlock ->
     is_Some (blocks !! n)) ->
  Crawler.saveBlockMap chain network eventBlockNumbers latestBlock
    fromBlock toBlock blocks
  = Return blocks.
Proof.
  intros Hevents Hwindow. unfold Crawler.saveBlockMap.
  match goal with
  | |- context [filter (fun b => blocks !! b = None) ?l] =>
      assert (Hnil : filter (fun b => blocks !! b = None) l = [])
  end.
  { apply filter_uncached_nil, Forall_forall. intros n Hn.
    apply elem_of_app in Hn as [Hn | Hn]; [by apply Hevents |].
    apply list_elem_of_filter in Hn as [_ Hn].
    apply elem_of_seqZ in Hn. apply Hwindow. lia. }
  by rewrite Hnil.
Qed.

Lemma saveBlockMap_all_cached_witness :
  Crawler.saveBlockMap Scenario.chain1 Scenario.throttled [1005] 1010
    1000 1010 Scenario.blocksCached
  = Return Scenario.blocksCached.
Proof.
  apply (saveBlockMap_all_cached Scenario.chain1 Scenario.throttled [1005]
           1010 1000 1010 Scenario.blocksCached).
  - intros n Hn. apply list_elem_of_singleton in Hn as ->.
    vm_compute. eauto.
  - intros n Hn. simpl in Hn.
    assert (Hcases : n = 1000 \/ n = 1001 \/ n = 1002 \/ n = 1003 \/ n = 1004
                     \/ n = 1005 \/ n = 1006 \/ n = 1007 \/ n = 1008
                     \/ n = 1009 \/ n = 1010) by lia.
    repeat (destruct Hcases as [-> | Hcases]; [vm_compute; eauto |]).
    subst n. vm_compute. eauto.
Defined.

Lemma promiseAll_served (provider : Ethers.Provider) (nums : list Z) :
  servesBlocks provider ->
  exists fetched,
    Crawler.promiseAll (map (Ethers.getBlock provider) nums) = Return fetched
    /\ Forall2 (fun n ob => exists b, ob = Some b /\ Ethers.number b = n)
         nums fetched.
Proof.
  intros Hserves. induction nums as [| n nums (fetched & Hp & Hf)].
  - exists []. split; [reflexivity | constructor].
  - destruct (Hserves n) as (b & Hb & Hn).
    exists (Some b :: fetched). simpl. rewrite Hb, Hp.
    split; [reflexivity |]. constructor; [eauto | exact Hf].
Qed.

Lemma fold_cacheBlock_lookup (nums : list Z)
  (fetched : list (option Ethers.Block)) :
  Forall2 (fun n ob => exists b, ob = Some b /\ Ethers.number b = n)
    nums fetched ->
  forall (blocks : gmap Z Crawler.BlockInfo) (n : Z),
  (n ∈ nums -> is_Some (fold_left Crawler.cacheBlock fetched blocks !! n))
  /\ (n ∉ nums ->
      fold_left Crawler.cacheBlock fetched blocks !! n = blocks !! n).
Proof.
  induction 1 as [| m ob nums fetched (b & -> & Hb) _ IH]; intros blocks n.
  - split; [intros Hn; by apply elem_of_nil in Hn | reflexivity].
  - simpl. rewrite Hb. destruct (IH (<[m := Crawler.blockInfoOf b]> blocks) n)
      as [Hin Hnin].
    split.
    + intros Hn. destruct (decide (n ∈ nums)) as [Hn' | Hn'];
        [by apply Hin |].
      apply elem_of_cons in Hn as [-> | Hn]; [| done].
      rewrite (Hnin Hn'), lookup_insert_eq. eauto.
    + intros Hn. apply not_elem_of_cons in Hn as [Hne Hn].
      by rewrite (Hnin Hn), lookup_insert_ne.
Qed.

(** X12.  When the first endpoint of the chain has a block for every
    height, [saveBlockMap] succeeds; afterwards the map holds an entry
    for the block of every event and for every block of the window that
    lies in the reorg range, and the entries it held before are as they
    were. *)
Theorem saveBlockMap_fills_window (chain : Config.ChainConfig)
  (network : string -> Ethers.Provider) (eventBlockNumbers : list Z)
  (latestBlock fromBlock toBlock : Z) (blocks : gmap Z Crawler.BlockInfo)
  (rpcUrl : string) (rest : list string) :
  Config.rpcUrls chain = rpcUrl :: rest ->
  servesBlocks (network rpcUrl) ->
  exists blocks',
    Crawler.saveBlockMap chain network eventBlockNumbers latestBlock
      fromBlock toBlock blocks
    = Return blocks'
    /\ (forall n, n ∈ eventBlockNumbers -> is_Some (blocks' !! n))
    /\ (forall n,
          Z.max fromBlock (latestBlock - Config.reorgDepth chain + 1) <= n
            <= toBlock ->
          is_Some (blocks' !! n))
    /\ (forall n info, blocks !! n = Some info -> blocks' !! n = Some info).
Proof.
  intros Hurls Hserves. unfold Crawler.saveBlockMap.
  match goal with
  | |- context [filter (fun b => blocks !! b = None) ?l] =>
      set (wanted := l);
      set (blockNumbers := filter (fun b => blocks !! b = None) wanted)
  end.
  assert (Hwanted : forall n,
            n ∈ eventBlockNumbers
            \/ Z.max fromBlock (latestBlock - Config.reorgDepth chain + 1) <= n
                 <= toBlock ->
            n ∈ wanted)
    by (intros n Hn; by apply wanted_covers).
  assert (Hsplit : forall n, n ∈ wanted ->
            is_Some (blocks !! n) \/ n ∈ blockNumbers).
  { intros n Hn. destruct (blocks !! n) eqn:Hl; [left; eauto | right].
    by apply list_elem_of_filter. }
  destruct (promiseAll_served (network rpcUrl) blockNumbers Hserves)
    as (fetched & Hp & Hf).
  assert (Hcall : Crawler.call chain network
            (fun provider =>
               Crawler.promiseAll (map (Ethers.getBlock provider) blockNumbers))
            = Return fetched).
  { unfold Crawler.call, CallRpc.callRpc. rewrite Hurls. simpl.
    by rewrite Hp. }
  pose proof (fold_cacheBlock_lookup blockNumbers fetched Hf blocks) as Hfold.
  assert (Hkept : forall n info, blocks !! n = Some info ->
            fold_left Crawler.cacheBlock fetched blocks !! n = Some info).
  { intros n info Hn. destruct (Hfold n) as [_ Hnin]. rewrite Hnin; [done |].
    intros Hin. apply list_elem_of_filter in Hin as [Hnone _]. congruence. }
  assert (Hall : forall n, n ∈ wanted ->
            is_Some (fold_left Crawler.cacheBlock fetched blocks !! n)).
  { intros n Hn. destruct (Hsplit n Hn) as [[info Hi] | Hin].
    - rewrite (Hkept n info Hi). eauto.
    - by apply (Hfold n). }
  destruct blockNumbers as [| b0 bs] eqn:Hnums.
  - exists blocks. split; [reflexivity |].
    assert (Hcached : forall n, n ∈ wanted -> is_Some (blocks !! n)).
    { intros n Hn. destruct (Hsplit n Hn) as [H | H];
        [exact H | by apply elem_of_nil in H]. }
    split; [intros n Hn; apply Hcached, Hwanted; by left |].
    split; [intros n Hn; apply Hcached, Hwanted; by right | done].
  - exists (fold_left Crawler.cacheBlock fetched blocks).
    split; [by rewrite Hcall |].
    split; [intros n Hn; apply Hall, Hwanted; by left |].
    split; [intros n Hn; apply Hall, Hwanted; by right | exact Hkept].
Qed.

(** The map is empty (a restart); the window 1011..1020 at head 1020
    has an event in block 1015. *)
Lemma saveBlockMap_fills_window_witness :
  exists blocks',
    Crawler.saveBlockMap Scenario.chain1 Scenario.servingS6 [1015]
      1020 1011 1020 ∅
    = Return blocks'
    /\ is_Some (blocks' !! 1015)
    /\ is_Some (blocks' !! 1020).
Proof.
  destruct (saveBlockMap_fills_window Scenario.chain1
              Scenario.servingS6 [1015] 1020 1011 1020 ∅
              "https://rpc-a" ["https://rpc-b"])
    as (blocks' & Hs & He & Hw & _).
  - reflexivity.
  - intros n. exists (Scenario.blockAt n). by split.
  - exists blocks'. split; [exact Hs |].
    split; [apply He; left | apply Hw; simpl; lia].
Defined.

End BlockMapFacts.

(** ** Start-up *)

Module StartupFacts.
Import Js Store Spec Terms Startup NumericFacts.

Lemma digitsPrefix_uint (d : Decimal.uint) (acc : Z) :
  digitsPrefix 10 (NilEmpty.string_of_uint d) (Some acc)
  = Some (uintValue d acc).
Proof.
  revert acc. induction d; intros acc; simpl; try reflexivity; apply IHd.
Qed.

Lemma parseInt_uint (d : Decimal.uint) :
  parseInt (NilZero.string_of_uint d) = Some (uintValue d 0).
Proof.
  destruct d as [| d | d | d | d | d | d | d | d | d | d];
    try reflexivity;
    try (unfold parseInt; simpl; by rewrite digitsPrefix_uint).
  destruct d as [| d | d | d | d | d | d | d | d | d | d];
    try reflexivity;
    unfold parseInt; simpl; by rewrite digitsPrefix_uint.
Qed.

Lemma parseInt_negative (d : Decimal.uint) :
  parseInt (String "-" (NilZero.string_of_uint d)) = Some (- uintValue d 0).
Proof.
  destruct d as [| d | d | d | d | d | d | d | d | d | d];
    try reflexivity;
    try (unfold parseInt; simpl; by rewrite digitsPrefix_uint).
  destruct d as [| d | d | d | d | d | d | d | d | d | d];
    try reflexivity;
    unfold parseInt; simpl; by rewrite digitsPrefix_uint.
Qed.

(** What [toString] writes, [parseInt] reads. *)
Lemma parseInt_stringOfBigInt (n : Z) : parseInt (stringOfBigInt n) = Some n.
Proof.
  unfold stringOfBigInt. rewrite <- (DecimalZ.of_to n) at 2.
  destruct (Z.to_int n) as [d | d]; simpl.
  - by rewrite parseInt_uint, uintValue_of_uint.
  - by rewrite parseInt_negative, uintValue_of_uint.
Qed.

Lemma stringOfBigInt_truthy (n : Z) : truthyString (stringOfBigInt n) = true.
Proof.
  unfold stringOfBigInt. destruct (Z.to_int n) as [d | d]; simpl;
    [| reflexivity].
  by destruct d.
Qed.

(** X13.  A checkpoint written to Redis by [updateLastProcessedBlock] is
    what [loadLastProcessedBlock] returns, for every block number a
    JavaScript number holds exactly (below 2^53 in magnitude), negative
    ones included; the load then writes nothing. *)
Theorem loadLastProcessedBlock_reads_checkpoint (chain : Config.ChainConfig)
  (s : Crawler.State) (n : Z) :
  - 2 ^ 53 < n < 2 ^ 53 ->
  Crawler.redis s !! Crawler.cacheKey chain = Some (stringOfBigInt n) ->
  loadLastProcessedBlock chain false s = (NumberBlock n, s).
Proof.
  intros _ Hkey. unfold loadLastProcessedBlock.
  by rewrite Hkey, stringOfBigInt_truthy, parseInt_stringOfBigInt.
Qed.

Lemma loadLastProcessedBlock_reads_checkpoint_witness :
  loadLastProcessedBlock Scenario.chain1 false
    (Crawler.updateLastProcessedBlock Scenario.chain1 1017 Scenario.afterS1)
  = (NumberBlock 1017,
     Crawler.updateLastProcessedBlock Scenario.chain1 1017 Scenario.afterS1).
Proof.
  apply (loadLastProcessedBlock_reads_checkpoint Scenario.chain1
           (Crawler.updateLastProcessedBlock Scenario.chain1 1017
              Scenario.afterS1) 1017).
  - split; reflexivity.
  - reflexivity.
Defined.

(** The highest block among the rows of the chain. *)
Lemma highestBlock_spec (chain : Config.ChainConfig) (t : Table) :
  match highestBlock chain t with
  | Some b =>
      (forall h row, t !! h = Some row ->
         Entity.chainId row = Config.chainId chain ->
         Entity.blockNumber row <= b)
      /\ exists h row, t !! h = Some row
                       /\ Entity.chainId row = Config.chainId chain
                       /\ Entity.blockNumber row = b
  | None =>
      forall h row, t !! h = Some row ->
        Entity.chainId row <> Config.chainId chain
  end.
Proof.
  unfold highestBlock.
  apply (map_fold_weak_ind
           (fun best (m : Table) =>
              match best with
              | Some b =>
                  (forall h row, m !! h = Some row ->
                     Entity.chainId row = Config.chainId chain ->
                     Entity.blockNumber row <= b)
                  /\ exists h row, m !! h = Some row
                                   /\ Entity.chainId row = Config.chainId chain
                                   /\ Entity.blockNumber row = b
              | None =>
                  forall h row, m !! h = Some row ->
                    Entity.chainId row <> Config.chainId chain
              end)).
  - intros h row H. by rewrite lookup_empty in H.
  - intros i x m best Hi IH.
    destruct (String.eqb_spec (Entity.chainId x) (Config.chainId chain))
      as [Hc | Hc].
    + destruct best as [b |].
      * destruct IH as [Hmax (h0 & row0 & Hrow0 & Hc0 & Hb0)]. split.
        -- intros h row Hrow Hch.
           apply lookup_insert_Some in Hrow as [[<- <-] | [Hne Hrow]];
             [lia |].
           specialize (Hmax h row Hrow Hch). lia.
        -- destruct (Z.max_spec b (Entity.blockNumber x)) as [[_ ->] | [_ ->]].
           ++ exists i, x. by rewrite lookup_insert_eq.
           ++ exists h0, row0. split; [| done].
              rewrite lookup_insert_ne; [done | congruence].
      * split.
        -- intros h row Hrow Hch.
           apply lookup_insert_Some in Hrow as [[<- <-] | [Hne Hrow]];
             [lia |].
           by destruct (IH h row Hrow).
        -- exists i, x. by rewrite lookup_insert_eq.
    + destruct best as [b |].
      * destruct IH as [Hmax (h0 & row0 & Hrow0 & Hc0 & Hb0)]. split.
        -- intros h row Hrow Hch.
           apply lookup_insert_Some in Hrow as [[<- <-] | [Hne Hrow]];
             [done | by apply (Hmax h row)].
        -- exists h0, row0. split; [| done].
           rewrite lookup_insert_ne; [done | congruence].
      * intros h row Hrow.
        apply lookup_insert_Some in Hrow as [[<- <-] | [Hne Hrow]];
          [done | by apply (IH h row)].
Qed.

(** X14.  Without a checkpoint in Redis, [loadLastProcessedBlock] looks
    at the rows of the chain.  When there are some, it returns the
    highest block number among them as the decimal string the driver
    reads from the [bigint] column, not as a number, and writes that
    string to Redis; [start] then leaves the field [lastProcessedBlock]
    holding a string.  When there is none, it returns the number
    [startBlock - 1] and writes its decimal string to Redis. *)
Theorem loadLastProcessedBlock_from_table (chain : Config.ChainConfig)
  (network : string -> Ethers.Provider) (formatUnits : string -> Z -> string)
  (fuel : nat) (stopDuring : nat -> bool) (s : Crawler.State) :
  Crawler.isRunning s = false ->
  Crawler.redis s !! Crawler.cacheKey chain = None ->
  (exists b h row,
     Crawler.table s !! h = Some row
     /\ Entity.chainId row = Config.chainId chain
     /\ Entity.blockNumber row = b
     /\ (forall h' row', Crawler.table s !! h' = Some row' ->
          Entity.chainId row' = Config.chainId chain ->
          Entity.blockNumber row' <= b)
     /\ loadLastProcessedBlock chain false s
        = (StringBlock (stringOfBigInt b),
           Crawler.setRedis
             (<[Crawler.cacheKey chain := stringOfBigInt b]> (Crawler.redis s))
             s)
     /\ start chain network formatUnits fuel stopDuring false s
        = CheckpointIsString
            (Crawler.setRedis
               (<[Crawler.cacheKey chain := stringOfBigInt b]>
                  (Crawler.redis s)) s)
            (stringOfBigInt b))
  \/ ((forall h row, Crawler.table s !! h = Some row ->
         Entity.chainId row <> Config.chainId chain)
      /\ loadLastProcessedBlock chain false s
         = (NumberBlock (Config.startBlock chain - 1),
            Crawler.setRedis
              (<[Crawler.cacheKey chain
                 := stringOfBigInt (Config.startBlock chain - 1)]>
                 (Crawler.redis s)) s)).
Proof.
  intros Hrun Hmiss. unfold start, loadLastProcessedBlock, latestBlockNumber.
  rewrite Hrun, Hmiss.
  pose proof (highestBlock_spec chain (Crawler.table s)) as Hspec.
  destruct (highestBlock chain (Crawler.table s)) as [b |]; simpl.
  - destruct Hspec as [Hmax (h & row & Hrow & Hc & Hb)].
    left. exists b, h, row. by repeat split.
  - right. by split.
Qed.

(** The table of S1 with an empty Redis. *)
Lemma loadLastProcessedBlock_from_table_witness :
  (exists b h row,
     Crawler.table Scenario.restartedS1 !! h = Some row
     /\ Entity.chainId row = Config.chainId Scenario.chain1
     /\ Entity.blockNumber row = b
     /\ (forall h' row', Crawler.table Scenario.restartedS1 !! h' = Some row' ->
          Entity.chainId row' = Config.chainId Scenario.chain1 ->
          Entity.blockNumber row' <= b)
     /\ loadLastProcessedBlock Scenario.chain1 false Scenario.restartedS1
        = (StringBlock (stringOfBigInt b),
           Crawler.setRedis
             (<[Crawler.cacheKey Scenario.chain1 := stringOfBigInt b]>
                (Crawler.redis Scenario.restartedS1))
             Scenario.restartedS1)
     /\ start Scenario.chain1 (Scenario.serving 1250 []) formatUnitsDigits
          300 Scenario.never false Scenario.restartedS1
        = CheckpointIsString
            (Crawler.setRedis
               (<[Crawler.cacheKey Scenario.chain1 := stringOfBigInt b]>
                  (Crawler.redis Scenario.restartedS1)) Scenario.restartedS1)
            (stringOfBigInt b))
  \/ ((forall h row, Crawler.table Scenario.restartedS1 !! h = Some row ->
         Entity.chainId row <> Config.chainId Scenario.chain1)
      /\ loadLastProcessedBlock Scenario.chain1 false Scenario.restartedS1
         = (NumberBlock (Config.startBlock Scenario.chain1 - 1),
            Crawler.setRedis
              (<[Crawler.cacheKey Scenario.chain1
                 := stringOfBigInt (Config.startBlock Scenario.chain1 - 1)]>
                 (Crawler.redis Scenario.restartedS1))
              Scenario.restartedS1)).
Proof.
  apply (loadLastProcessedBlock_from_table Scenario.chain1
           (Scenario.serving 1250 []) formatUnitsDigits 300 Scenario.never
           Scenario.restartedS1).
  - reflexivity.
  - reflexivity.
Defined.

(** The same start, run: the crawler is left with the string 1005. *)
Example start_from_table_holds_a_string :
  exists s1,
    start Scenario.chain1 (Scenario.serving 1250 []) formatUnitsDigits
      300 Scenario.never false Scenario.restartedS1
    = CheckpointIsString s1 "1005"
    /\ Crawler.redis s1 !! "last_processed_block:1" = Some "1005".
Proof. eexists. split; vm_compute; reflexivity. Qed.

(** X15.  A restart with an empty block map resumes after the stored
    checkpoint: when Redis holds the checkpoint [n] and the head can be
    read, [start] runs a cycle whose windows begin at [n + 1] and follow
    one another up to the head, skipping nothing and repeating nothing;
    no reorg is looked for. *)
Theorem start_resumes_after_checkpoint (chain : Config.ChainConfig)
  (network : string -> Ethers.Provider) (formatUnits : string -> Z -> string)
  (fuel : nat) (stopDuring : nat -> bool) (s : Crawler.State)
  (n latestBlock : Z) :
  Crawler.isRunning s = false ->
  Crawler.blockMap s = ∅ ->
  Crawler.redis s !! Crawler.cacheKey chain = Some (stringOfBigInt n) ->
  Crawler.getLatestBlockNumber chain network = Return latestBlock ->
  1 <= Config.batchSize chain ->
  (Z.to_nat (latestBlock - n) < fuel)%nat ->
  exists r,
    start chain network formatUnits fuel stopDuring false s = Started (Some r)
    /\ chained (Config.batchSize chain) (n + 1) latestBlock (Crawler.windows r)
    /\ Crawler.lastProcessedBlock (Crawler.finalState r)
       = endOf (Crawler.windows r) n
    /\ (Crawler.scheduled r
        = Crawler.CrawlAfter (Config.restartDelay chain) true ->
        Crawler.lastProcessedBlock (Crawler.finalState r) = Z.max n latestBlock).
Proof.
  intros Hrun Hmap Hkey Hlatest Hsize Hfuel.
  unfold start, loadLastProcessedBlock.
  rewrite Hrun, Hkey, stringOfBigInt_truthy, parseInt_stringOfBigInt.
  rewrite CheckpointFacts.crawl_cases. unfold Crawler.checkForReorg. simpl. rewrite Hrun, Hlatest.
  rewrite ProbeFacts.checkForReorgFrom_uncached
    by (intros m _; rewrite Hmap; apply lookup_empty).
  destruct (CycleFacts.crawlLoop_windows chain network formatUnits stopDuring
              latestBlock Hsize fuel 0 (n + 1)
              (Crawler.setBlockMap (Crawler.blockMap s)
                 (Crawler.setIsRunning true
                    (Crawler.setLastProcessedBlock n s))) [])
    as (r & ws & Hr & Hw & Hch & Hend & Hsched).
  { replace (latestBlock - (n + 1) + 1) with (latestBlock - n) by lia.
    exact Hfuel. }
  exists r. simpl in Hw, Hend. rewrite Hw.
  split; [by rewrite Hr |]. split; [exact Hch |]. split; [exact Hend |].
  intros Hs. rewrite Hend.
  destruct Hsched as [[_ He] | [Hf _]]; [| congruence].
  by replace (n + 1 - 1) with n in He by lia.
Qed.

(** The state after S1, restarted with the head at 1250. *)
Lemma start_resumes_after_checkpoint_witness :
  exists r,
    start Scenario.chain1 (Scenario.serving 1250 []) formatUnitsDigits 300
      Scenario.never false Scenario.uncachedS1
    = Started (Some r)
    /\ chained (Config.batchSize Scenario.chain1) (1010 + 1) 1250
         (Crawler.windows r)
    /\ Crawler.lastProcessedBlock (Crawler.finalState r)
       = endOf (Crawler.windows r) 1010
    /\ (Crawler.scheduled r
        = Crawler.CrawlAfter (Config.restartDelay Scenario.chain1) true ->
        Crawler.lastProcessedBlock (Crawler.finalState r) = Z.max 1010 1250).
Proof.
  apply (start_resumes_after_checkpoint Scenario.chain1
           (Scenario.serving 1250 []) formatUnitsDigits 300 Scenario.never
           Scenario.uncachedS1 1010 1250).
  - reflexivity.
  - reflexivity.
  - reflexivity.
  - reflexivity.
  - simpl. lia.
  - vm_compute. lia.
Defined.

End StartupFacts.

(** ** The fallback verifier, on every request *)

Module VerifierFacts.
Import Js Store Spec Terms StoreFacts.

Lemma getNetworkByChainId_chainId (rpcUrlsOf : Networks.Network -> list string)
  (chainId : string) (net : Networks.Network) :
  Fallback.getNetworkByChainId rpcUrlsOf chainId = Some net ->
  Config.chainId (Networks.getChainConfig rpcUrlsOf net) = chainId.
Proof.
  unfold Fallback.getNetworkByChainId. intros H.
  apply List.find_some in H as [_ H]. by apply String.eqb_eq.
Qed.

Section WithReceipt.

Variable chainConfig : Config.ChainConfig.
Variable transactionReceipt : Ethers.TransactionReceipt.
Variable block : Ethers.Block.
Variable latestBlock : Z.

(** The rows the save loop adds are rows of the receipt. *)
Lemma saveAll_rows (parsedEvents : list Parser.ParsedEvent) :
  forall (t t' : Table) (saved : list Entity.TransactionEntity)
         (res : DbError + list Entity.TransactionEntity),
  Fallback.saveAll chainConfig transactionReceipt block latestBlock
    parsedEvents t saved = (t', res) ->
  (forall h row, t !! h = Some row -> t' !! h = Some row)
  /\ (forall h row, t' !! h = Some row ->
        t !! h = Some row
        \/ (h = Ethers.receiptHash transactionReceipt
            /\ Entity.chainId row = Config.chainId chainConfig)).
Proof.
  induction parsedEvents as [| pe pes IH]; intros t t' saved res H; simpl in H.
  - injection H as <- _. split; [done | by left].
  - destruct (insertOne t _) as [t1 | e] eqn:Hins.
    + apply insertOne_inv in Hins as (row1 & Hm & Hnone & ->). simpl in *.
      destruct (IH _ _ _ _ H) as [Hkeep Hnew]. split.
      * intros h row Hrow. apply Hkeep.
        rewrite lookup_insert_ne; [done | congruence].
      * intros h row Hrow. destruct (Hnew h row Hrow) as [Hold | Hn];
          [| by right].
        apply lookup_insert_Some in Hold as [[<- <-] | [_ Hold]];
          [right | by left].
        split; [reflexivity |].
        apply materialize_inv in Hm.
        by destruct Hm as (_ & _ & _ & _ & _ & -> & _).
    + injection H as <- _. split; [done | by left].
Qed.

(** The loop ends well with one parsed event only: a second one hits the
    unique index. *)
Lemma saveAll_saved (parsedEvents : list Parser.ParsedEvent)
  (t t' : Table) (saved0 saved : list Entity.TransactionEntity) :
  Fallback.saveAll chainConfig transactionReceipt block latestBlock
    parsedEvents t saved0 = (t', inr saved) ->
  (parsedEvents = [] /\ t' = t /\ saved = saved0)
  \/ exists pe row,
       parsedEvents = [pe]
       /\ t !! Ethers.receiptHash transactionReceipt = None
       /\ t' !! Ethers.receiptHash transactionReceipt = Some row
       /\ Entity.chainId row = Config.chainId chainConfig
       /\ saved = (saved0 ++ [row])%list.
Proof.
  destruct parsedEvents as [| pe pes]; simpl.
  - intros [= <- <-]. by left.
  - destruct (insertOne t _) as [t1 | e] eqn:Hins; [| discriminate].
    apply insertOne_inv in Hins as (row1 & Hm & Hnone & ->). simpl in *.
    rewrite lookup_insert_eq.
    destruct pes as [| pe2 pes]; simpl.
    + intros [= <- <-]. right. exists pe, row1.
      split; [reflexivity |]. split; [exact Hnone |].
      split; [apply lookup_insert_eq |]. split; [| reflexivity].
      apply materialize_inv in Hm.
      by destruct Hm as (_ & _ & _ & _ & _ & -> & _).
    + destruct (insertOne_taken
                  (<[Ethers.receiptHash transactionReceipt := row1]> t)
                  (Fallback.createTransactionEntity pe2 chainConfig
                     transactionReceipt block latestBlock)) as [e He].
      { simpl. rewrite lookup_insert_eq. eauto. }
      rewrite He. discriminate.
Qed.

End WithReceipt.

Section WithEnvironment.

Variable rpcUrlsOf : Networks.Network -> list string.
Variable network : string -> Ethers.Provider.
Variable formatUnits : string -> Z -> string.

(** A request either leaves the table alone or goes through the save
    loop for a receipt of the requested chain. *)
Lemma checkAndSave_cases (chainId transactionHash : string) (t t' : Table)
  (res : Fallback.VerifyResult) :
  Fallback.checkAndSaveMissingTransaction rpcUrlsOf network formatUnits
    chainId transactionHash t = (t', res) ->
  (t' = t
   /\ (Fallback.found res = true ->
       Fallback.findByChainIdAndTransactionHash t chainId transactionHash
       = Fallback.transaction res
       /\ is_Some (Fallback.transaction res)))
  \/ exists chainConfig receipt block latestBlock parsedEvents saved,
       Config.chainId chainConfig = chainId
       /\ Fallback.findByChainIdAndTransactionHash t chainId transactionHash
          = None
       /\ Fallback.fetchTransactionReceipt network chainConfig transactionHash
          = Some receipt
       /\ parsedEvents <> []
       /\ Fallback.saveAll chainConfig receipt block latestBlock
            parsedEvents t [] = (t', saved)
       /\ match saved with
          | inl _ => Fallback.found res = false
          | inr rows =>
              Fallback.found res = true
              /\ Fallback.transaction res = head rows
          end.
Proof.
  unfold Fallback.checkAndSaveMissingTransaction.
  destruct (Fallback.findByChainIdAndTransactionHash t chainId transactionHash)
    as [existing |] eqn:Hfind.
  { intros [= <- <-]. left. split; [reflexivity |]. simpl. eauto. }
  destruct (Fallback.getNetworkByChainId rpcUrlsOf chainId) as [net |] eqn:Hnet;
    [| intros [= <- <-]; left; by split].
  destruct (Fallback.fetchTransactionReceipt network _ transactionHash)
    as [receipt |] eqn:Hreceipt;
    [| intros [= <- <-]; left; by split].
  destruct (Fallback.extractRelevantEvents _ receipt) as [| ev evs] eqn:Hrel;
    [intros [= <- <-]; left; by split |].
  destruct (Fallback.fetchBlock network _ _) as [block |];
    [| intros [= <- <-]; left; by split].
  destruct (Fallback.getLatestBlockNumber network _) as [latestBlock | err];
    [| intros [= <- <-]; left; by split].
  destruct (Parser.parseEvents formatUnits (ev :: evs)) as [| pe pes] eqn:Hparsed;
    [intros [= <- <-]; left; by split |].
  destruct (Fallback.saveAll _ receipt block latestBlock (pe :: pes) t [])
    as [t1 saved] eqn:Hsave.
  intros H. right.
  exists (Networks.getChainConfig rpcUrlsOf net), receipt, block, latestBlock,
    (pe :: pes), saved.
  split; [by apply getNetworkByChainId_chainId |].
  split; [reflexivity |]. split; [exact Hreceipt |]. split; [discriminate |].
  destruct saved as [e | rows]; injection H as <- <-; by split.
Qed.

(** X16.  A request to the fallback verifier never changes or removes a
    row that is in the table; it adds at most one row, and a row it adds
    belongs to the requested chain. *)
Theorem verifier_only_adds_one_row (chainId transactionHash : string)
  (t t' : Table) (res : Fallback.VerifyResult) :
  Fallback.checkAndSaveMissingTransaction rpcUrlsOf network formatUnits
    chainId transactionHash t = (t', res) ->
  (forall h row, t !! h = Some row -> t' !! h = Some row)
  /\ (forall h row, t' !! h = Some row -> t !! h = None ->
      Entity.chainId row = chainId)
  /\ (forall h1 h2, is_Some (t' !! h1) -> t !! h1 = None ->
      is_Some (t' !! h2) -> t !! h2 = None -> h1 = h2).
Proof.
  intros H.
  apply checkAndSave_cases in H
    as [[-> _] | (cfg & receipt & block & latestBlock & pes & saved
                  & Hc & _ & _ & _ & Hsave & _)].
  - split; [done |]. split.
    + intros h row Hrow Hnone. congruence.
    + intros h1 h2 [r1 H1] Hn1. congruence.
  - apply saveAll_rows in Hsave as [Hkeep Hnew]. split; [exact Hkeep |].
    split.
    + intros h row Hrow Hnone.
      destruct (Hnew h row Hrow) as [Hold | [_ Hch]]; congruence.
    + intros h1 h2 [r1 H1] Hn1 [r2 H2] Hn2.
      destruct (Hnew h1 r1 H1) as [Hold | [-> _]]; [congruence |].
      destruct (Hnew h2 r2 H2) as [Hold | [-> _]]; [congruence | reflexivity].
Qed.

(** X17.  A second request for a transaction the verifier has found
    answers from the table: it finds the row of the first request, says
    that the transaction already exists and leaves the table as it is,
    provided the endpoints answer a receipt request with the receipt of
    the requested hash. *)
Theorem verifier_second_request (chainId transactionHash : string)
  (t t' : Table) (res : Fallback.VerifyResult) :
  (forall chainConfig receipt,
     Fallback.fetchTransactionReceipt network chainConfig transactionHash
     = Some receipt ->
     Ethers.receiptHash receipt = transactionHash) ->
  Fallback.checkAndSaveMissingTransaction rpcUrlsOf network formatUnits
    chainId transactionHash t = (t', res) ->
  Fallback.found res = true ->
  is_Some (Fallback.transaction res)
  /\ Fallback.checkAndSaveMissingTransaction rpcUrlsOf network formatUnits
       chainId transactionHash t'
     = (t', Fallback.mkVerifyResult true (Fallback.transaction res)
              "Transaction already exists in database").
Proof.
  intros Hhonest H Hfound.
  assert (Hrow : Fallback.findByChainIdAndTransactionHash t' chainId
                   transactionHash = Fallback.transaction res
                 /\ is_Some (Fallback.transaction res)).
  { apply checkAndSave_cases in H
      as [[-> Hsame] | (cfg & receipt & block & latestBlock & pes & saved
                        & Hc & _ & Hreceipt & Hpes & Hsave & Hres)].
    - by apply Hsame.
    - destruct saved as [e | rows]; [congruence |].
      destruct Hres as [_ Htx].
      apply saveAll_saved in Hsave
        as [[-> _] | (pe & row & _ & _ & Hrow & Hch & ->)]; [done |].
      rewrite (Hhonest cfg receipt Hreceipt) in Hrow.
      unfold Fallback.findByChainIdAndTransactionHash.
      rewrite Hrow, Hch, Hc, String.eqb_refl, Htx. simpl. eauto. }
  destruct Hrow as [Hfind [row Htx]]. split; [eauto |].
  unfold Fallback.checkAndSaveMissingTransaction.
  rewrite Hfind, Htx. reflexivity.
Qed.

End WithEnvironment.

(** The request of S6, on the table of the offline crawler. *)
Lemma verifier_only_adds_one_row_witness :
  (forall h row,
     Crawler.table Scenario.offline !! h = Some row ->
     fst Scenario.verifiedS6 !! h = Some row)
  /\ (forall h row,
        fst Scenario.verifiedS6 !! h = Some row ->
        Crawler.table Scenario.offline !! h = None ->
        Entity.chainId row = "1")
  /\ (forall h1 h2,
        is_Some (fst Scenario.verifiedS6 !! h1) ->
        Crawler.table Scenario.offline !! h1 = None ->
        is_Some (fst Scenario.verifiedS6 !! h2) ->
        Crawler.table Scenario.offline !! h2 = None -> h1 = h2).
Proof.
  apply (verifier_only_adds_one_row Scenario.environment Scenario.servingS6
           formatUnitsDigits "1" "0xBEEF" (Crawler.table Scenario.offline)
           (fst Scenario.verifiedS6) (snd Scenario.verifiedS6)).
  reflexivity.
Defined.

(** The request of S6, made a second time. *)
Lemma verifier_second_request_witness :
  Fallback.checkAndSaveMissingTransaction Scenario.environment
    Scenario.servingS6 formatUnitsDigits "1" "0xBEEF" (fst Scenario.verifiedS6)
  = (fst Scenario.verifiedS6,
     Fallback.mkVerifyResult true
       (Fallback.transaction (snd Scenario.verifiedS6))
       "Transaction already exists in database").
Proof.
  apply (verifier_second_request Scenario.environment Scenario.servingS6
           formatUnitsDigits "1" "0xBEEF" (Crawler.table Scenario.offline)
           (fst Scenario.verifiedS6) (snd Scenario.verifiedS6)).
  - intros cfg receipt H. unfold Fallback.fetchTransactionReceipt in H.
    destruct (Crawler.call cfg Scenario.servingS6 _) as [r | e] eqn:Hcall;
      [| discriminate].
    subst r. unfold Crawler.call, CallRpc.callRpc in Hcall.
    destruct (Config.rpcUrls cfg) as [| u us]; [discriminate |].
    simpl in Hcall. by injection Hcall as <-.
  - reflexivity.
  - reflexivity.
Defined.

End VerifierFacts.

(** ** The events of a receipt and the row made of them *)

Module ReceiptFacts.
Import Js Store Spec Terms.

Lemma sameEvent_self (log : Ethers.Log) (name : string) (args : Ethers.Result) :
  Ethers.parseLog log = Some (name, args) ->
  Fallback.sameEvent name args log = true.
Proof.
  intros H. unfold Fallback.sameEvent. rewrite H.
  by rewrite !String.eqb_refl.
Qed.

Lemma rebuilt_logs (transactionReceipt : Ethers.TransactionReceipt)
  (logs : list Ethers.Log) :
  (forall log, List.In log logs ->
               List.In log (Ethers.logs transactionReceipt)) ->
  Forall2 (rebuiltFrom transactionReceipt)
    (omap (fun ev : string * Ethers.Result =>
             match List.find (Fallback.sameEvent ev.1 ev.2)
                     (Ethers.logs transactionReceipt) with
             | Some logEntry =>
                 Some {| Ethers.eventName := ev.1;
                         Ethers.address := Ethers.logAddress logEntry;
                         Ethers.blockNumber := Ethers.logBlockNumber logEntry;
                         Ethers.transactionHash :=
                           Ethers.logTransactionHash logEntry;
                         Ethers.blockHash := Ethers.logBlockHash logEntry;
                         Ethers.args := Some ev.2 |}
             | None => None
             end)
          (filter (fun ev : string * Ethers.Result =>
                     Fallback.isRelevantName ev.1)
                  (omap Ethers.parseLog logs)))
    (List.filter relevantLog logs).
Proof.
  induction logs as [| log logs IH]; intros Hsub; [constructor |].
  assert (Hrest : forall l, List.In l logs ->
                            List.In l (Ethers.logs transactionReceipt))
    by (intros l Hl; apply Hsub; by right).
  specialize (IH Hrest). simpl. unfold relevantLog at 1.
  destruct (Ethers.parseLog log) as [[name args] |] eqn:Hparse;
    [| exact IH].
  rewrite filter_cons. simpl.
  destruct (Fallback.isRelevantName name) eqn:Hrel.
  - rewrite decide_True by done. simpl.
    destruct (List.find (Fallback.sameEvent name args)
                (Ethers.logs transactionReceipt)) as [entry |] eqn:Hfind.
    + constructor; [| exact IH].
      apply List.find_some in Hfind as [Hin Hsame].
      exists args, entry. simpl. by repeat split.
    + exfalso.
      pose proof (List.find_none _ _ Hfind log (Hsub log (or_introl eq_refl)))
        as Hno.
      by rewrite (sameEvent_self log name args Hparse) in Hno.
  - rewrite decide_False by (by intros []). exact IH.
Qed.

(** X18.  [extractRelevantEvents] answers the empty list unless the
    receipt is addressed to the contract of the chain (compared without
    case); if it is, the answer has one event log for each log of the
    receipt that decodes to a Deposit or a Withdraw, in the order of the
    receipt, none left out: each has the name and the arguments of its
    log. *)
Theorem extractRelevantEvents_one_per_log (chainConfig : Config.ChainConfig)
  (transactionReceipt : Ethers.TransactionReceipt) :
  match Ethers.to transactionReceipt with
  | Some recipient =>
      if String.eqb (toLowerCase recipient)
           (toLowerCase (Config.contract chainConfig))
      then Forall2 (rebuiltFrom transactionReceipt)
             (Fallback.extractRelevantEvents chainConfig transactionReceipt)
             (List.filter relevantLog (Ethers.logs transactionReceipt))
      else Fallback.extractRelevantEvents chainConfig transactionReceipt = []
  | None => Fallback.extractRelevantEvents chainConfig transactionReceipt = []
  end.
Proof.
  unfold Fallback.extractRelevantEvents.
  destruct (Ethers.to transactionReceipt) as [recipient |]; [| reflexivity].
  destruct (String.eqb _ _); simpl; [| reflexivity].
  by apply rebuilt_logs.
Qed.

(** X19.  The row the verifier makes of a parsed log: the user, the
    token and the operation are those of the log, the hash is the one of
    the receipt, the block time is the block's timestamp in
    milliseconds, the decimals are the fourth argument, or 18 when it is
    zero, the raw amount is the amount in decimal, and the amount is
    what the numeric(65,18) column returns for the raw amount formatted
    at the decimals the row stores (the column default 0 for a zero
    amount).  The log had an amount that is zero or decimals up to
    80. *)
Theorem verifier_row_of_event (formatUnits : string -> Z -> string)
  (event : Ethers.EventLog) (parsedEvent : Parser.ParsedEvent)
  (chainConfig : Config.ChainConfig)
  (transactionReceipt : Ethers.TransactionReceipt) (block : Ethers.Block)
  (latestBlock : Z) (t t' : Table) :
  Parser.parseSingleEvent formatUnits event = Some parsedEvent ->
  insertOne t (Fallback.createTransactionEntity parsedEvent chainConfig
                 transactionReceipt block latestBlock) = DbOk t' ->
  exists row args,
    t' !! Ethers.receiptHash transactionReceipt = Some row
    /\ Ethers.args event = Some args
    /\ formats args = true
    /\ Entity.address row = Ethers.arg0 args
    /\ Ethers.arg0 args <> ""
    /\ Entity.tokenAddress row = Some (Ethers.arg1 args)
    /\ Entity.operation row = operationOf (Ethers.eventName event)
    /\ Entity.contractAddress row = Some (Ethers.address event)
    /\ Entity.chainId row = Config.chainId chainConfig
    /\ Entity.transactionHash row = Ethers.receiptHash transactionReceipt
    /\ Entity.blockTime row = Ethers.timestamp block * 1000
    /\ Entity.tokenDecimals row = decimalsOf args
    /\ (0 <= Ethers.arg2 args < 2 ^ 256 ->
        Entity.rawAmount row = stringOfBigInt (Ethers.arg2 args))
    /\ numeric 65 18
         (if Ethers.arg2 args =? 0 then "0"
          else formatUnits (stringOfBigInt (Ethers.arg2 args))
                 (Entity.tokenDecimals row))
       = DbOk (Entity.amount row).
Proof.
  intros Hparse Hins.
  assert (Hop : Parser.operation parsedEvent
                = operationOf (Ethers.eventName event)).
  { pose proof (ParsingFacts.parseSingleEvent_tracked formatUnits event) as H.
    rewrite Hparse in H. by destruct H as [_ (_ & Hop & _)]. }
  apply StoreFacts.insertOne_inv in Hins as (row & Hm & _ & ->).
  apply ParserFacts.parseSingleEvent_args in Hparse
    as (args & Hargs & Hf & Ha & Ht & Hr & Hd & Hamt & _ & _ & _ & Hc).
  exists row, args. rewrite lookup_insert_eq.
  apply StoreFacts.materialize_inv in Hm.
  cbn [Fallback.createTransactionEntity Partial.address Partial.amount
       Partial.rawAmount Partial.operation Partial.transactionHash
       Partial.chainId Partial.blockNumber Partial.blockTime
       Partial.blockHash Partial.tokenAddress Partial.tokenDecimals
       Partial.contractAddress Partial.confirmations
       Partial.requireConfirmations Partial.status] in Hm.
  destruct Hm as (Hma & Hmr & Hmd & Hmo & Hmh & Hmc & _ & Hmt & _ & Hmta
                  & Hmtd & Hmca & _).
  assert (Hdec : Entity.tokenDecimals row = decimalsOf args).
  { rewrite Hmtd, Hd. unfold Parser.extractDecimals, truthyBigInt, decimalsOf.
    destruct (Z.eqb_spec (Ethers.arg3 args) 0) as [Hz | Hz]; simpl;
      [reflexivity |].
    by destruct (Z.eqb_spec (Ethers.arg3 args) 0). }
  assert (Haddr : Ethers.arg0 args <> ""
                  /\ Entity.address row = Ethers.arg0 args).
  { rewrite Ha in Hmd. unfold Parser.extractUserAddress in Hmd.
    destruct (Ethers.arg0 args) as [| c rest]; simpl in Hmd;
      [discriminate |].
    split; [discriminate | congruence]. }
  destruct Haddr as [Hne Haddr].
  split; [reflexivity |]. split; [exact Hargs |]. split; [exact Hf |].
  split; [exact Haddr |]. split; [exact Hne |].
  split.
  { rewrite Hmta, Ht. unfold Parser.extractTokenAddress.
    by destruct (Ethers.arg1 args). }
  split; [by rewrite Hmo |].
  split; [by rewrite Hmca, Hc |].
  split; [exact Hmc |]. split; [exact Hmh |]. split; [exact Hmt |].
  split; [exact Hdec |].
  split.
  - intros Hrange.
    assert (Hraw : default "0" (Parser.rawAmount parsedEvent)
                   = stringOfBigInt (Ethers.arg2 args)).
    { rewrite Hr. unfold Parser.extractRawAmount, truthyBigInt.
      destruct (Z.eqb_spec (Ethers.arg2 args) 0) as [-> | _]; reflexivity. }
    rewrite Hraw in Hmr.
    rewrite NumericFacts.numeric_integer in Hmr
      by (by apply NumericFacts.uint256_fits).
    congruence.
  - rewrite <- Hma, Hamt, Hdec.
    by destruct (Ethers.arg2 args =? 0).
Qed.

(** The withdrawal of S6. *)
Lemma verifier_row_of_event_witness :
  exists row args,
    fst Scenario.verifiedS6 !! Ethers.receiptHash Scenario.receiptS6
    = Some row
    /\ Ethers.args Scenario.eventS6 = Some args
    /\ formats args = true
    /\ Entity.address row = Ethers.arg0 args
    /\ Ethers.arg0 args <> ""
    /\ Entity.tokenAddress row = Some (Ethers.arg1 args)
    /\ Entity.operation row = operationOf (Ethers.eventName Scenario.eventS6)
    /\ Entity.contractAddress row = Some (Ethers.address Scenario.eventS6)
    /\ Entity.chainId row
       = Config.chainId
           (Networks.getChainConfig Scenario.environment Networks.ETHEREUM)
    /\ Entity.transactionHash row = Ethers.receiptHash Scenario.receiptS6
    /\ Entity.blockTime row = Ethers.timestamp (Scenario.blockAt 1008) * 1000
    /\ Entity.tokenDecimals row = decimalsOf args
    /\ (0 <= Ethers.arg2 args < 2 ^ 256 ->
        Entity.rawAmount row = stringOfBigInt (Ethers.arg2 args))
    /\ numeric 65 18
         (if Ethers.arg2 args =? 0 then "0"
          else formatUnitsDigits (stringOfBigInt (Ethers.arg2 args))
                 (Entity.tokenDecimals row))
       = DbOk (Entity.amount row).
Proof.
  apply (verifier_row_of_event formatUnitsDigits Scenario.eventS6
           Scenario.withdrawS6
           (Networks.getChainConfig Scenario.environment Networks.ETHEREUM)
           Scenario.receiptS6 (Scenario.blockAt 1008) 1025
           ∅ (fst Scenario.verifiedS6)).
  - vm_compute. reflexivity.
  - vm_compute. reflexivity.
Defined.

(** The amount the verifier stores is not always the formatted one: one
    unit of a token with 20 decimals is formatted as
    0.00000000000000000001 and stored as zero. *)
Example verifier_rounds_small_amounts :
  exists pe t row,
    Parser.parseSingleEvent formatUnitsDigits
      (Scenario.eventLog "Withdraw" "0xBEEF" 1008 1 20) = Some pe
    /\ Parser.amount pe = Some "0.00000000000000000001"
    /\ insertOne ∅
         (Fallback.createTransactionEntity pe
            (Networks.getChainConfig Scenario.environment Networks.ETHEREUM)
            Scenario.receiptS6 (Scenario.blockAt 1008) 1025) = DbOk t
    /\ t !! "0xBEEF" = Some row
    /\ Entity.tokenDecimals row = 20
    /\ Entity.amount row = "0.000000000000000000".
Proof.
  eexists _, _, _. split; [reflexivity |]. split; [reflexivity |].
  split; [vm_compute; reflexivity |].
  split; [vm_compute; reflexivity |]. by split.
Qed.

(** X20.  [getNetworkByChainId] inverts [getChainConfig]: a chain id is
    answered with a network exactly when it is the chain id of that
    network's configuration, so each of the eight networks is found by
    its own id and no other id is served. *)
Theorem getNetworkByChainId_inverts (rpcUrlsOf : Networks.Network -> list string)
  (chainId : string) (net : Networks.Network) :
  Fallback.getNetworkByChainId rpcUrlsOf chainId = Some net
  <-> Config.chainId (Networks.getChainConfig rpcUrlsOf net) = chainId.
Proof.
  split; [apply VerifierFacts.getNetworkByChainId_chainId |].
  intros <-. by destruct net.
Qed.

End ReceiptFacts.

(** ** Rollbacks one after another *)

Module RollbackFacts.
Import Js Store Spec Terms.

(** X21.  A rollback to a block at or below an earlier rollback makes
    the earlier one redundant: the table, the block map, the checkpoint
    and Redis end as if only the deeper rollback had run.  A rollback
    run twice is the case of equal blocks. *)
Theorem rollbackReorg_absorbs (chain : Config.ChainConfig)
  (first deeper : Z) (s : Crawler.State) :
  deeper <= first ->
  Crawler.rollbackReorg chain deeper (Crawler.rollbackReorg chain first s)
  = Crawler.rollbackReorg chain deeper s.
Proof.
  intros Hle.
  unfold Crawler.rollbackReorg, Crawler.updateLastProcessedBlock,
    Crawler.setLastProcessedBlock, Crawler.setRedis, Crawler.setBlockMap,
    Crawler.setTable.
  destruct s as [lp run blocks t redis]. simpl. f_equal.
  - apply map_eq. intros n.
    destruct (filter (fun kv : Z * Crawler.BlockInfo => kv.1 < deeper) blocks
                !! n) as [info |] eqn:Hn.
    + apply map_lookup_filter_Some in Hn as [Hn Hlt]. simpl in Hlt.
      apply map_lookup_filter_Some. split; [| exact Hlt].
      apply map_lookup_filter_Some. split; [exact Hn | simpl; lia].
    + apply map_lookup_filter_None. 
      rewrite map_lookup_filter_None in Hn.
      destruct Hn as [Hn | Hn].
      * left. apply map_lookup_filter_None. by left.
      * right. intros info Hinfo.
        apply map_lookup_filter_Some in Hinfo as [Hinfo _]. by apply Hn.
  - apply map_eq. intros h.
    destruct (filter (fun kv : string * Entity.TransactionEntity =>
                        ~ (Entity.chainId kv.2 = Config.chainId chain
                           /\ deeper <= Entity.blockNumber kv.2)) t !! h)
      as [row |] eqn:Hh.
    + apply map_lookup_filter_Some in Hh as [Hh Hkeep]. simpl in Hkeep.
      apply map_lookup_filter_Some. split; [| exact Hkeep].
      apply map_lookup_filter_Some. split; [exact Hh |]. simpl.
      intros [Hc Hb]. apply Hkeep. split; [exact Hc | lia].
    + apply map_lookup_filter_None.
      rewrite map_lookup_filter_None in Hh.
      destruct Hh as [Hh | Hh].
      * left. apply map_lookup_filter_None. by left.
      * right. intros row Hrow.
        apply map_lookup_filter_Some in Hrow as [Hrow _]. by apply Hh.
  - apply insert_insert_eq.
Qed.

(** The rollback of S4 to block 1008 after one to block 1010. *)
Lemma rollbackReorg_absorbs_witness :
  Crawler.rollbackReorg Scenario.chain1 1008
    (Crawler.rollbackReorg Scenario.chain1 1010 Scenario.cachedS1)
  = Crawler.rollbackReorg Scenario.chain1 1008 Scenario.cachedS1.
Proof.
  apply (rollbackReorg_absorbs Scenario.chain1 1010 1008 Scenario.cachedS1).
  lia.
Defined.

End RollbackFacts.
